(** * Mortality classification: training / evaluation orchestration

    A shallow embedding of [mortality_classification.py] (functions
    [train_test], [train] and [test]) together with the properties its
    specification states about them.

    The Python code is effectful: it writes files, mutates a model, calls
    into torch / sklearn / pandas and may raise at many points.  The
    embedding threads an explicit [World] (files and directories, global
    autograd switch, data-loader randomness, a log of the calls made to
    the collaborators) through a state-and-exception monad [Py].  Library code
    the file only calls (models, metrics, softmax, the optimiser, ...) is
    taken as a parameter, bundled in the class [Collaborators]. *)

From Stdlib Require Import ZArith QArith String Ascii List Lia DecimalString.
From stdpp Require Import base option list gmap strings.

Local Open Scope string_scope.
Local Open Scope list_scope.
Local Open Scope Z_scope.

(** ** Python exceptions *)

Inductive Exn :=
| StopIteration
| UnboundLocalError (var : string)
| IndexError (msg : string)
| ValueError (msg : string)
| RuntimeError (msg : string)
| TypeError (msg : string)
| FileNotFoundError (path : string)
| UnpicklingError (path : string).

Inductive Res (A : Type) :=
| Ok (a : A)
| Raise (e : Exn).
Arguments Ok {A} a.
Arguments Raise {A} e.

Definition is_ok {A} (r : Res A) : bool :=
  match r with Ok _ => true | Raise _ => false end.

(** ** Tensors

    A tensor is its shape, its elements in row-major order and the device it
    lives on.  Only the operations the three functions apply to tensors
    themselves are written out; numerical kernels stay abstract. *)

Inductive Device := cuda | mps | cpu.

Record Tensor (A : Type) := mkTensor {
  shape : list nat;
  data : list A;
  device : Device
}.
Arguments mkTensor {A} shape data device.
Arguments shape {A} t.
Arguments data {A} t.
Arguments device {A} t.

(** [t.to(device)] *)
Definition tensor_to {A} (d : Device) (t : Tensor A) : Tensor A :=
  mkTensor (shape t) (data t) d.

(** [t.cpu()] *)
Definition tensor_cpu {A} (t : Tensor A) : Tensor A := tensor_to cpu t.

(** [torch.LongTensor([])] / [torch.FloatTensor([])]: one dimension of size 0. *)
Definition empty_tensor {A} : Tensor A := mkTensor [0%nat] [] cpu.

(** [t.shape[i]]; indexing a shape tuple out of range raises IndexError. *)
Definition shape_at {A} (t : Tensor A) (i : nat) : Res nat :=
  match shape t !! i with
  | Some n => Ok n
  | None => Raise (IndexError "tuple index out of range")
  end.

(** [t.squeeze(-1)]: drops the last dimension when it has size 1. *)
Definition squeeze_last {A} (t : Tensor A) : Tensor A :=
  match last (shape t) with
  | Some 1%nat => mkTensor (removelast (shape t)) (data t) (device t)
  | _ => t
  end.

Definition shape_eqb (s1 s2 : list nat) : bool := bool_decide (s1 = s2).

(** [torch.cat((a, b), dim=0)].  A zero-dimensional tensor cannot be
    concatenated; a one-dimensional empty tensor is skipped; otherwise the
    shapes must agree in every dimension but the first. *)
Definition torch_cat0 {A} (a b : Tensor A) : Res (Tensor A) :=
  match shape a, shape b with
  | [], _ | _, [] => Raise (RuntimeError "zero-dimensional tensor cannot be concatenated")
  | n :: ra, m :: rb =>
      if shape_eqb (shape a) [0%nat] then Ok b
      else if shape_eqb (shape b) [0%nat] then Ok a
      else if shape_eqb ra rb
      then Ok (mkTensor ((n + m)%nat :: ra) (data a ++ data b) (device a))
      else Raise (RuntimeError "Sizes of tensors must match except in dimension 0")
  end.

Fixpoint pick_blocks {A} (n outer inner i : nat) (l : list A) : list A :=
  match n with
  | O => []
  | S n' => take inner (drop (i * inner) l) ++ pick_blocks n' outer inner i (drop outer l)
  end.

(** [t[:, i]]: index [i] along dimension 1, keeping every other dimension. *)
Definition select_col {A} (i : nat) (t : Tensor A) : Res (Tensor A) :=
  match shape t with
  | n :: c :: rest =>
      if (i <? c)%nat
      then let inner := foldr Nat.mul 1%nat rest in
           Ok (mkTensor (n :: rest) (pick_blocks n (c * inner) inner i (data t)) (device t))
      else Raise (IndexError "index out of bounds for dimension 1")
  | _ => Raise (IndexError "too many indices for tensor")
  end.

(** ** Paths *)

Fixpoint occurs (c : ascii) (s : string) : bool :=
  match s with
  | EmptyString => false
  | String x s' => Ascii.eqb x c || occurs c s'
  end.

(** The directory part of a path: the text before its last [/]. *)
Fixpoint dirname (path : string) : string :=
  match path with
  | EmptyString => EmptyString
  | String c rest => if occurs "/" rest then String c (dirname rest) else EmptyString
  end.

(** ** Batches, data loaders, models *)

(** The six-field tuple every loader yields:
    [data, times, static, labels, mask, delta]. *)
Record Batch (S : Type) := mkBatch {
  b_data : Tensor S;
  b_times : Tensor S;
  b_static : Tensor S;
  b_labels : Tensor Z;
  b_mask : Tensor S;
  b_delta : Tensor S
}.
Arguments mkBatch {S}.
Arguments b_data {S} b.
Arguments b_times {S} b.
Arguments b_static {S} b.
Arguments b_labels {S} b.
Arguments b_mask {S} b.
Arguments b_delta {S} b.

(** The keyword arguments of a model call:
    [model(x=, static=, time=, sensor_mask=, delta=)]. *)
Record Inputs (S : Type) := mkInputs {
  in_x : Tensor S;
  in_static : Tensor S;
  in_time : Tensor S;
  in_sensor_mask : Tensor S;
  in_delta : Tensor S
}.
Arguments mkInputs {S}.
Arguments in_x {S} i.
Arguments in_static {S} i.
Arguments in_time {S} i.
Arguments in_sensor_mask {S} i.
Arguments in_delta {S} i.

Inductive Collate := paired_collate_fn_truncate | non_pair_collate_fn_truncate.

(** [DataLoader(dataset, batch_size, shuffle=, num_workers=, collate_fn=,
    pin_memory=)]: the object records the arguments it was built from. *)
Record DataLoader (D : Type) := mkDataLoader {
  dl_dataset : D;
  dl_batch_size : Z;
  dl_shuffle : bool;
  dl_num_workers : Z;
  dl_collate_fn : Collate;
  dl_pin_memory : bool
}.
Arguments mkDataLoader {D}.
Arguments dl_dataset {D} d.
Arguments dl_batch_size {D} d.
Arguments dl_shuffle {D} d.
Arguments dl_num_workers {D} d.
Arguments dl_collate_fn {D} d.
Arguments dl_pin_memory {D} d.

(** The five constructor calls of [train], with the keyword arguments each
    one receives ([args] is the [**model_args] pass-through). *)
Inductive ModelCtor (MA : Type) :=
| GRUDModel (input_dim static_dim output_dims : nat) (dev : Device) (args : MA)
| InterpolationPredictionModel (output_dims sensor_count : nat) (args : MA)
| DeepSetAttentionModel (n_modalities output_dims : nat) (args : MA)
| EncoderClassifierRegular (num_classes : nat) (dev : Device)
    (max_timepoint_count sensors_count static_count : nat)
    (return_intermediates : bool) (args : MA)
| CustomMambaModel (max_seq_length num_classes static_size sensor_count : nat) (args : MA).
Arguments GRUDModel {MA}.
Arguments InterpolationPredictionModel {MA}.
Arguments DeepSetAttentionModel {MA}.
Arguments EncoderClassifierRegular {MA}.
Arguments CustomMambaModel {MA}.

(** A model object: how it was built, its current parameters
    ([state_dict]), the train/eval switch and where [.to] last put it. *)
Record Model (MA P : Type) := mkModel {
  m_ctor : ModelCtor MA;
  m_weights : P;
  m_training : bool;
  m_device : option Device
}.
Arguments mkModel {MA P}.
Arguments m_ctor {MA P} m.
Arguments m_weights {MA P} m.
Arguments m_training {MA P} m.
Arguments m_device {MA P} m.

(** What a model call returns: a prediction tensor, or a
    [(prediction, auxiliary loss)] tuple. *)
Inductive Output (S : Type) :=
| OTensor (pred : Tensor S)
| OTuple (pred : Tensor S) (aux : S).
Arguments OTensor {S}.
Arguments OTuple {S}.

(** Values stored in [test_results.json]: a number, or the per-class /
    per-average dictionary of a classification report. *)
Inductive Json (S : Type) :=
| JNum (x : S)
| JDict (d : gmap string S).
Arguments JNum {S}.
Arguments JDict {S}.

(** ** Collaborators

    Everything [mortality_classification.py] imports and calls but does not
    define.  Floating-point numbers are an abstract type [scalar] with the
    three operations the file applies to them ([+], [-], [str]); results of
    library calls that can raise are in [Res]. *)
Class Collaborators := {
  scalar : Type;
  s_zero : scalar;
  s_one : scalar;
  s_add : scalar -> scalar -> scalar;
  s_sub : scalar -> scalar -> scalar;
  s_ltb : scalar -> scalar -> bool;
  str_scalar : scalar -> string;
  (* numpy *)
  np_mean : list scalar -> scalar;
  np_argmax : Tensor scalar -> nat -> Res (Tensor Z);
  (* torch.utils.data *)
  Dataset : Type;
  loader_check : DataLoader Dataset -> option Exn;
  load_batches : DataLoader Dataset -> nat -> list (Batch scalar);
  (* the model zoo *)
  ModelArgs : Type;
  Params : Type;
  instantiate : ModelCtor ModelArgs -> Res Params;
  forward : Model ModelArgs Params -> Inputs scalar -> Res (Output scalar);
  state_dict_fits : ModelCtor ModelArgs -> Params -> bool;
  (* torch.nn / torch.optim *)
  cross_entropy : Tensor scalar -> Tensor Z -> Res scalar;
  softmax : Tensor scalar -> nat -> Res (Tensor scalar);
  torch_argmax : Tensor scalar -> nat -> Res (Tensor Z);
  Grads : Type;
  AdamState : Type;
  adam_init : Params -> scalar -> Res AdamState;
  backward : Model ModelArgs Params -> Inputs scalar -> Tensor Z -> Grads;
  adam_step : AdamState -> Params -> Grads -> AdamState * Params;
  (* sklearn.metrics *)
  roc_auc_score : Tensor Z -> Tensor scalar -> Res scalar;
  average_precision_score : Tensor Z -> Tensor scalar -> Res scalar;
  accuracy_score : Tensor Z -> Tensor Z -> Res scalar;
  classification_report : Tensor Z -> Tensor Z -> Res (gmap string (Json scalar));
  ConfusionMatrix : Type;
  confusion_matrix : Tensor Z -> Tensor Z -> Res ConfusionMatrix;
  (* pandas + matplotlib: parse the csv text, draw the two panels, encode *)
  plot_training_curves : string -> Res string;
  (* serialisers: torch.save / torch.load and json.dump; files hold text *)
  torch_save : Params -> string;
  torch_unpickle : string -> option Params;
  json_dumps : gmap string (Json scalar) -> string
}.

(** ** The world and the [Py] monad *)

Section Program.
Context `{C : Collaborators}.

Local Abbreviation tensor := (Tensor scalar).
Local Abbreviation batch := (Batch scalar).
Local Abbreviation inputs := (Inputs scalar).
Local Abbreviation model := (Model ModelArgs Params).
Local Abbreviation loader := (DataLoader Dataset).
Local Abbreviation report := (gmap string (Json scalar)).

(** The calls made to the outside, in program order.  [EvEpochDone] is the
    one entry with no statement of its own: it marks that the body of the
    epoch loop ran to its end and snapshots the values the epoch computed. *)
Inductive Event :=
| EvCudaIsAvailable
| EvMpsIsAvailable
| EvDataLoader (dl : loader)
| EvForward (m : model) (grad : bool) (i : inputs)
| EvSubmit (x : scalar)
| EvTorchLoad (path : string)
| EvEpochDone (epoch : nat) (train_loss val_loss auc aupr : scalar) (stop : bool).

Record World := mkWorld {
  files : gmap string string;
  trace : list Event;
  rng : nat;
  grad_enabled : bool;
  cuda_available : bool;
  mps_available : bool;
  dirs : list string
}.

(** A freshly started interpreter: autograd on, nothing called yet.  [fs]
    are the files and [ds] the directories that exist. *)
Definition boot (fs : gmap string string) (ds : list string) (seed : nat)
    (has_cuda has_mps : bool) : World :=
  mkWorld fs [] seed true has_cuda has_mps ds.

Definition Py (A : Type) : Type := World -> Res A * World.

Definition ret {A} (a : A) : Py A := fun w => (Ok a, w).

Definition bind {A B} (m : Py A) (k : A -> Py B) : Py B :=
  fun w => match m w with
           | (Ok a, w') => k a w'
           | (Raise e, w') => (Raise e, w')
           end.

Definition raise {A} (e : Exn) : Py A := fun w => (Raise e, w).

Definition lift {A} (r : Res A) : Py A := fun w => (r, w).

Notation "x <- m ;; k" := (bind m (fun x => k))
  (at level 100, m at next level, right associativity).
Notation "m ;;; k" := (bind m (fun _ => k))
  (at level 100, right associativity).

Definition emit (e : Event) : Py unit :=
  fun w => (Ok tt, mkWorld (files w) (trace w ++ [e]) (rng w) (grad_enabled w)
                           (cuda_available w) (mps_available w) (dirs w)).

Definition set_files (fs : gmap string string) (w : World) : World :=
  mkWorld fs (trace w) (rng w) (grad_enabled w) (cuda_available w) (mps_available w) (dirs w).

Definition set_grad (g : bool) (w : World) : World :=
  mkWorld (files w) (trace w) (rng w) g (cuda_available w) (mps_available w) (dirs w).

(** Whether [open(path, "w")] or [open(path, "a")] succeeds: the directory
    of [path] has to exist. *)
Definition can_open (path : string) (w : World) : bool :=
  bool_decide (dirname path ∈ dirs w).

(** [with open(path, "w") as f: f.write(s)]; [torch.save], [fig.savefig]
    and [json.dump] open their target the same way. *)
Definition write_file (path s : string) : Py unit :=
  fun w => if can_open path w
           then (Ok tt, set_files (<[path := s]> (files w)) w)
           else (Raise (FileNotFoundError path), w).

(** [with open(path, "a") as f: f.write(s)] *)
Definition append_file (path s : string) : Py unit :=
  fun w => if can_open path w
           then (Ok tt, set_files (<[path := default "" (files w !! path) +:+ s]> (files w)) w)
           else (Raise (FileNotFoundError path), w).

Definition read_file (path : string) : Py string :=
  fun w => match files w !! path with
           | Some s => (Ok s, w)
           | None => (Raise (FileNotFoundError path), w)
           end.

(** [with torch.no_grad(): body]: the switch is restored on every exit. *)
Definition with_no_grad {A} (body : Py A) : Py A :=
  fun w => let '(r, w') := body (set_grad false w) in (r, set_grad (grad_enabled w) w').

(** [iter(dataloader)]: starts a pass; a shuffling loader draws from the
    random state, so two passes may differ. *)
Definition iter (dl : loader) : Py (list batch) :=
  fun w => (Ok (load_batches dl (rng w)),
            mkWorld (files w) (trace w) (S (rng w)) (grad_enabled w)
                    (cuda_available w) (mps_available w) (dirs w)).

Definition cuda_is_available : Py bool :=
  emit EvCudaIsAvailable ;;; fun w => (Ok (cuda_available w), w).

Definition mps_is_available : Py bool :=
  emit EvMpsIsAvailable ;;; fun w => (Ok (mps_available w), w).

Definition DataLoader_new (ds : Dataset) (batch_size : Z) (shuffle : bool)
    (num_workers : Z) (collate_fn : Collate) (pin_memory : bool) : Py loader :=
  let dl := mkDataLoader ds batch_size shuffle num_workers collate_fn pin_memory in
  emit (EvDataLoader dl) ;;;
  match loader_check dl with
  | Some e => raise e
  | None => ret dl
  end.

(** [model(x=..., static=..., time=..., sensor_mask=..., delta=...)] *)
Definition call_model (m : model) (i : inputs) : Py (Output scalar) :=
  fun w => (emit (EvForward m (grad_enabled w) i) ;;; lift (forward m i)) w.

(** [torch.load(path)] *)
Definition torch_load (path : string) : Py Params :=
  emit (EvTorchLoad path) ;;;
  s <- read_file path ;;
  match torch_unpickle s with
  | Some p => ret p
  | None => raise (UnpicklingError path)
  end.

(** [model.load_state_dict(sd)] *)
Definition load_state_dict (m : model) (sd : Params) : Py model :=
  if state_dict_fits (m_ctor m) sd
  then ret (mkModel (m_ctor m) sd (m_training m) (m_device m))
  else raise (RuntimeError "Error(s) in loading state_dict").

(** [model.train()] / [model.eval()] and [.to(device)] *)
Definition set_training (b : bool) (m : model) : model :=
  mkModel (m_ctor m) (m_weights m) b (m_device m).

Definition model_to (d : Device) (m : model) : model :=
  mkModel (m_ctor m) (m_weights m) (m_training m) (Some d).

Definition set_weights (p : Params) (m : model) : model :=
  mkModel (m_ctor m) p (m_training m) (m_device m).

(** ** Loops *)

Fixpoint for_each {B S} (body : B -> S -> Py S) (l : list B) (s : S) : Py S :=
  match l with
  | [] => ret s
  | b :: l' => s' <- body b s ;; for_each body l' s'
  end.

Inductive Ctl := Continue | Break.

Fixpoint for_each_break {B S} (body : B -> S -> Py (Ctl * S)) (l : list B) (s : S) : Py S :=
  match l with
  | [] => ret s
  | b :: l' =>
      r <- body b s ;;
      match r with
      | (Break, s') => ret s'
      | (Continue, s') => for_each_break body l' s'
      end
  end.

(** [range(n)] for a Python int [n]: empty when [n <= 0]. *)
Definition py_range (n : Z) : list nat := seq 0 (Z.to_nat n).

(** [str(n)] for a non-negative int. *)
Definition str_int (n : nat) : string := NilEmpty.string_of_uint (Nat.to_uint n).

(** [sep.join(l)] *)
Fixpoint join (sep : string) (l : list string) : string :=
  match l with
  | [] => ""
  | [s] => s
  | s :: l' => s +:+ sep +:+ join sep l'
  end.

(** ** Early stopping *)

(** Modelled from the spec: the class [EarlyStopping] of
    [models/early_stopper.py] is imported but is not among the sources.
    Section 4.3: the record holds the best value observed (lower is better),
    the counter of consecutive non-improving submissions and the stop flag;
    the patience and the checkpoint path are fixed at construction. *)
Record EarlyStopping := mkEarlyStopping {
  es_patience : Z;
  es_path : string;
  es_best : option scalar;
  es_counter : Z;
  early_stop : bool
}.

(** Modelled from the spec: the constructor of [EarlyStopping].  Section
    4.3: a new controller has no best value and is not stopped. *)
Definition EarlyStopping_new (patience : Z) (path : string) : EarlyStopping :=
  mkEarlyStopping patience path None 0 false.

(** Modelled from the spec: the improving branch of [EarlyStopping].
    Section 4.3: record the new best, persist the model's full parameter
    state to the checkpoint path, reset the stall counter. *)
Definition es_improve (es : EarlyStopping) (x : scalar) (m : model) : Py EarlyStopping :=
  write_file (es_path es) (torch_save (m_weights m)) ;;;
  ret (mkEarlyStopping (es_patience es) (es_path es) (Some x) 0 (early_stop es)).

(** Modelled from the spec: [EarlyStopping.__call__].  Section 4.3: the
    first submission, or one strictly below the best, improves; any other
    increments the stall counter and sets the stop flag once the counter
    has reached the patience. *)
Definition EarlyStopping_call (es : EarlyStopping) (x : scalar) (m : model) : Py EarlyStopping :=
  emit (EvSubmit x) ;;;
  match es_best es with
  | None => es_improve es x m
  | Some best =>
      if s_ltb x best then es_improve es x m
      else
        let c := es_counter es + 1 in
        ret (mkEarlyStopping (es_patience es) (es_path es) (es_best es) c
               (if es_patience es <=? c then true else early_stop es))
  end.

(** ** [train] *)

(** Lines 123-127: [test_batch = next(iter(train_dataloader))] and the three
    shapes read off it ([test_batch[0]] is the data, [test_batch[2]] the
    static attributes). *)
Definition probe_shapes (bs : list batch) : Py (nat * nat * nat) :=
  match bs with
  | [] => raise StopIteration
  | test_batch :: _ =>
      max_seq_length <- lift (shape_at (b_data test_batch) 2) ;;
      sensor_count <- lift (shape_at (b_data test_batch) 1) ;;
      static_size <- lift (shape_at (b_static test_batch) 1) ;;
      ret (max_seq_length, sensor_count, static_size)
  end.

(** A constructor call; a fresh [nn.Module] is in training mode. *)
Definition construct (c : ModelCtor ModelArgs) : Py (option model) :=
  p <- lift (instantiate c) ;;
  ret (Some (mkModel c p true None)).

(** Lines 137-175.  The chain has no final [else]: for any other identifier
    the local [model] stays unbound, which is [None] here. *)
Definition make_model (model_type : string) (device : Device) (model_args : ModelArgs)
    (max_seq_length sensor_count static_size : nat) : Py (option model) :=
  if String.eqb model_type "grud" then
    construct (GRUDModel sensor_count static_size 2 device model_args)
  else if String.eqb model_type "ipnets" then
    construct (InterpolationPredictionModel 2 sensor_count model_args)
  else if String.eqb model_type "seft" then
    construct (DeepSetAttentionModel sensor_count 2 model_args)
  else if String.eqb model_type "transformer" then
    construct (EncoderClassifierRegular 2 device max_seq_length sensor_count
                 static_size false model_args)
  else if String.eqb model_type "mamba" then
    construct (CustomMambaModel max_seq_length 2 static_size sensor_count model_args)
  else ret None.

(** Reading a local that may be unbound. *)
Definition local {A} (name : string) (v : option A) : Py A :=
  match v with
  | Some a => ret a
  | None => raise (UnboundLocalError name)
  end.

(** Lines 201-206, 234-239 and 323-328: the five tensors handed to the
    model, after the [if model_type != "grud"] block. *)
Definition place (model_type : string) (device : Device) (b : batch) : inputs :=
  if negb (String.eqb model_type "grud") then
    mkInputs (tensor_to device (b_data b)) (tensor_to device (b_static b))
             (tensor_to device (b_times b)) (tensor_to device (b_mask b))
             (tensor_to device (b_delta b))
  else
    mkInputs (b_data b) (b_static b) (b_times b) (b_mask b) (b_delta b).

(** Lines 200-221: one optimisation step.  The state is the model, the
    optimiser and [loss_list].  Gradients are not part of the state, so
    [optimizer.zero_grad()], [loss.backward()] and [optimizer.step()] appear
    as [backward] followed by [adam_step]; [.item()] of a zero-dimensional
    tensor is the scalar itself. *)
Definition train_batch (model_type : string) (device : Device) (b : batch)
    (st : model * AdamState * list scalar) : Py (model * AdamState * list scalar) :=
  let '(m, opt, loss_list) := st in
  let i := place model_type device b in
  out <- call_model m i ;;
  let '(predictions, recon_loss) :=
    match out with
    | OTuple p aux => (p, aux)
    | OTensor p => (p, s_zero)
    end in
  let predictions := squeeze_last predictions in
  ce <- lift (cross_entropy (tensor_cpu predictions) (b_labels b)) ;;
  let loss := s_add ce recon_loss in
  let loss_list := loss_list ++ [loss] in
  let '(opt', p') := adam_step opt (m_weights m) (backward m i (b_labels b)) in
  ret (set_weights p' m, opt', loss_list).

(** Lines 232-248 (and, word for word, 321-335 in [test]): one batch of an
    inference pass.  The state is [labels_list] and [predictions_list]. *)
Definition eval_batch (model_type : string) (device : Device) (m : model) (b : batch)
    (acc : Tensor Z * tensor) : Py (Tensor Z * tensor) :=
  let '(labels_list, predictions_list) := acc in
  labels_list <- lift (torch_cat0 labels_list (b_labels b)) ;;
  let i := place model_type device b in
  out <- call_model m i ;;
  let predictions :=
    match out with
    | OTuple p _ => p
    | OTensor p => p
    end in
  let predictions := squeeze_last predictions in
  predictions_list <- lift (torch_cat0 predictions_list (tensor_cpu predictions)) ;;
  ret (labels_list, predictions_list).

(** Lines 266-273: the value handed to the early-stopping controller. *)
Definition submit_criterion (early_stop_criteria : string) (auc_score aupr_score val_loss : scalar)
    (m : model) (early_stopping : EarlyStopping) : Py EarlyStopping :=
  if String.eqb early_stop_criteria "auroc" then
    EarlyStopping_call early_stopping (s_sub s_one auc_score) m
  else if String.eqb early_stop_criteria "auprc" then
    EarlyStopping_call early_stopping (s_sub s_one aupr_score) m
  else if String.eqb early_stop_criteria "auprc+auroc" then
    EarlyStopping_call early_stopping (s_sub s_one (s_add aupr_score auc_score)) m
  else if String.eqb early_stop_criteria "loss" then
    EarlyStopping_call early_stopping val_loss m
  else ret early_stopping.

(** The locals that survive from one epoch to the next. *)
Record TrainVars := mkTrainVars {
  v_model : model;
  v_optimizer : AdamState;
  v_early_stopping : EarlyStopping;
  v_val_loss : option scalar
}.

Definition log_path (output_path : string) : string := output_path +:+ "/training_log.csv".
Definition checkpoint_path (output_path : string) : string := output_path +:+ "/checkpoint.pt".
Definition curves_path (output_path : string) : string := output_path +:+ "/train_curves.jpg".
Definition results_path (output_path : string) : string := output_path +:+ "/test_results.json".

Definition csv_header : string :=
  join "," ["epoch"; "train_loss"; "val_loss"; "val_roc_auc_score"] +:+ "
".

Definition csv_row (epoch : nat) (accum_loss val_loss auc_score : scalar) : string :=
  join "," [str_int epoch; str_scalar accum_loss; str_scalar val_loss; str_scalar auc_score] +:+ "
".

(** Lines 228-255: the validation pass over a model already switched to
    evaluation mode; yields [(val_loss, auc_score, aupr_score)]. *)
Definition validate (val_dataloader : loader) (model_type : string) (device : Device)
    (m : model) : Py (scalar * scalar * scalar) :=
  scored <- with_no_grad (
    val_batches <- iter val_dataloader ;;
    acc <- for_each (eval_batch model_type device m) val_batches (empty_tensor, empty_tensor) ;;
    let '(labels_list, predictions_list) := acc in
    probs <- lift (softmax predictions_list 1) ;;
    positive <- lift (select_col 1 probs) ;;
    auc_score <- lift (roc_auc_score labels_list positive) ;;
    positive <- lift (select_col 1 probs) ;;
    aupr_score <- lift (average_precision_score labels_list positive) ;;
    ret (labels_list, predictions_list, auc_score, aupr_score)) ;;
  let '(labels_list, predictions_list, auc_score, aupr_score) := scored in
  val_loss <- lift (cross_entropy (tensor_cpu predictions_list) labels_list) ;;
  ret (val_loss, auc_score, aupr_score).

(** Lines 195-277: the body of [for epoch in range(epochs)]. *)
Definition epoch_body (train_dataloader val_dataloader : loader) (output_path : string)
    (device : Device) (model_type early_stop_criteria : string)
    (epoch : nat) (v : TrainVars) : Py (Ctl * TrainVars) :=
  (* training step *)
  let m := model_to device (set_training true (v_model v)) in
  train_batches <- iter train_dataloader ;;
  st <- for_each (train_batch model_type device) train_batches (m, v_optimizer v, []) ;;
  let '(m, optimizer, loss_list) := st in
  let accum_loss := np_mean loss_list in
  (* validation step *)
  let m := model_to device (set_training false m) in
  scores <- validate val_dataloader model_type device m ;;
  let '(val_loss, auc_score, aupr_score) := scores in
  append_file (log_path output_path) (csv_row (epoch + 1)%nat accum_loss val_loss auc_score) ;;;
  (* set early stopping *)
  early_stopping <- submit_criterion early_stop_criteria auc_score aupr_score val_loss m
                      (v_early_stopping v) ;;
  emit (EvEpochDone (epoch + 1)%nat accum_loss val_loss auc_score aupr_score
          (early_stop early_stopping)) ;;;
  let v' := mkTrainVars m optimizer early_stopping (Some val_loss) in
  if early_stop early_stopping then ret (Break, v') else ret (Continue, v').

(** Lines 79-292.  [**kwargs] swallows [batch_size], which is not used.
    Console output and the [tqdm] progress bar are not modelled. *)
Definition train (train_dataloader val_dataloader : loader) (output_path : string)
    (epochs patience : Z) (device : Device) (model_type : string) (lr : scalar)
    (early_stop_criteria : string) (model_args : ModelArgs) : Py (scalar * model) :=
  probe <- iter train_dataloader ;;
  dims <- probe_shapes probe ;;
  let '(max_seq_length, sensor_count, static_size) := dims in
  (* make a new model and train *)
  bound <- make_model model_type device model_args max_seq_length sensor_count static_size ;;
  m <- local "model" bound ;;
  optimizer <- lift (adam_init (m_weights m) lr) ;;
  let early_stopping := EarlyStopping_new patience (checkpoint_path output_path) in
  (* initialize results file *)
  write_file (log_path output_path) csv_header ;;;
  v <- for_each_break
         (epoch_body train_dataloader val_dataloader output_path device model_type
            early_stop_criteria)
         (py_range epochs)
         (mkTrainVars m optimizer early_stopping None) ;;
  (* save training curves *)
  training_log <- read_file (log_path output_path) ;;
  fig <- lift (plot_training_curves training_log) ;;
  write_file (curves_path output_path) fig ;;;
  val_loss <- local "val_loss" (v_val_loss v) ;;
  ret (val_loss, v_model v).

(** ** [test] *)

(** Lines 295-370. *)
Definition test (test_dataloader : loader) (output_path : string) (device : Device)
    (model_type : string) (m : model) : Py (scalar * scalar * scalar * scalar) :=
  probe <- iter test_dataloader ;;
  _ <- probe_shapes probe ;;
  state_dict <- torch_load (checkpoint_path output_path) ;;
  m <- load_state_dict m state_dict ;;
  let m := model_to device (set_training false m) in
  acc <- with_no_grad (
    test_batches <- iter test_dataloader ;;
    for_each (eval_batch model_type device m) test_batches (empty_tensor, empty_tensor)) ;;
  let '(labels_list, predictions_list) := acc in
  loss <- lift (cross_entropy (tensor_cpu predictions_list) labels_list) ;;
  probs <- lift (softmax predictions_list 1) ;;
  predicted <- lift (torch_argmax probs 1) ;;
  results <- lift (classification_report labels_list predicted) ;;
  predicted <- lift (torch_argmax probs 1) ;;
  _ <- lift (confusion_matrix labels_list predicted) ;;
  positive <- lift (select_col 1 probs) ;;
  auc_score <- lift (roc_auc_score labels_list positive) ;;
  positive <- lift (select_col 1 probs) ;;
  auprc_score <- lift (average_precision_score labels_list positive) ;;
  predicted <- lift (np_argmax probs 1) ;;
  accuracy <- lift (accuracy_score labels_list predicted) ;;
  (* save test metrics; [dict.update] lets the report's keys win *)
  let test_metrics : report :=
    <["AUROC" := JNum auc_score]>
      (<["AUPRC" := JNum auprc_score]>
         (<["accuracy" := JNum accuracy]>
            (<["test_loss" := JNum loss]> ∅))) in
  let test_metrics := results ∪ test_metrics in
  write_file (results_path output_path) (json_dumps test_metrics) ;;;
  ret (loss, accuracy, auprc_score, auc_score).

(** ** [train_test] *)

(** Lines 44-51: the device preference. *)
Definition select_device : Py Device :=
  has_cuda <- cuda_is_available ;;
  if has_cuda then ret cuda
  else
    has_mps <- mps_is_available ;;
    if has_mps then ret mps else ret cpu.

(** Lines 21-76.  [//] on Python ints is floor division, as [Z.div] with a
    positive divisor.  The defaults of the signature ([batch_size=64],
    [epochs=300], [patience=5], [lr=0.0001], [early_stop_criteria="auroc"])
    are the caller's to supply here. *)
Definition train_test (train_pair val_data test_data : Dataset) (output_path model_type : string)
    (model_args : ModelArgs) (batch_size epochs patience : Z) (lr : scalar)
    (early_stop_criteria : string) : Py (scalar * scalar * scalar * scalar) :=
  let train_batch_size := batch_size / 2 in
  let train_collate_fn := paired_collate_fn_truncate in
  let val_test_collate_fn := non_pair_collate_fn_truncate in
  train_dataloader <- DataLoader_new train_pair train_batch_size true 16 train_collate_fn true ;;
  test_dataloader <- DataLoader_new test_data batch_size true 16 val_test_collate_fn true ;;
  val_dataloader <- DataLoader_new val_data batch_size false 16 val_test_collate_fn true ;;
  (* assign GPU *)
  device <- select_device ;;
  trained <- train train_dataloader val_dataloader output_path epochs patience device
               model_type lr early_stop_criteria model_args ;;
  let '(val_loss, m) := trained in
  test test_dataloader output_path device model_type m.

(** ** Observations on a run *)

(** The scalars handed to the early-stopping controller, in order. *)
Definition submitted (tr : list Event) : list scalar :=
  omap (fun e => match e with EvSubmit x => Some x | _ => None end) tr.

Record EpochRecord := mkEpochRecord {
  r_epoch : nat;
  r_train_loss : scalar;
  r_val_loss : scalar;
  r_auc : scalar;
  r_aupr : scalar;
  r_stop : bool
}.

(** The epochs whose body ran to its end, in order. *)
Definition completed (tr : list Event) : list EpochRecord :=
  omap (fun e => match e with
                 | EvEpochDone n a v auc aupr s => Some (mkEpochRecord n a v auc aupr s)
                 | _ => None
                 end) tr.

(** The model calls, in order. *)
Definition forward_calls (tr : list Event) : list (model * bool * inputs) :=
  omap (fun e => match e with EvForward m g i => Some (m, g, i) | _ => None end) tr.

Definition is_query (e : Event) : bool :=
  match e with EvCudaIsAvailable | EvMpsIsAvailable => true | _ => false end.

Definition is_loader_event (e : Event) : bool :=
  match e with EvDataLoader _ => true | _ => false end.

(** The criterion table of the specification (section 4.2, step 4). *)
Definition criterion_table : list (string * (EpochRecord -> scalar)) :=
  [ ("auroc", fun r => s_sub s_one (r_auc r));
    ("auprc", fun r => s_sub s_one (r_aupr r));
    ("auprc+auroc", fun r => s_sub s_one (s_add (r_aupr r) (r_auc r)));
    ("loss", fun r => r_val_loss r) ].

Fixpoint assoc {V} (k : string) (l : list (string * V)) : option V :=
  match l with
  | [] => None
  | (k', v) :: l' => if String.eqb k k' then Some v else assoc k l'
  end.

Definition known_criteria : list string := map fst criterion_table.

Definition known_model_types : list string :=
  ["grud"; "ipnets"; "seft"; "transformer"; "mamba"].

(** [device] chosen by the preference order CUDA, then MPS, then CPU. *)
Definition preferred_device (has_cuda has_mps : bool) : Device :=
  if has_cuda then cuda else if has_mps then mps else cpu.

(** The five tensors of a batch as they are, and moved to a device. *)
Definition unmoved (b : batch) : inputs :=
  mkInputs (b_data b) (b_static b) (b_times b) (b_mask b) (b_delta b).

Definition moved (d : Device) (b : batch) : inputs :=
  mkInputs (tensor_to d (b_data b)) (tensor_to d (b_static b)) (tensor_to d (b_times b))
           (tensor_to d (b_mask b)) (tensor_to d (b_delta b)).

(** Concatenation along dimension 0 of a list of tensors, starting from
    the empty tensor. *)
Definition cat_from {A} (start : Tensor A) (ts : list (Tensor A)) : Res (Tensor A) :=
  fold_left (fun acc t => match acc with Ok a => torch_cat0 a t | Raise e => Raise e end)
            ts (Ok start).

Definition cat_all {A} (ts : list (Tensor A)) : Res (Tensor A) := cat_from empty_tensor ts.

(** The prediction tensor of a model output, squeezed and on the host. *)
Definition logits_of (o : Output scalar) : tensor :=
  tensor_cpu (squeeze_last (match o with OTensor p => p | OTuple p _ => p end)).



(** A model call made by [train]: on the run's device, either in training
    mode on a batch of the training loader, or in evaluation mode with
    autograd off on a batch of the validation loader. *)
Definition fwd_event (train_dataloader val_dataloader : loader) (model_type : string)
    (device : Device) (grad : bool) (e : Event) : Prop :=
  match e with
  | EvForward m g i =>
      m_device m = Some device /\
      ((m_training m = true /\ g = grad /\
        exists n b, b ∈ load_batches train_dataloader n /\ i = place model_type device b) \/
       (m_training m = false /\ g = false /\
        exists n b, b ∈ load_batches val_dataloader n /\ i = place model_type device b))
  | _ => False
  end.

Definition train_event (train_dataloader val_dataloader : loader) (model_type : string)
    (device : Device) (grad : bool) (e : Event) : Prop :=
  match e with
  | EvForward _ _ _ => fwd_event train_dataloader val_dataloader model_type device grad e
  | EvSubmit _ => True
  | EvEpochDone _ _ _ _ _ _ => True
  | _ => False
  end.

(** [w'] is [w] after some more calls, all satisfying [P]; files and
    switches are as before. *)
Definition extends (P : Event -> Prop) (w w' : World) : Prop :=
  (exists evs, trace w' = trace w ++ evs /\ Forall P evs) /\
  files w' = files w /\
  grad_enabled w' = grad_enabled w /\
  cuda_available w' = cuda_available w /\
  mps_available w' = mps_available w /\
  dirs w' = dirs w.

Definition same_switches (w w' : World) : Prop :=
  grad_enabled w' = grad_enabled w /\
  cuda_available w' = cuda_available w /\
  mps_available w' = mps_available w /\
  dirs w' = dirs w.

(** The value the specification selects for an epoch, if the criterion is
    one of the four. *)
Definition criterion_value (early_stop_criteria : string) (r : EpochRecord) : option scalar :=
  match assoc early_stop_criteria criterion_table with
  | Some f => Some (f r)
  | None => None
  end.

Definition record_row (r : EpochRecord) : string :=
  csv_row (r_epoch r) (r_train_loss r) (r_val_loss r) (r_auc r).

Definition log_text (rs : list EpochRecord) : string :=
  fold_left (fun acc r => acc +:+ record_row r) rs csv_header.

(** [w] after the calls [evs]. *)
Definition add_events (evs : list Event) (w : World) : World :=
  mkWorld (files w) (trace w ++ evs) (rng w) (grad_enabled w)
          (cuda_available w) (mps_available w) (dirs w).

(** The model calls of an inference pass over [bs]. *)
Definition pass_events (model_type : string) (device : Device) (m : model) (grad : bool)
    (bs : list batch) : list Event :=
  map (fun b => EvForward m grad (place model_type device b)) bs.


(** What the scores of a validation pass over [bs] are, in terms of the
    model's outputs. *)
Definition validation_scores (mt : string) (dev : Device) (m : model) (bs : list batch)
    (val_loss auc aupr : scalar) : Prop :=
  exists outs labels logits probs positive,
    Forall2 (fun b o => forward m (place mt dev b) = Ok o) bs outs /\
    cat_all (map b_labels bs) = Ok labels /\
    cat_all (map logits_of outs) = Ok logits /\
    softmax logits 1 = Ok probs /\
    select_col 1 probs = Ok positive /\
    roc_auc_score labels positive = Ok auc /\
    average_precision_score labels positive = Ok aupr /\
    cross_entropy (tensor_cpu logits) labels = Ok val_loss.

(** The events by which an epoch submits to the controller. *)
Definition submission (early_stop_criteria : string) (r : EpochRecord) : list Event :=
  match criterion_value early_stop_criteria r with
  | Some x => [EvSubmit x]
  | None => []
  end.

Definition done_event (r : EpochRecord) : Event :=
  EvEpochDone (r_epoch r) (r_train_loss r) (r_val_loss r) (r_auc r) (r_aupr r) (r_stop r).

(** What one completed pass through the body of the epoch loop does to the
    world and to the loop's locals. *)
Definition epoch_outcome (train_dataloader val_dataloader : loader) (output_path : string)
    (device : Device) (model_type early_stop_criteria : string) (epoch : nat)
    (v : TrainVars) (w : World) (ctl : Ctl) (v' : TrainVars) (w' : World) : Prop :=
  exists fw r,
    Forall (fwd_event train_dataloader val_dataloader model_type device (grad_enabled w)) fw /\
    r_epoch r = (epoch + 1)%nat /\
    r_stop r = early_stop (v_early_stopping v') /\
    trace w' = trace w ++ fw ++ submission early_stop_criteria r ++ [done_event r] /\
    v_val_loss v' = Some (r_val_loss r) /\
    es_path (v_early_stopping v') = es_path (v_early_stopping v) /\
    ctl = (if early_stop (v_early_stopping v') then Break else Continue) /\
    (let logged := <[log_path output_path :=
                       default "" (files w !! log_path output_path) +:+ record_row r]> (files w) in
     (files w' = logged \/
      exists s, files w' = <[es_path (v_early_stopping v) := s]> logged) /\
     (criterion_value early_stop_criteria r = None ->
      v_early_stopping v' = v_early_stopping v /\ files w' = logged)) /\
    same_switches w w'.

(** What [train] has done to the world [w0] it started in, once the log
    file exists: the calls [evs] it made, and the files. *)
Definition train_progress (train_dataloader val_dataloader : loader) (output_path : string)
    (epochs : Z) (device : Device) (model_type early_stop_criteria : string)
    (w0 w' : World) (evs : list Event) : Prop :=
  trace w' = trace w0 ++ evs /\
  Forall (train_event train_dataloader val_dataloader model_type device (grad_enabled w0)) evs /\
  submitted evs = omap (criterion_value early_stop_criteria) (completed evs) /\
  map r_epoch (completed evs) = seq 1 (length (completed evs)) /\
  (length (completed evs) <= Z.to_nat epochs)%nat /\
  Forall (fun r => r_stop r = false) (removelast (completed evs)) /\
  files w' !! log_path output_path = Some (log_text (completed evs)) /\
  (forall p, p <> log_path output_path -> p <> checkpoint_path output_path ->
             p <> curves_path output_path -> files w' !! p = files w0 !! p) /\
  (assoc early_stop_criteria criterion_table = None ->
   files w' !! checkpoint_path output_path = files w0 !! checkpoint_path output_path /\
   Forall (fun r => r_stop r = false) (completed evs)) /\
  same_switches w0 w'.

(** [train] stopped before it created the log file. *)
Definition train_not_started (w0 w' : World) : Prop :=
  trace w' = trace w0 /\ files w' = files w0 /\ same_switches w0 w'.


(** The four headline entries of [test_results.json]. *)
Definition headline (loss accuracy auprc auc : scalar) : report :=
  <["AUROC" := JNum auc]>
    (<["AUPRC" := JNum auprc]>
       (<["accuracy" := JNum accuracy]>
          (<["test_loss" := JNum loss]> ∅))).

(** The model [test] evaluates: the given one with the state dict [sd]
    loaded, in evaluation mode, on the device. *)
Definition reloaded (device : Device) (m : model) (sd : Params) : model :=
  model_to device (set_training false (mkModel (m_ctor m) sd (m_training m) (m_device m))).

(** What a run of [test] that returns has done. *)
Definition test_outcome (test_dataloader : loader) (output_path : string) (device : Device)
    (model_type : string) (m : model) (w0 : World)
    (r : scalar * scalar * scalar * scalar) (w' : World) : Prop :=
  exists s sd outs labels logits probs predicted predicted' positive rep,
    let '(loss, accuracy, auprc, auc) := r in
    let bs := load_batches test_dataloader (S (rng w0)) in
    files w0 !! checkpoint_path output_path = Some s /\
    torch_unpickle s = Some sd /\
    trace w' = trace w0 ++ EvTorchLoad (checkpoint_path output_path)
                        :: pass_events model_type device (reloaded device m sd) false bs /\
    Forall2 (fun b o => forward (reloaded device m sd) (place model_type device b) = Ok o)
            bs outs /\
    cat_all (map b_labels bs) = Ok labels /\
    cat_all (map logits_of outs) = Ok logits /\
    cross_entropy (tensor_cpu logits) labels = Ok loss /\
    softmax logits 1 = Ok probs /\
    torch_argmax probs 1 = Ok predicted /\
    classification_report labels predicted = Ok rep /\
    select_col 1 probs = Ok positive /\
    roc_auc_score labels positive = Ok auc /\
    average_precision_score labels positive = Ok auprc /\
    np_argmax probs 1 = Ok predicted' /\
    accuracy_score labels predicted' = Ok accuracy /\
    files w' = <[results_path output_path := json_dumps (rep ∪ headline loss accuracy auprc auc)]>
                 (files w0) /\
    same_switches w0 w'.

(** A call made by [test]: loading the checkpoint, or a model call in
    evaluation mode with autograd off on a batch of the test loader. *)
Definition test_event (test_dataloader : loader) (output_path model_type : string)
    (device : Device) (e : Event) : Prop :=
  match e with
  | EvTorchLoad p => p = checkpoint_path output_path
  | EvForward m g i =>
      m_device m = Some device /\ m_training m = false /\ g = false /\
      exists n b, b ∈ load_batches test_dataloader n /\ i = place model_type device b
  | _ => False
  end.


(** The availability queries [select_device] makes. *)
Definition query_events (has_cuda : bool) : list Event :=
  if has_cuda then [EvCudaIsAvailable] else [EvCudaIsAvailable; EvMpsIsAvailable].

(** A call made after the device was chosen: by [train] or by [test]. *)
Definition run_event (train_dataloader val_dataloader test_dataloader : loader)
    (output_path model_type : string) (device : Device) (grad : bool) (e : Event) : Prop :=
  train_event train_dataloader val_dataloader model_type device grad e \/
  test_event test_dataloader output_path model_type device e.

(** The three loaders [train_test] builds. *)
Definition train_loader_of (train_pair : Dataset) (batch_size : Z) : loader :=
  mkDataLoader train_pair (batch_size / 2) true 16 paired_collate_fn_truncate true.

Definition test_loader_of (test_data : Dataset) (batch_size : Z) : loader :=
  mkDataLoader test_data batch_size true 16 non_pair_collate_fn_truncate true.

Definition val_loader_of (val_data : Dataset) (batch_size : Z) : loader :=
  mkDataLoader val_data batch_size false 16 non_pair_collate_fn_truncate true.

(** The calls of a run of [train_test], in order: the three loaders are
    built, then the device is chosen, then [train] and [test] run.  The run
    may stop while building the loaders. *)
Definition train_test_calls (train_pair val_data test_data : Dataset)
    (output_path model_type : string) (batch_size : Z) (w0 : World) (evs : list Event) : Prop :=
  let tdl := train_loader_of train_pair batch_size in
  let testdl := test_loader_of test_data batch_size in
  let vdl := val_loader_of val_data batch_size in
  let device := preferred_device (cuda_available w0) (mps_available w0) in
  (evs = [EvDataLoader tdl] /\ is_Some (loader_check tdl)) \/
  (evs = [EvDataLoader tdl; EvDataLoader testdl] /\ is_Some (loader_check testdl)) \/
  (evs = [EvDataLoader tdl; EvDataLoader testdl; EvDataLoader vdl] /\
   is_Some (loader_check vdl)) \/
  (exists rest,
     evs = [EvDataLoader tdl; EvDataLoader testdl; EvDataLoader vdl]
             ++ query_events (cuda_available w0) ++ rest /\
     Forall (run_event tdl vdl testdl output_path model_type device (grad_enabled w0)) rest).






(** A model call whose five tensors are those of a batch [b] of one of the
    loaders [dls], moved to the device unless the model type is [grud]. *)
Definition placed (model_type : string) (device : Device) (dls : list loader)
    (call : model * bool * inputs) : Prop :=
  exists dl n b,
    dl ∈ dls /\ b ∈ load_batches dl n /\
    (model_type <> "grud" -> call.2 = moved device b) /\
    (model_type = "grud" -> call.2 = unmoved b).

(** A two-column tensor given row by row. *)
Definition two_columns (rows : list (scalar * scalar)) (d : Device) : tensor :=
  mkTensor [length rows; 2%nat] (flat_map (fun p => [p.1; p.2]) rows) d.


(** ** Further observations *)

(** Calls that belong to [train_test] and [test] but not to [train]:
    building a loader, asking for a device, loading a checkpoint. *)
Definition outside_train (e : Event) : bool :=
  match e with
  | EvCudaIsAvailable | EvMpsIsAvailable | EvDataLoader _ | EvTorchLoad _ => true
  | _ => false
  end.

(** A model call as [train] makes them: on the run's device, and either in
    training mode, with autograd as it was on entry, on a batch of the
    training loader, or in evaluation mode, with autograd off, on a batch
    of the validation loader. *)
Definition call_by_mode (train_dataloader val_dataloader : loader) (model_type : string)
    (device : Device) (grad : bool) (call : model * bool * inputs) : Prop :=
  m_device call.1.1 = Some device /\
  if m_training call.1.1
  then call.1.2 = grad /\
       exists n b, b ∈ load_batches train_dataloader n /\ call.2 = place model_type device b
  else call.1.2 = false /\
       exists n b, b ∈ load_batches val_dataloader n /\ call.2 = place model_type device b.

(** The exception [train_test] meets while building its loaders, if any:
    they are built in the order training, test, validation. *)
Definition first_loader_error (tdl testdl vdl : loader) : option Exn :=
  match loader_check tdl with
  | Some e => Some e
  | None =>
      match loader_check testdl with
      | Some e => Some e
      | None => loader_check vdl
      end
  end.

(** The world in which [train_test] calls [train]: the three loaders were
    built and the availability was queried. *)
Definition after_setup (train_pair val_data test_data : Dataset) (batch_size : Z)
    (w0 : World) : World :=
  add_events ([EvDataLoader (train_loader_of train_pair batch_size);
               EvDataLoader (test_loader_of test_data batch_size);
               EvDataLoader (val_loader_of val_data batch_size)]
                ++ query_events (cuda_available w0)) w0.


(** The exception raised by reading the shapes off the first batch of a
    pass [bs], if any: [next] on an exhausted iterator, or indexing the
    shape of a data tensor with fewer than three dimensions or of a static
    tensor with fewer than two. *)
Definition probe_error (bs : list batch) : option Exn :=
  match bs with
  | [] => Some StopIteration
  | b :: _ =>
      if (length (shape (b_data b)) <? 3)%nat || (length (shape (b_static b)) <? 2)%nat
      then Some (IndexError "tuple index out of range")
      else None
  end.


Definition is_load (e : Event) : bool :=
  match e with EvTorchLoad _ => true | _ => false end.


(** The tensors handed to the model over a stretch of calls, in order. *)
Definition inputs_of (evs : list Event) : list inputs :=
  map (fun call => call.2) (forward_calls evs).

(** The tensors epoch number [j] (from 0) of a run of [train] started with
    random state [seed] hands to the model: the probe took the pass
    [seed]; each epoch then draws a fresh pass of the training loader and
    a fresh pass of the validation loader. *)
Definition epoch_inputs (train_dataloader val_dataloader : loader) (model_type : string)
    (device : Device) (seed j : nat) : list inputs :=
  map (place model_type device) (load_batches train_dataloader (seed + 1 + 2 * j))
  ++ map (place model_type device) (load_batches val_dataloader (seed + 2 + 2 * j)).

(** The loss of one optimisation step (lines 210-218): the cross-entropy
    of the squeezed prediction, on the host, against the labels, plus the
    auxiliary loss when the model returns a tuple. *)
Definition batch_loss (m : model) (i : inputs) (labels : Tensor Z) : Res scalar :=
  match forward m i with
  | Ok out =>
      let '(p, aux) := match out with OTuple p aux => (p, aux) | OTensor p => (p, s_zero) end in
      match cross_entropy (tensor_cpu (squeeze_last p)) labels with
      | Ok ce => Ok (s_add ce aux)
      | Raise e => Raise e
      end
  | Raise e => Raise e
  end.

(** [e] is the model call of the optimisation step on batch [b], and
    [loss] the loss of that step. *)
Definition training_call (model_type : string) (device : Device) (grad : bool)
    (e : Event) (b : batch) (loss : scalar) : Prop :=
  exists m, e = EvForward m grad (place model_type device b) /\
            m_training m = true /\ m_device m = Some device /\
            batch_loss m (place model_type device b) (b_labels b) = Ok loss.

(** The calls [evs] of the completed epoch recorded as [r], in a run of
    [train] that started with random state [seed] and autograd switch
    [grad]: one optimisation step on every batch of the epoch's pass over
    the training loader, whose mean loss is the recorded training loss; one
    call in evaluation mode, with autograd off, on every batch of the
    epoch's pass over the validation loader, all by the same model [m],
    whose scores are the recorded ones; the submissions [sub] to the
    early-stopping controller; the end of the loop body. *)
Definition epoch_calls (train_dataloader val_dataloader : loader) (model_type : string)
    (device : Device) (seed : nat) (grad : bool) (r : EpochRecord) (sub evs : list Event)
    : Prop :=
  let train_batches := load_batches train_dataloader (seed + 2 * r_epoch r - 1) in
  let val_batches := load_batches val_dataloader (seed + 2 * r_epoch r) in
  exists steps losses m,
    evs = steps ++ pass_events model_type device m false val_batches ++ sub ++ [done_event r] /\
    Forall3 (training_call model_type device grad) steps train_batches losses /\
    r_train_loss r = np_mean losses /\
    m_training m = false /\ m_device m = Some device /\
    validation_scores model_type device m val_batches (r_val_loss r) (r_auc r) (r_aupr r).

Definition is_forward (e : Event) : bool :=
  match e with EvForward _ _ _ => true | _ => false end.

(** What the calls [evs] of a run of [train] are, once the log file exists:
    the calls of its completed epochs, one after the other, followed by
    the model calls [tail] of an epoch that did not complete, which feed a
    prefix of that epoch's batches. *)
Definition train_calls (train_dataloader val_dataloader : loader) (model_type : string)
    (device : Device) (early_stop_criteria : string) (seed : nat) (grad : bool)
    (evs : list Event) (parts : list (list Event)) (tail : list Event) : Prop :=
  evs = concat parts ++ tail /\
  Forall2 (fun r part =>
             epoch_calls train_dataloader val_dataloader model_type device seed grad r
               (submission early_stop_criteria r) part)
          (completed evs) parts /\
  map r_epoch (completed evs) = seq 1 (length (completed evs)) /\
  Forall (fun e => is_forward e = true) tail /\
  inputs_of tail `prefix_of`
    epoch_inputs train_dataloader val_dataloader model_type device seed
      (length (completed evs)).


(** The model [train] starts from: built for the model type from the
    shapes of the first batch of the pass [seed] of the training loader. *)
Definition built_from_probe (train_dataloader : loader) (model_type : string)
    (device : Device) (model_args : ModelArgs) (seed : nat) (m0 : model) : Prop :=
  exists b rest T F S w,
    load_batches train_dataloader seed = b :: rest /\
    shape (b_data b) !! 2%nat = Some T /\
    shape (b_data b) !! 1%nat = Some F /\
    shape (b_static b) !! 1%nat = Some S /\
    make_model model_type device model_args T F S w = (Ok (Some m0), w).


(** ** Weakest preconditions for [Py] *)

Definition wp {A} (m : Py A) (Q : A -> World -> Prop) (E : Exn -> World -> Prop)
    (w : World) : Prop :=
  match m w with
  | (Ok a, w') => Q a w'
  | (Raise e, w') => E e w'
  end.

End Program.

(** ** A small concrete set of collaborators

    Rational scalars, data sets that are already lists of batches, a model
    whose two logits per sample are [0] and the sample's first reading, and
    metrics that return fixed values.  It is used to run the three
    functions on concrete inputs. *)
Module Toy.

Definition str_Z (z : Z) : string := NilZero.string_of_int (Z.to_int z).

Definition str_Q (q : Q) : string :=
  (if Qnum q <? 0 then "-" else "") +:+ str_int (Z.abs_nat (Qnum q))
    +:+ "/" +:+ str_int (Pos.to_nat (Qden q)).

Definition logits (i : Inputs Q) : Tensor Q :=
  mkTensor [length (data (in_x i)); 2%nat]
           (flat_map (fun x => [0%Q; x]) (data (in_x i))) (device (in_x i)).

Definition zeros (t : Tensor Q) : Tensor Z :=
  mkTensor (take 1 (shape t)) (repeat 0 (default 0%nat (head (shape t)))) cpu.

Definition check (dl : DataLoader (list (Batch Q))) : option Exn :=
  if dl_batch_size dl <=? 0
  then Some (ValueError "batch_size should be a positive integer value")
  else None.

Definition the_report : gmap string (Json Q) :=
  <["accuracy" := JNum (4 # 5)]> (<["1" := JDict (<["precision" := (3 # 4)]> ∅)]> ∅).

#[export] Instance collaborators : Collaborators := {|
  scalar := Q;
  s_zero := 0%Q;
  s_one := 1%Q;
  s_add := fun a b => Qred (Qplus a b);
  s_sub := fun a b => Qred (Qminus a b);
  s_ltb := fun a b => negb (Qle_bool b a);
  str_scalar := str_Q;
  np_mean := fun l => Qred (fold_right Qplus 0%Q l / inject_Z (Z.of_nat (length l)));
  np_argmax := fun t _ => Ok (zeros t);
  Dataset := list (Batch Q);
  loader_check := check;
  load_batches := fun dl _ => dl_dataset dl;
  ModelArgs := unit;
  Params := Z;
  instantiate := fun _ => Ok 0;
  forward := fun m i => Ok (OTensor (logits i));
  state_dict_fits := fun _ _ => true;
  cross_entropy := fun _ _ => Ok (1 # 2);
  softmax := fun t _ => Ok t;
  torch_argmax := fun t _ => Ok (zeros t);
  Grads := unit;
  AdamState := nat;
  adam_init := fun _ lr =>
    if Qle_bool 0 lr then Ok 0%nat else Raise (ValueError "Invalid learning rate");
  backward := fun _ _ _ => tt;
  adam_step := fun s p _ => (S s, p + 1);
  roc_auc_score := fun _ _ => Ok (4 # 5);
  average_precision_score := fun _ _ => Ok (7 # 10);
  accuracy_score := fun _ _ => Ok (4 # 5);
  classification_report := fun _ _ => Ok the_report;
  ConfusionMatrix := unit;
  confusion_matrix := fun _ _ => Ok tt;
  plot_training_curves := fun _ => Ok "jpeg";
  torch_save := str_Z;
  torch_unpickle := fun s => if String.eqb s "" then None else Some 7;
  json_dumps := fun d => join "," (map fst (map_to_list d))
|}.

Definition vec (l : list Q) : Tensor Q := mkTensor [length l; 1%nat; 1%nat] l cpu.
Definition mat (l : list Q) : Tensor Q := mkTensor [length l; 1%nat] l cpu.

Definition batch1 : Batch Q :=
  mkBatch (vec [1 # 2; 3 # 2]) (mat [0; 1]%Q) (mat [60; 70]%Q)
          (mkTensor [2%nat] [1; 0] cpu) (vec [1; 1]%Q) (vec [0; 0]%Q).

Definition batch2 : Batch Q :=
  mkBatch (vec [5 # 2]) (mat [2]%Q) (mat [80]%Q)
          (mkTensor [1%nat] [1] cpu) (vec [1]%Q) (vec [0]%Q).

Definition dataset : list (Batch Q) := [batch1; batch2].

Definition world0 : World := boot ∅ ["out"] 0 false false.

(** A world in which an earlier run left a checkpoint. *)
Definition world1 : World :=
  boot (<["out/checkpoint.pt" := "3"]> ∅) ["out"] 0 false false.

Definition loader : DataLoader (list (Batch Q)) :=
  mkDataLoader dataset 32 true 16 paired_collate_fn_truncate true.

Definition eval_loader : DataLoader (list (Batch Q)) :=
  mkDataLoader dataset 64 false 16 non_pair_collate_fn_truncate true.

Definition a_model : Model unit Z :=
  mkModel (CustomMambaModel 1 2 1 1 tt) 0 false (Some cpu).

(** The same architecture with other weights, in training mode and not yet
    placed on a device. *)
Definition b_model : Model unit Z :=
  mkModel (CustomMambaModel 1 2 1 1 tt) 5 true None.

(** A loader over no batches at all. *)
Definition empty_loader : DataLoader (list (Batch Q)) :=
  mkDataLoader [] 64 false 16 non_pair_collate_fn_truncate true.

(** A batch whose data tensor has two dimensions only. *)
Definition flat_batch : Batch Q :=
  mkBatch (mat [5 # 2]) (mat [2]%Q) (mat [80]%Q)
          (mkTensor [1%nat] [1] cpu) (vec [1]%Q) (vec [0]%Q).

Definition flat_loader : DataLoader (list (Batch Q)) :=
  mkDataLoader [flat_batch] 64 false 16 non_pair_collate_fn_truncate true.

End Toy.


(** * Properties *)

Section Properties.
Context `{C : Collaborators}.

Local Abbreviation tensor := (Tensor scalar).
Local Abbreviation batch := (Batch scalar).
Local Abbreviation inputs := (Inputs scalar).
Local Abbreviation model := (Model ModelArgs Params).
Local Abbreviation loader := (DataLoader Dataset).

(** ** Rules of the weakest-precondition calculus *)

Lemma wp_ret {A} (a : A) Q E w : Q a w -> wp (ret a) Q E w.
Proof. intros H. exact H. Qed.

Lemma wp_raise {A} e (Q : A -> World -> Prop) E w : E e w -> wp (raise e) Q E w.
Proof. intros H. exact H. Qed.

Lemma wp_lift {A} (r : Res A) Q E w :
  match r with Ok a => Q a w | Raise e => E e w end -> wp (lift r) Q E w.
Proof. intros H. exact H. Qed.

Lemma wp_bind {A B} (m : Py A) (k : A -> Py B) Q E w :
  wp m (fun a w' => wp (k a) Q E w') E w -> wp (bind m k) Q E w.
Proof.
  unfold wp, bind. destruct (m w) as [[a|e] w']; auto.
Qed.

Lemma wp_mono {A} (m : Py A) (Q Q' : A -> World -> Prop) (E E' : Exn -> World -> Prop) w :
  wp m Q E w ->
  (forall a w', Q a w' -> Q' a w') ->
  (forall e w', E e w' -> E' e w') ->
  wp m Q' E' w.
Proof.
  unfold wp. destruct (m w) as [[a|e] w']; auto.
Qed.


Lemma wp_emit ev Q E w :
  Q tt (mkWorld (files w) (trace w ++ [ev]) (rng w) (grad_enabled w)
                (cuda_available w) (mps_available w) (dirs w)) ->
  wp (emit ev) Q E w.
Proof. intros H. exact H. Qed.

Lemma wp_write_file path s Q E w :
  (if can_open path w
   then Q tt (set_files (<[path := s]> (files w)) w)
   else E (FileNotFoundError path) w) ->
  wp (write_file path s) Q E w.
Proof. unfold wp, write_file. by destruct (can_open path w). Qed.

Lemma wp_append_file path s Q E w :
  (if can_open path w
   then Q tt (set_files (<[path := default "" (files w !! path) +:+ s]> (files w)) w)
   else E (FileNotFoundError path) w) ->
  wp (append_file path s) Q E w.
Proof. unfold wp, append_file. by destruct (can_open path w). Qed.

Lemma wp_read_file path Q E w :
  match files w !! path with
  | Some s => Q s w
  | None => E (FileNotFoundError path) w
  end ->
  wp (read_file path) Q E w.
Proof.
  unfold wp, read_file. destruct (files w !! path); auto.
Qed.

Lemma wp_iter (dl : loader) Q E w :
  Q (load_batches dl (rng w))
    (mkWorld (files w) (trace w) (S (rng w)) (grad_enabled w)
             (cuda_available w) (mps_available w) (dirs w)) ->
  wp (iter dl) Q E w.
Proof. intros H. exact H. Qed.

Lemma wp_with_no_grad {A} (body : Py A) Q E w :
  wp body (fun a w' => Q a (set_grad (grad_enabled w) w'))
          (fun e w' => E e (set_grad (grad_enabled w) w'))
          (set_grad false w) ->
  wp (with_no_grad body) Q E w.
Proof.
  unfold wp, with_no_grad. destruct (body (set_grad false w)) as [[a|e] w']; auto.
Qed.

Lemma wp_call_model (m : model) (i : inputs) Q E w :
  (let w' := mkWorld (files w) (trace w ++ [EvForward m (grad_enabled w) i]) (rng w)
                     (grad_enabled w) (cuda_available w) (mps_available w) (dirs w) in
   match forward m i with
   | Ok o => Q o w'
   | Raise e => E e w'
   end) ->
  wp (call_model m i) Q E w.
Proof.
  unfold wp, call_model, bind, emit, lift. simpl. destruct (forward m i); auto.
Qed.

Lemma wp_local {A} name (v : option A) Q E w :
  match v with Some a => Q a w | None => E (UnboundLocalError name) w end ->
  wp (local name v) Q E w.
Proof. destruct v; auto. Qed.

(** Loop rules: an invariant over the part of the list still to be done. *)
Lemma wp_for_each {B S} (body : B -> S -> Py S) (I : list B -> S -> World -> Prop)
    Q E l s w :
  I l s w ->
  (forall b l' s w, I (b :: l') s w -> wp (body b s) (fun s' w' => I l' s' w') E w) ->
  (forall s w, I [] s w -> Q s w) ->
  wp (for_each body l s) Q E w.
Proof.
  intros HI Hbody Hend. revert s w HI.
  induction l as [|b l IH]; intros s w HI; simpl.
  - apply wp_ret. auto.
  - apply wp_bind. eapply wp_mono; [apply Hbody; exact HI | | auto].
    intros s' w' HI'. apply IH. exact HI'.
Qed.

Lemma wp_for_each_break {B S} (body : B -> S -> Py (Ctl * S))
    (I : list B -> S -> World -> Prop) Q E l s w :
  I l s w ->
  (forall b l' s w, I (b :: l') s w ->
     wp (body b s)
        (fun r w' => match r with
                     | (Continue, s') => I l' s' w'
                     | (Break, s') => Q s' w'
                     end) E w) ->
  (forall s w, I [] s w -> Q s w) ->
  wp (for_each_break body l s) Q E w.
Proof.
  intros HI Hbody Hend. revert s w HI.
  induction l as [|b l IH]; intros s w HI; simpl.
  - apply wp_ret. auto.
  - apply wp_bind. eapply wp_mono; [apply Hbody; exact HI | | auto].
    intros [[|] s'] w' H.
    + apply IH. exact H.
    + apply wp_ret. exact H.
Qed.

Ltac wp_step :=
  cbv beta iota zeta;
  lazymatch goal with
  | |- wp (bind _ _) _ _ _ => apply wp_bind
  | |- wp (ret _) _ _ _ => apply wp_ret
  | |- wp (raise _) _ _ _ => apply wp_raise
  | |- wp (lift (Ok _)) _ _ _ => apply wp_lift
  | |- wp (lift (Raise _)) _ _ _ => apply wp_lift
  | |- wp (lift ?r) _ _ _ =>
      apply wp_lift; let H := fresh "Hcall" in destruct r eqn:H
  | |- wp (emit _) _ _ _ => apply wp_emit
  | |- wp (write_file ?p _) _ _ ?w =>
      apply wp_write_file; let H := fresh "Hopen" in destruct (can_open p w) eqn:H
  | |- wp (append_file ?p _) _ _ ?w =>
      apply wp_append_file; let H := fresh "Hopen" in destruct (can_open p w) eqn:H
  | |- wp (read_file _) _ _ _ =>
      apply wp_read_file; let H := fresh "Hfile" in
      lazymatch goal with |- match ?o with _ => _ end => destruct o eqn:H end
  | |- wp (iter _) _ _ _ => apply wp_iter
  | |- wp (with_no_grad _) _ _ _ => apply wp_with_no_grad
  | |- wp (call_model ?m ?i) _ _ _ =>
      apply wp_call_model; cbv zeta;
      let H := fresh "Hfwd" in destruct (forward m i) eqn:H
  | |- wp (local _ ?v) _ _ _ =>
      apply wp_local; let H := fresh "Hloc" in destruct v eqn:H
  | |- wp (match ?x with _ => _ end) _ _ _ =>
      let H := fresh "Hcase" in destruct x eqn:H
  | |- wp (let _ := _ in _) _ _ _ => cbv zeta
  end.

(** A file that could be opened before can still be opened: nothing in
    the three functions creates or removes a directory. *)
Ltac open_ok :=
  unfold can_open in *; simpl in *;
  repeat match goal with
         | H : dirs ?a = dirs ?b |- _ => rewrite ?H in *; clear H
         end;
  first [ assumption
        | match goal with
          | H1 : ?x = true, H2 : ?x = false |- _ => rewrite H1 in H2; discriminate H2
          end
        | symmetry; assumption ].

(** ** Basic facts about traces and worlds *)

Lemma submitted_app (a b : list Event) : submitted (a ++ b) = submitted a ++ submitted b.
Proof. unfold submitted. apply omap_app. Qed.

Lemma completed_app (a b : list Event) : completed (a ++ b) = completed a ++ completed b.
Proof. unfold completed. apply omap_app. Qed.

Lemma forward_calls_app (a b : list Event) :
  forward_calls (a ++ b) = forward_calls a ++ forward_calls b.
Proof. unfold forward_calls. apply omap_app. Qed.

Lemma fwd_event_quiet tdl vdl mt dev g evs :
  Forall (fwd_event tdl vdl mt dev g) evs -> submitted evs = [] /\ completed evs = [].
Proof.
  induction 1 as [|e evs He _ [IH1 IH2]]; [done|].
  destruct e; simpl in He; try contradiction.
  split; simpl; assumption.
Qed.

Lemma fwd_event_train tdl vdl mt dev g e :
  fwd_event tdl vdl mt dev g e -> train_event tdl vdl mt dev g e.
Proof. destruct e; simpl; tauto. Qed.

Lemma extends_refl P w : extends P w w.
Proof.
  split; [exists []; split; [by rewrite app_nil_r | constructor] | done].
Qed.


Lemma extends_emit P w w' ev :
  extends P w w' -> P ev ->
  extends P w (mkWorld (files w') (trace w' ++ [ev]) (rng w') (grad_enabled w')
                       (cuda_available w') (mps_available w') (dirs w')).
Proof.
  intros [[e1 [T1 F1]] (A1 & B1 & C1 & D1)] Hev. split; simpl.
  - exists (e1 ++ [ev]). split; [by rewrite T1, app_assoc|].
    apply Forall_app. split; [done | by constructor].
  - done.
Qed.

Lemma extends_rng P w w' n :
  extends P w w' ->
  extends P w (mkWorld (files w') (trace w') n (grad_enabled w')
                       (cuda_available w') (mps_available w') (dirs w')).
Proof. intros [[e1 [T1 F1]] H]. split; simpl; [by exists e1 | done]. Qed.


(** ** The two inner loops *)

(** The optimisation loop only calls the model, in training mode, on
    batches of the training loader moved as [place] says. *)
Lemma train_loop_spec tdl vdl mt dev n bs (m : model) opt ll w :
  m_training m = true -> m_device m = Some dev ->
  (forall b, b ∈ bs -> b ∈ load_batches tdl n) ->
  wp (for_each (train_batch mt dev) bs (m, opt, ll))
     (fun st w' =>
        extends (fwd_event tdl vdl mt dev (grad_enabled w)) w w' /\ rng w' = rng w /\
        m_device (st.1.1) = Some dev)
     (fun _ w' => extends (fwd_event tdl vdl mt dev (grad_enabled w)) w w' /\ rng w' = rng w)
     w.
Proof.
  intros Htr Hdev Hbs.
  apply wp_for_each with
    (I := fun l st w' =>
            (forall b, b ∈ l -> b ∈ load_batches tdl n) /\
            extends (fwd_event tdl vdl mt dev (grad_enabled w)) w w' /\ rng w' = rng w /\
            m_training (st.1.1) = true /\ m_device (st.1.1) = Some dev).
  - split_and!; auto using extends_refl.
  - intros b l' [[m1 opt1] ll1] w1 (Hin & Hext & Hrng & Htr1 & Hdev1). simpl in Htr1, Hdev1.
    assert (Hg : grad_enabled w1 = grad_enabled w) by apply Hext.
    assert (Hev : fwd_event tdl vdl mt dev (grad_enabled w)
                    (EvForward m1 (grad_enabled w1) (place mt dev b))).
    { simpl. split; [done|]. left. split_and!; try done.
      exists n, b. split; [|done]. apply Hin. by left. }
    unfold train_batch. repeat wp_step; simpl; split_and?;
      try done; try (by apply extends_emit).
    intros b' Hb'. apply Hin. by right.
  - intros st w1 (_ & Hext & Hrng & _ & Hdev1). auto.
Qed.

Lemma add_events_nil w : add_events [] w = w.
Proof. destruct w. unfold add_events. simpl. by rewrite app_nil_r. Qed.


Lemma add_events_cons e evs w :
  add_events evs (mkWorld (files w) (trace w ++ [e]) (rng w) (grad_enabled w)
                          (cuda_available w) (mps_available w) (dirs w)) =
  add_events (e :: evs) w.
Proof. unfold add_events. simpl. by rewrite <- app_assoc. Qed.

Lemma cat_from_raise {A} e (ts : list (Tensor A)) :
  fold_left (fun acc t => match acc with Ok a => torch_cat0 a t | Raise e => Raise e end)
            ts (Raise e) = Raise e.
Proof. induction ts; simpl; auto. Qed.

Lemma cat_from_cons {A} (a t : Tensor A) ts :
  cat_from a (t :: ts) =
  match torch_cat0 a t with Ok a' => cat_from a' ts | Raise e => Raise e end.
Proof.
  unfold cat_from. simpl. destruct (torch_cat0 a t); [done | apply cat_from_raise].
Qed.

(** An inference pass calls the model once per batch, in order, on the
    tensors [place] yields, and accumulates labels and logits by
    concatenation.  If it raises, it has made the calls of a prefix. *)
Lemma eval_loop_spec mt dev (m : model) bs labels0 preds0 w :
  wp (for_each (eval_batch mt dev m) bs (labels0, preds0))
     (fun acc w' =>
        w' = add_events (pass_events mt dev m (grad_enabled w) bs) w /\
        exists outs,
          Forall2 (fun b o => forward m (place mt dev b) = Ok o) bs outs /\
          cat_from labels0 (map b_labels bs) = Ok acc.1 /\
          cat_from preds0 (map logits_of outs) = Ok acc.2)
     (fun _ w' =>
        exists j, w' = add_events (pass_events mt dev m (grad_enabled w) (take j bs)) w)
     w.
Proof.
  revert labels0 preds0 w.
  induction bs as [|b bs IH]; intros labels0 preds0 w; simpl.
  - apply wp_ret. split; [by rewrite add_events_nil|].
    exists []. split; [constructor | done].
  - apply wp_bind. unfold eval_batch at 1.
    wp_step. wp_step; [|exists 0%nat; by rewrite add_events_nil].
    wp_step. wp_step; [|exists 1%nat; done].
    wp_step. wp_step; [|exists 1%nat; done].
    wp_step. eapply wp_mono; [apply IH | |]; simpl.
    + intros [labels preds] w' [-> (outs & Hf & Hl & Hp)]. simpl in *. split.
      * apply add_events_cons.
      * exists (a0 :: outs). split; [by constructor|].
        simpl map. rewrite !cat_from_cons, Hcall. split; [done|].
        unfold logits_of at 1. destruct a0; simpl in Hcall0 |- *; by rewrite Hcall0.
    + intros _ w' [j ->]. exists (S j). apply add_events_cons.
Qed.

(** ** The validation pass *)

Lemma validate_spec vdl mt dev (m : model) w :
  let bs := load_batches vdl (rng w) in
  wp (validate vdl mt dev m)
     (fun r w' =>
        trace w' = trace w ++ pass_events mt dev m false bs /\
        files w' = files w /\ rng w' = S (rng w) /\ same_switches w w' /\
        validation_scores mt dev m bs r.1.1 r.1.2 r.2)
     (fun _ w' =>
        (exists j, trace w' = trace w ++ pass_events mt dev m false (take j bs)) /\
        files w' = files w /\ rng w' = S (rng w) /\ same_switches w w')
     w.
Proof.
  intros bs. unfold validate.
  wp_step. wp_step. wp_step. wp_step. wp_step.
  eapply wp_mono; [apply eval_loop_spec | |]; simpl.
  - intros [labels logits] w' [-> (outs & Hf & Hl & Hp)]. simpl in Hl, Hp.
    repeat wp_step; simpl; unfold same_switches; simpl; split_and?; try done;
      try (by exists (length bs); rewrite firstn_all).
    exists outs, labels, logits, a, a0. split_and!; done.
  - intros _ w' [j ->]. simpl. unfold same_switches. simpl. split_and!; try done.
    by exists j.
Qed.

(** ** Submitting to the early-stopping controller *)

Lemma EarlyStopping_call_spec (es : EarlyStopping) x (m : model) w :
  can_open (es_path es) w = true ->
  wp (EarlyStopping_call es x m)
     (fun es' w' =>
        trace w' = trace w ++ [EvSubmit x] /\
        es_path es' = es_path es /\
        (files w' = files w \/ exists s, files w' = <[es_path es := s]> (files w)) /\
        rng w' = rng w /\ same_switches w w')
     (fun _ _ => False) w.
Proof.
  intros Hdir. unfold EarlyStopping_call, es_improve, same_switches.
  repeat wp_step; simpl; split_and?; try done; eauto; open_ok.
Qed.

Lemma submit_criterion_spec crit auc aupr vl (m : model) es w n a s :
  can_open (es_path es) w = true ->
  let r := mkEpochRecord n a vl auc aupr s in
  wp (submit_criterion crit auc aupr vl m es)
     (fun es' w' =>
        trace w' = trace w ++ submission crit r /\
        es_path es' = es_path es /\
        (files w' = files w \/ exists s, files w' = <[es_path es := s]> (files w)) /\
        (criterion_value crit r = None -> es' = es /\ files w' = files w) /\
        rng w' = rng w /\ same_switches w w')
     (fun _ _ => False) w.
Proof.
  intros Hdir r. unfold submit_criterion, submission, criterion_value. simpl.
  repeat (destruct (String.eqb crit _);
          [eapply wp_mono; [by apply EarlyStopping_call_spec | | done];
           simpl; intros es' w' (? & ? & ? & ? & ?); split_and!; done |]).
  apply wp_ret. unfold same_switches. rewrite app_nil_r. split_and!; auto.
Qed.

Lemma criterion_value_scores crit n a vl auc aupr s n' a' s' :
  criterion_value crit (mkEpochRecord n a vl auc aupr s) =
  criterion_value crit (mkEpochRecord n' a' vl auc aupr s').
Proof.
  unfold criterion_value. simpl.
  repeat (destruct (String.eqb crit _); [done|]). done.
Qed.

Lemma pass_events_fwd tdl vdl mt dev g (m : model) n bs :
  m_training m = false -> m_device m = Some dev ->
  (forall b, b ∈ bs -> b ∈ load_batches vdl n) ->
  Forall (fwd_event tdl vdl mt dev g) (pass_events mt dev m false bs).
Proof.
  intros Htr Hdev Hbs. unfold pass_events. apply Forall_map.
  apply Forall_forall. intros b Hb. simpl. split; [done|]. right.
  split_and!; try done. exists n, b. split; [by apply Hbs | done].
Qed.

(** ** One epoch *)

Lemma epoch_body_spec tdl vdl out dev mt crit epoch v w :
  can_open (log_path out) w = true ->
  can_open (es_path (v_early_stopping v)) w = true ->
  wp (epoch_body tdl vdl out dev mt crit epoch v)
     (fun r w' => epoch_outcome tdl vdl out dev mt crit epoch v w r.1 r.2 w')
     (fun _ w' => extends (fwd_event tdl vdl mt dev (grad_enabled w)) w w')
     w.
Proof.
  intros Hlogdir Hckdir.
  unfold epoch_body. wp_step. wp_step. wp_step.
  eapply wp_mono;
    [apply (train_loop_spec tdl vdl mt dev (rng w)); simpl; auto | |]; simpl.
  2:{ intros _ w' [H _]. destruct H as [Hev H]. split; done. }
  intros [[m1 opt1] ll1] w1
         ([[fw1 [Ht1 Hf1]] (Hfiles1 & Hg1 & Hc1 & Hm1 & Hd1)] & Hrng1 & Hdev1).
  simpl in *.
  wp_step. eapply wp_mono; [apply validate_spec | |]; simpl.
  2:{ intros _ w' ([j Ht] & Hfiles & Hrng & Hg & Hc & Hm & Hd).
      split; [|split_and!; congruence].
      exists (fw1 ++ pass_events mt dev (model_to dev (set_training false m1)) false
                (take j (load_batches vdl (rng w1)))).
      split; [by rewrite Ht, Ht1, app_assoc|].
      apply Forall_app. split; [done|].
      eapply pass_events_fwd; simpl; eauto.
      intros b Hb. by apply (subseteq_take j). }
  intros [[vl auc] aupr] w2 (Ht2 & Hfiles2 & Hrng2 & (Hg2 & Hc2 & Hm2 & Hd2) & _).
  wp_step. apply wp_append_file.
  replace (can_open (log_path out) w2) with true by open_ok.
  wp_step.
  eapply wp_mono;
    [apply (submit_criterion_spec crit auc aupr vl _ _ _ (epoch + 1)%nat (np_mean ll1) false);
     open_ok
    | | done]; simpl.
  intros es' w3 (Ht3 & Hpath & Hfiles3 & Hnone & Hrng3 & Hg3 & Hc3 & Hm3 & Hd3). simpl in *.
  wp_step. wp_step.
  set (r := mkEpochRecord (epoch + 1)%nat (np_mean ll1) vl auc aupr (early_stop es')).
  assert (Hcv : forall s0, criterion_value crit
                   (mkEpochRecord (epoch + 1)%nat (np_mean ll1) vl auc aupr s0) =
                 criterion_value crit r) by (intros; apply criterion_value_scores).
  assert (Hsub : forall s0, submission crit
                   (mkEpochRecord (epoch + 1)%nat (np_mean ll1) vl auc aupr s0) =
                 submission crit r) by (intros; unfold submission; by rewrite Hcv).
  assert (Hout : forall ctl, ctl = (if early_stop es' then Break else Continue) ->
            epoch_outcome tdl vdl out dev mt crit epoch v w ctl
              (mkTrainVars (model_to dev (set_training false m1)) opt1 es' (Some vl))
              (mkWorld (files w3) (trace w3 ++ [done_event r]) (rng w3) (grad_enabled w3)
                       (cuda_available w3) (mps_available w3) (dirs w3))).
  { intros ctl Hctl.
    exists (fw1 ++ pass_events mt dev (model_to dev (set_training false m1)) false
              (load_batches vdl (rng w1))), r.
    simpl. split_and!; try done.
    - apply Forall_app. split; [done|].
      eapply pass_events_fwd; simpl; eauto.
    - rewrite Ht3, (Hsub false), Ht2, Ht1. by rewrite <- !app_assoc.
    - rewrite Hfiles1 in Hfiles2. unfold record_row. simpl.
      destruct Hfiles3 as [->| [s0 ->]]; [left|right; exists s0];
        by rewrite Hfiles2.
    - intros Hn. rewrite <- (Hcv false) in Hn. destruct (Hnone Hn) as [-> ->].
      split; [done|]. unfold record_row. simpl. by rewrite Hfiles2, Hfiles1.
    - unfold same_switches. simpl. split_and!; congruence. }
  destruct (early_stop es') eqn:Hstop; wp_step; simpl; by apply Hout.
Qed.

(** ** The files of a run *)

Lemma log_checkpoint_paths out : log_path out <> checkpoint_path out.
Proof. unfold log_path, checkpoint_path. intros H. by apply (inj (String.app out)) in H. Qed.

Lemma log_curves_paths out : log_path out <> curves_path out.
Proof. unfold log_path, curves_path. intros H. by apply (inj (String.app out)) in H. Qed.

Lemma checkpoint_curves_paths out : checkpoint_path out <> curves_path out.
Proof.
  unfold checkpoint_path, curves_path. intros H. by apply (inj (String.app out)) in H.
Qed.



(** The four files of a run live in the output directory. *)
Lemma dirname_file out name :
  occurs "/" name = false -> dirname (out +:+ String "/" name) = out.
Proof.
  intros Hname. induction out as [|c out IH].
  - change (EmptyString +:+ String "/" name) with (String "/" name).
    cbn [dirname]. by rewrite Hname.
  - change (String c out +:+ String "/" name) with (String c (out +:+ String "/" name)).
    cbn [dirname]. rewrite IH.
    assert (Hs : forall a : string, occurs "/" (a +:+ String "/" name) = true).
    { induction a as [|x a IHa]; [done|].
      change (String x a +:+ String "/" name) with (String x (a +:+ String "/" name)).
      cbn [occurs]. rewrite IHa. apply orb_true_r. }
    by rewrite Hs.
Qed.

Lemma dirname_log out : dirname (log_path out) = out.
Proof. by apply dirname_file. Qed.

Lemma dirname_checkpoint out : dirname (checkpoint_path out) = out.
Proof. by apply dirname_file. Qed.

Lemma dirname_curves out : dirname (curves_path out) = out.
Proof. by apply dirname_file. Qed.

Lemma dirname_results out : dirname (results_path out) = out.
Proof. by apply dirname_file. Qed.

Lemma can_open_dirs p w w' : dirs w' = dirs w -> can_open p w' = can_open p w.
Proof. unfold can_open. by intros ->. Qed.

Lemma can_open_checkpoint out w : can_open (checkpoint_path out) w = can_open (log_path out) w.
Proof. unfold can_open. by rewrite dirname_checkpoint, dirname_log. Qed.

Lemma can_open_curves out w : can_open (curves_path out) w = can_open (log_path out) w.
Proof. unfold can_open. by rewrite dirname_curves, dirname_log. Qed.

Lemma can_open_results out w : can_open (results_path out) w = can_open (log_path out) w.
Proof. unfold can_open. by rewrite dirname_results, dirname_log. Qed.

Lemma log_text_snoc rs r : log_text (rs ++ [r]) = log_text rs +:+ record_row r.
Proof. unfold log_text. by rewrite fold_left_app. Qed.

Lemma done_event_completed r : completed [done_event r] = [r].
Proof. by destruct r. Qed.

Lemma submission_submitted crit r :
  submitted (submission crit r) = omap (criterion_value crit) [r].
Proof. unfold submission. simpl. by destruct (criterion_value crit r). Qed.

Lemma submission_completed crit r : completed (submission crit r) = [].
Proof. unfold submission. by destruct (criterion_value crit r). Qed.

Lemma submission_train_event tdl vdl mt dev g crit r :
  Forall (train_event tdl vdl mt dev g) (submission crit r).
Proof. unfold submission. destruct (criterion_value crit r); repeat constructor. Qed.

Lemma unknown_criterion_value crit r :
  assoc crit criterion_table = None -> criterion_value crit r = None.
Proof. unfold criterion_value. by intros ->. Qed.


Lemma done_event_submitted r : submitted [done_event r] = [].
Proof. by destruct r. Qed.

Lemma removelast_snoc {A} (l : list A) x : removelast (l ++ [x]) = l.
Proof. rewrite removelast_app by done. simpl. apply app_nil_r. Qed.

(** One more completed epoch keeps [train_progress]. *)
Lemma progress_step tdl vdl out epochs dev mt crit w0 w1 w2 evs epoch v ctl v' :
  train_progress tdl vdl out epochs dev mt crit w0 w1 evs ->
  Forall (fun r => r_stop r = false) (completed evs) ->
  epoch = length (completed evs) ->
  (epoch < Z.to_nat epochs)%nat ->
  es_path (v_early_stopping v) = checkpoint_path out ->
  early_stop (v_early_stopping v) = false ->
  epoch_outcome tdl vdl out dev mt crit epoch v w1 ctl v' w2 ->
  exists evs' r,
    train_progress tdl vdl out epochs dev mt crit w0 w2 evs' /\
    completed evs' = completed evs ++ [r] /\
    r_stop r = early_stop (v_early_stopping v') /\
    v_val_loss v' = Some (r_val_loss r) /\
    es_path (v_early_stopping v') = checkpoint_path out /\
    ctl = (if early_stop (v_early_stopping v') then Break else Continue).
Proof.
  intros (Ht & Hev & Hsub & Hseq & Hlen & Hrl & Hlog & Hother & Hunk & Hsw)
         Hstops Hepoch Hlt Hpath Hflag
         (fw & r & Hfw & Hre & Hrs & Ht2 & Hvl & Hpath2 & Hctl & [Hfiles Hnone] & Hsw2).
  destruct Hsw as (Hg & Hc & Hm & Hd). destruct Hsw2 as (Hg2 & Hc2 & Hm2 & Hd2).
  rewrite Hg in Hfw.
  destruct (fwd_event_quiet _ _ _ _ _ _ Hfw) as [Hfs Hfc].
  set (evs' := evs ++ fw ++ submission crit r ++ [done_event r]).
  assert (Hcomp : completed evs' = completed evs ++ [r]).
  { unfold evs'. rewrite !completed_app, Hfc, submission_completed, done_event_completed.
    done. }
  assert (Hlogged : forall p, p <> log_path out -> p <> checkpoint_path out ->
                              files w2 !! p = files w1 !! p).
  { intros p Hp1 Hp2. rewrite Hpath in Hfiles.
    destruct Hfiles as [-> | [s ->]]; by rewrite ?lookup_insert_ne. }
  exists evs', r. split_and!; try done; [split_and!|congruence].
  - rewrite Ht2, Ht. unfold evs'. by rewrite <- !app_assoc.
  - unfold evs'. rewrite !Forall_app. split_and!; try done.
    + eapply Forall_impl; [exact Hfw|]. intros e. apply fwd_event_train.
    + apply submission_train_event.
    + constructor; [by destruct r | constructor].
  - rewrite Hcomp, omap_app. unfold evs'.
    rewrite !submitted_app, Hfs, submission_submitted, done_event_submitted, Hsub.
    simpl. by rewrite app_nil_r.
  - rewrite Hcomp, map_app, length_app, Hseq. simpl.
    rewrite seq_app. simpl. rewrite Hre, Hepoch. do 3 f_equal. lia.
  - rewrite Hcomp, length_app. simpl. lia.
  - by rewrite Hcomp, removelast_snoc.
  - rewrite Hcomp, log_text_snoc. rewrite Hpath in Hfiles.
    destruct Hfiles as [-> | [s ->]].
    + by rewrite lookup_insert_eq, Hlog.
    + rewrite lookup_insert_ne by (apply not_eq_sym, log_checkpoint_paths).
      by rewrite lookup_insert_eq, Hlog.
  - intros p Hp1 Hp2 Hp3. rewrite Hlogged by done. by apply Hother.
  - intros Hu. destruct (Hunk Hu) as [Hck Hst].
    destruct (Hnone (unknown_criterion_value _ _ Hu)) as [Hes ->].
    split.
    + rewrite lookup_insert_ne by apply log_checkpoint_paths. done.
    + rewrite Hcomp. apply Forall_app. split; [done|].
      repeat constructor. by rewrite Hrs, Hes.
  - unfold same_switches. split_and!; congruence.
Qed.

Lemma progress_extends tdl vdl out epochs dev mt crit w0 w1 w2 evs :
  train_progress tdl vdl out epochs dev mt crit w0 w1 evs ->
  extends (fwd_event tdl vdl mt dev (grad_enabled w1)) w1 w2 ->
  exists evs',
    train_progress tdl vdl out epochs dev mt crit w0 w2 evs' /\
    completed evs' = completed evs.
Proof.
  intros (Ht & Hev & Hsub & Hseq & Hlen & Hrl & Hlog & Hother & Hunk & Hg & Hc & Hm & Hd)
         [[fw [Ht2 Hfw]] (Hfiles & Hg2 & Hc2 & Hm2 & Hd2)].
  rewrite Hg in Hfw.
  destruct (fwd_event_quiet _ _ _ _ _ _ Hfw) as [Hfs Hfc].
  assert (Hcomp : completed (evs ++ fw) = completed evs).
  { by rewrite completed_app, Hfc, app_nil_r. }
  exists (evs ++ fw). split; [|done].
  unfold train_progress. rewrite Hcomp, submitted_app, Hfs, app_nil_r, Hfiles.
  split_and!; try done.
  - by rewrite Ht2, Ht, app_assoc.
  - apply Forall_app. split; [done|].
    eapply Forall_impl; [exact Hfw|]. intros e. apply fwd_event_train.
  - unfold same_switches. split_and!; congruence.
Qed.

Lemma progress_curves tdl vdl out epochs dev mt crit w0 w evs fig :
  train_progress tdl vdl out epochs dev mt crit w0 w evs ->
  train_progress tdl vdl out epochs dev mt crit w0
    (set_files (<[curves_path out := fig]> (files w)) w) evs.
Proof.
  intros (Ht & Hev & Hsub & Hseq & Hlen & Hrl & Hlog & Hother & Hunk & Hsw).
  unfold train_progress. simpl. split_and!; try done.
  - by rewrite lookup_insert_ne by (apply not_eq_sym, log_curves_paths).
  - intros p Hp1 Hp2 Hp3. rewrite lookup_insert_ne by done. by apply Hother.
  - intros Hu. destruct (Hunk Hu) as [Hck Hst]. split; [|done].
    by rewrite lookup_insert_ne by (apply not_eq_sym, checkpoint_curves_paths).
Qed.

Lemma probe_shapes_spec (bs : list batch) w :
  wp (probe_shapes bs) (fun _ w' => w' = w) (fun _ w' => w' = w) w.
Proof.
  unfold probe_shapes. repeat wp_step; auto.
Qed.

Lemma make_model_spec mt dev margs a b c w :
  wp (make_model mt dev margs a b c)
     (fun r w' => w' = w /\
        match r with
        | Some m => m_training m = true
        | None => mt ∉ known_model_types
        end)
     (fun _ w' => w' = w) w.
Proof.
  unfold make_model, construct, known_model_types.
  destruct (String.eqb_spec mt "grud"); [repeat wp_step; auto|].
  destruct (String.eqb_spec mt "ipnets"); [repeat wp_step; auto|].
  destruct (String.eqb_spec mt "seft"); [repeat wp_step; auto|].
  destruct (String.eqb_spec mt "transformer"); [repeat wp_step; auto|].
  destruct (String.eqb_spec mt "mamba"); [repeat wp_step; auto|].
  wp_step. split; [done|]. rewrite !not_elem_of_cons. split_and!; try done.
  apply not_elem_of_nil.
Qed.

(** ** The start of [train] *)

Lemma progress_start tdl vdl out epochs dev mt crit w0 n :
  train_progress tdl vdl out epochs dev mt crit w0
    (set_files (<[log_path out := csv_header]> (files w0))
       (mkWorld (files w0) (trace w0) n (grad_enabled w0)
                (cuda_available w0) (mps_available w0) (dirs w0))) [].
Proof.
  unfold train_progress, same_switches. simpl. split_and!; try done.
  - by rewrite app_nil_r.
  - lia.
  - by rewrite lookup_insert_eq.
  - intros p Hp _ _. by rewrite lookup_insert_ne.
  - intros _. split; [|done]. by rewrite lookup_insert_ne by apply log_checkpoint_paths.
Qed.

(** ** The calls of [train], epoch by epoch *)

Lemma inputs_of_app (a b : list Event) : inputs_of (a ++ b) = inputs_of a ++ inputs_of b.
Proof. unfold inputs_of. by rewrite forward_calls_app, map_app. Qed.

Lemma inputs_of_pass mt dev (m : model) g bs :
  inputs_of (pass_events mt dev m g bs) = map (place mt dev) bs.
Proof. induction bs as [|b bs IH]; [done|]. unfold inputs_of in *. simpl. by rewrite IH. Qed.

Lemma completed_pass mt dev (m : model) g bs : completed (pass_events mt dev m g bs) = [].
Proof. induction bs as [|b bs IH]; [done|]. simpl. exact IH. Qed.

Lemma pass_forwards mt dev (m : model) g bs :
  Forall (fun e => is_forward e = true) (pass_events mt dev m g bs).
Proof. unfold pass_events. apply Forall_map, Forall_forall. done. Qed.

Lemma inputs_of_submission crit r : inputs_of (submission crit r) = [].
Proof. unfold submission. by destruct (criterion_value crit r). Qed.

Lemma forwards_quiet evs :
  Forall (fun e => is_forward e = true) evs -> submitted evs = [] /\ completed evs = [].
Proof.
  induction 1 as [|e evs He _ [IH1 IH2]]; [done|].
  destruct e; try discriminate He. done.
Qed.

Lemma training_calls_steps mt dev g steps bs losses :
  Forall3 (training_call mt dev g) steps bs losses ->
  Forall (fun e => is_forward e = true) steps /\ inputs_of steps = map (place mt dev) bs.
Proof.
  induction 1 as [|e b loss steps bs losses (m & -> & _) _ [IH1 IH2]]; [done|].
  split; [by constructor|]. unfold inputs_of in *. simpl. by rewrite IH2.
Qed.

(** The optimisation loop makes one step per batch, in order; if it
    raises, it has called the model on a prefix of the batches. *)
Lemma train_loop_calls mt dev bs (m : model) opt ll w :
  m_training m = true -> m_device m = Some dev ->
  wp (for_each (train_batch mt dev) bs (m, opt, ll))
     (fun st w' =>
        exists steps losses,
          w' = add_events steps w /\
          Forall3 (training_call mt dev (grad_enabled w)) steps bs losses /\
          st.2 = ll ++ losses /\
          m_ctor st.1.1 = m_ctor m /\ m_training st.1.1 = true /\ m_device st.1.1 = Some dev)
     (fun _ w' =>
        exists steps j,
          w' = add_events steps w /\
          Forall (fun e => is_forward e = true) steps /\
          inputs_of steps = map (place mt dev) (take j bs))
     w.
Proof.
  revert m opt ll w. induction bs as [|b bs IH]; intros m opt ll w Htr Hdev; simpl.
  - apply wp_ret. exists [], []. rewrite add_events_nil, app_nil_r.
    split_and!; try done. constructor.
  - apply wp_bind. unfold train_batch at 1.
    wp_step. apply wp_call_model. cbv zeta.
    destruct (forward m (place mt dev b)) as [out|e] eqn:Hfwd.
    2:{ exists [EvForward m (grad_enabled w) (place mt dev b)], 1%nat.
        split_and!; [done | by repeat constructor | done]. }
    assert (Hfail : exists steps j,
              add_events [EvForward m (grad_enabled w) (place mt dev b)] w = add_events steps w /\
              Forall (fun e => is_forward e = true) steps /\
              inputs_of steps = map (place mt dev) (take j (b :: bs))).
    { exists [EvForward m (grad_enabled w) (place mt dev b)], 1%nat.
      split_and!; [done | by repeat constructor | done]. }
    destruct out as [p|p aux]; cbv beta iota zeta.
    all: apply wp_bind, wp_lift; destruct (cross_entropy _ _) as [ce|e] eqn:Hce; [|exact Hfail].
    all: destruct (adam_step _ _ _) as [opt' p'] eqn:Hadam; cbv beta iota zeta.
    all: apply wp_ret.
    all: eapply wp_mono; [apply IH; done | |]; simpl.
    all: try (intros _ w' (steps & j & -> & Hfw & Hin);
              exists (EvForward m (grad_enabled w) (place mt dev b) :: steps), (S j);
              split_and!; [apply add_events_cons | by constructor |];
              unfold inputs_of in *; simpl; by rewrite Hin).
    all: intros st w' (steps & losses & -> & H3 & Hst & Hc & Ht & Hd).
    all: eexists (EvForward m (grad_enabled w) (place mt dev b) :: steps), (_ :: losses).
    all: split_and!; try done; [apply add_events_cons | | by rewrite Hst, <- app_assoc].
    all: constructor; [|done].
    all: exists m; split_and!; try done.
    all: unfold batch_loss; by rewrite Hfwd, Hce.
Qed.

Lemma prefix_take_app {A B} (f : A -> B) j (l : list A) (k : list B) :
  map f (take j l) `prefix_of` map f l ++ k.
Proof. exists (map f (drop j l) ++ k). by rewrite app_assoc, <- map_app, take_drop. Qed.

Lemma prefix_app_take {A B} (f : A -> B) j (l k : list A) :
  (map f l ++ map f (take j k)) `prefix_of` (map f l ++ map f k).
Proof. apply prefix_app. exists (map f (drop j k)). by rewrite <- map_app, take_drop. Qed.

(** One pass through the body of the epoch loop, call by call. *)
Lemma epoch_body_run tdl vdl out dev mt crit seed epoch v w :
  can_open (log_path out) w = true ->
  can_open (es_path (v_early_stopping v)) w = true ->
  rng w = (seed + 1 + 2 * epoch)%nat ->
  wp (epoch_body tdl vdl out dev mt crit epoch v)
     (fun r w' =>
        exists rec part,
          trace w' = trace w ++ part /\
          epoch_calls tdl vdl mt dev seed (grad_enabled w) rec (submission crit rec) part /\
          r_epoch rec = (epoch + 1)%nat /\
          rng w' = S (S (rng w)) /\
          dirs w' = dirs w /\ grad_enabled w' = grad_enabled w /\
          es_path (v_early_stopping r.2) = es_path (v_early_stopping v) /\
          v_val_loss r.2 = Some (r_val_loss rec) /\
          m_ctor (v_model r.2) = m_ctor (v_model v) /\
          m_training (v_model r.2) = false /\
          m_device (v_model r.2) = Some dev)
     (fun _ w' =>
        exists tail,
          trace w' = trace w ++ tail /\
          Forall (fun e => is_forward e = true) tail /\
          inputs_of tail `prefix_of` epoch_inputs tdl vdl mt dev seed epoch /\
          (S (rng w) <= rng w' <= S (S (rng w)))%nat /\
          dirs w' = dirs w /\ grad_enabled w' = grad_enabled w)
     w.
Proof.
  intros Hlog Hck Hrng. unfold epoch_body. wp_step. wp_step. wp_step.
  assert (Hseed : (seed + 2 + 2 * epoch)%nat = S (rng w)) by lia.
  eapply wp_mono; [apply train_loop_calls; done | |]; simpl.
  2:{ intros _ w' (steps & j & -> & Hfw & Hin). exists steps. simpl.
      split_and!; try done; [|lia].
      rewrite Hin. unfold epoch_inputs. rewrite <- Hrng. apply prefix_take_app. }
  intros [[m1 opt1] ll1] w1 (steps & losses & -> & H3 & Hll & Hc1 & Ht1 & Hd1).
  cbn [fst snd app] in *. subst ll1.
  destruct (training_calls_steps _ _ _ _ _ _ H3) as [Hfw Hin].
  set (m := model_to dev (set_training false m1)).
  wp_step. eapply wp_mono; [apply validate_spec | |]; simpl.
  2:{ intros _ w' ([j Ht] & Hfiles & Hrng' & Hg & Hc & Hm & Hd).
      cbn [rng trace grad_enabled dirs add_events] in *.
      exists (steps ++ pass_events mt dev m false (take j (load_batches vdl (S (rng w))))).
      split_and!; try done.
      - by rewrite Ht, app_assoc.
      - apply Forall_app. split; [done | apply pass_forwards].
      - rewrite inputs_of_app, inputs_of_pass, Hin. unfold epoch_inputs.
        rewrite <- Hrng, Hseed. apply prefix_app_take.
      - lia.
      - lia. }
  intros [[vl auc] aupr] w2 (Ht2 & Hfiles2 & Hrng2 & (Hg2 & Hc2 & Hm2 & Hd2) & Hscores).
  cbn [fst snd rng trace grad_enabled dirs files add_events] in *.
  wp_step. apply wp_append_file.
  replace (can_open (log_path out) w2) with true by open_ok.
  wp_step.
  eapply wp_mono;
    [apply (submit_criterion_spec crit auc aupr vl _ _ _ (epoch + 1)%nat (np_mean losses) false);
     open_ok
    | | done]; simpl.
  intros es' w3 (Ht3 & Hpath & Hfiles3 & Hnone & Hrng3 & Hg3 & Hc3 & Hm3 & Hd3).
  cbn [fst snd rng trace grad_enabled dirs files add_events set_files] in *.
  wp_step. wp_step.
  set (r := mkEpochRecord (epoch + 1)%nat (np_mean losses) vl auc aupr (early_stop es')).
  assert (Hsub : submission crit (mkEpochRecord (epoch + 1)%nat (np_mean losses) vl auc aupr
                                    false) = submission crit r).
  { unfold submission. by rewrite (criterion_value_scores _ _ _ _ _ _ _ (epoch + 1)%nat
                                     (np_mean losses) (early_stop es')). }
  assert (Hgoal :
            exists rec part,
              trace w3 ++ [done_event r] = trace w ++ part /\
              epoch_calls tdl vdl mt dev seed (grad_enabled w) rec (submission crit rec) part /\
              r_epoch rec = (epoch + 1)%nat /\
              rng w3 = S (S (rng w)) /\
              dirs w3 = dirs w /\ grad_enabled w3 = grad_enabled w /\
              es_path es' = es_path (v_early_stopping v) /\
              Some vl = Some (r_val_loss rec) /\
              m_ctor m = m_ctor (v_model v) /\
              m_training m = false /\
              m_device m = Some dev).
  { exists r, (steps ++ pass_events mt dev m false (load_batches vdl (S (rng w)))
               ++ submission crit r ++ [done_event r]).
    split_and!; try done; try congruence.
    - rewrite Ht3, Hsub, Ht2. simpl. by rewrite <- !app_assoc.
    - unfold epoch_calls. exists steps, losses, m. subst r.
      cbn [r_epoch r_train_loss r_val_loss r_auc r_aupr].
      replace (seed + 2 * (epoch + 1) - 1)%nat with (rng w) by lia.
      replace (seed + 2 * (epoch + 1))%nat with (S (rng w)) by lia.
      split_and!; done. }
  destruct (early_stop es') eqn:Hstop; wp_step; exact Hgoal.
Qed.

Lemma inputs_of_done r : inputs_of [done_event r] = [].
Proof. by destruct r. Qed.

(** What the calls of a completed epoch amount to. *)
Lemma epoch_calls_facts tdl vdl mt dev seed g r crit part :
  epoch_calls tdl vdl mt dev seed g r (submission crit r) part ->
  completed part = [r] /\
  submitted part = omap (criterion_value crit) [r] /\
  ((1 <= r_epoch r)%nat -> inputs_of part = epoch_inputs tdl vdl mt dev seed (r_epoch r - 1)).
Proof.
  intros (steps & losses & m & -> & H3 & _).
  destruct (training_calls_steps _ _ _ _ _ _ H3) as [Hfw Hin].
  destruct (forwards_quiet _ Hfw) as [Hs Hc].
  destruct (forwards_quiet _ (pass_forwards mt dev m false
                                (load_batches vdl (seed + 2 * r_epoch r)))) as [Hs' Hc'].
  split_and!.
  - by rewrite !completed_app, Hc, Hc', submission_completed, done_event_completed.
  - rewrite !submitted_app, Hs, Hs', submission_submitted, done_event_submitted.
    simpl. by rewrite app_nil_r.
  - intros Hr. rewrite !inputs_of_app, Hin, inputs_of_pass, inputs_of_submission, inputs_of_done.
    unfold epoch_inputs. rewrite !app_nil_r.
    replace (seed + 1 + 2 * (r_epoch r - 1))%nat with (seed + 2 * r_epoch r - 1)%nat by lia.
    replace (seed + 2 + 2 * (r_epoch r - 1))%nat with (seed + 2 * r_epoch r)%nat by lia.
    done.
Qed.

(** One more completed epoch. *)
Lemma train_calls_step tdl vdl mt dev crit seed g evs parts rec part :
  train_calls tdl vdl mt dev crit seed g evs parts [] ->
  epoch_calls tdl vdl mt dev seed g rec (submission crit rec) part ->
  r_epoch rec = S (length (completed evs)) ->
  train_calls tdl vdl mt dev crit seed g (evs ++ part) (parts ++ [part]) [] /\
  completed (evs ++ part) = completed evs ++ [rec] /\
  inputs_of (evs ++ part) =
    inputs_of evs ++ epoch_inputs tdl vdl mt dev seed (length (completed evs)).
Proof.
  intros (Hevs & Hparts & Hseq & _ & _) Hpart Hre.
  destruct (epoch_calls_facts _ _ _ _ _ _ _ _ _ Hpart) as (Hc & _ & Hin).
  assert (Hcomp : completed (evs ++ part) = completed evs ++ [rec])
    by (by rewrite completed_app, Hc).
  split_and!; [split_and! | done |].
  - rewrite concat_app, !app_nil_r in *. simpl. by rewrite app_nil_r, <- Hevs.
  - rewrite Hcomp. apply Forall2_app; [done|]. by repeat constructor.
  - rewrite Hcomp, map_app, length_app, seq_app, Hseq. simpl. by rewrite Hre.
  - constructor.
  - apply prefix_nil.
  - rewrite inputs_of_app, Hin by lia. do 2 f_equal. lia.
Qed.

(** An epoch that did not complete. *)
Lemma train_calls_tail tdl vdl mt dev crit seed g evs parts tail :
  train_calls tdl vdl mt dev crit seed g evs parts [] ->
  Forall (fun e => is_forward e = true) tail ->
  inputs_of tail `prefix_of` epoch_inputs tdl vdl mt dev seed (length (completed evs)) ->
  train_calls tdl vdl mt dev crit seed g (evs ++ tail) parts tail /\
  completed (evs ++ tail) = completed evs.
Proof.
  intros (Hevs & Hparts & Hseq & _ & _) Hfw Hpre.
  destruct (forwards_quiet _ Hfw) as [_ Hc].
  assert (Hcomp : completed (evs ++ tail) = completed evs)
    by (by rewrite completed_app, Hc, app_nil_r).
  split; [|done]. unfold train_calls. rewrite Hcomp. split_and!; try done.
  rewrite app_nil_r in Hevs. by rewrite <- Hevs.
Qed.

Lemma train_calls_nil tdl vdl mt dev crit seed g :
  train_calls tdl vdl mt dev crit seed g [] [] [].
Proof. split_and!; try done; try constructor; apply prefix_nil. Qed.

Lemma wp_eqn {A} (m : Py A) Q E w :
  (forall r w', m w = (r, w') ->
                match r with Ok a => Q a w' | Raise e => E e w' end) ->
  wp m Q E w.
Proof.
  intros H. unfold wp. destruct (m w) as [[a|e] w'] eqn:Hm; by apply (H _ _ eq_refl).
Qed.

Lemma probe_shapes_ok (bs : list batch) w :
  wp (probe_shapes bs)
     (fun dims w' =>
        w' = w /\
        exists b rest,
          bs = b :: rest /\
          shape (b_data b) !! 2%nat = Some dims.1.1 /\
          shape (b_data b) !! 1%nat = Some dims.1.2 /\
          shape (b_static b) !! 1%nat = Some dims.2)
     (fun _ w' => w' = w) w.
Proof.
  unfold probe_shapes, shape_at. destruct bs as [|b rest]; [done|].
  destruct (shape (b_data b) !! 2%nat) as [T|] eqn:H2; [|repeat wp_step; done].
  destruct (shape (b_data b) !! 1%nat) as [F|] eqn:H1; [|repeat wp_step; done].
  destruct (shape (b_static b) !! 1%nat) as [S|] eqn:H0; [|repeat wp_step; done].
  repeat wp_step. split; [done|]. by exists b, rest.
Qed.

Lemma wp_and {A} (m : Py A) Q1 E1 Q2 E2 w :
  wp m Q1 E1 w -> wp m Q2 E2 w ->
  wp m (fun a w' => Q1 a w' /\ Q2 a w') (fun e w' => E1 e w' /\ E2 e w') w.
Proof. unfold wp. by destruct (m w) as [[a|e] w']. Qed.



Lemma train_calls_inputs tdl vdl mt dev crit seed g evs parts tail :
  train_calls tdl vdl mt dev crit seed g evs parts tail ->
  inputs_of evs =
    flat_map (epoch_inputs tdl vdl mt dev seed) (seq 0 (length (completed evs)))
    ++ inputs_of tail.
Proof.
  intros (Hevs & Hparts & Hseq & _ & _).
  rewrite Hevs at 1. rewrite inputs_of_app. f_equal.
  revert Hparts Hseq. generalize (completed evs) as recs. clear Hevs.
  intros recs Hparts. generalize 0%nat as s.
  induction Hparts as [|r part recs parts Hpart _ IH]; intros s Hseq; [done|].
  cbn [map length seq] in Hseq. injection Hseq as Hr Hseq.
  destruct (epoch_calls_facts _ _ _ _ _ _ _ _ _ Hpart) as (_ & _ & Hin).
  cbn [concat length seq flat_map]. rewrite inputs_of_app, Hin by lia.
  rewrite (IH (S s)) by done. do 2 f_equal. lia.
Qed.

(** ** The whole of [train] *)

(** Everything about a run of [train]: the files ([train_progress]) and
    the calls ([train_calls]), whether it returns or raises.  A run that
    raises either did so before it created the log, or has drawn the first
    training pass (unless the epoch budget is empty). *)
Lemma train_full_spec tdl vdl out epochs patience dev mt lr crit margs w0 :
  wp (train tdl vdl out epochs patience dev mt lr crit margs)
     (fun r w' =>
        exists evs parts rec m0 text fig,
          train_progress tdl vdl out epochs dev mt crit w0 w' evs /\
          train_calls tdl vdl mt dev crit (rng w0) (grad_enabled w0) evs parts [] /\
          last (completed evs) = Some rec /\
          r.1 = r_val_loss rec /\
          (length (completed evs) = Z.to_nat epochs \/ r_stop rec = true) /\
          rng w' = (rng w0 + 1 + 2 * length (completed evs))%nat /\
          built_from_probe tdl mt dev margs (rng w0) m0 /\
          m_ctor r.2 = m_ctor m0 /\ m_training r.2 = false /\ m_device r.2 = Some dev /\
          files w' !! log_path out = Some text /\
          plot_training_curves text = Ok fig /\
          files w' !! curves_path out = Some fig)
     (fun _ w' =>
        (train_not_started w0 w' /\ rng w' = S (rng w0)) \/
        exists evs parts tail,
          train_progress tdl vdl out epochs dev mt crit w0 w' evs /\
          train_calls tdl vdl mt dev crit (rng w0) (grad_enabled w0) evs parts tail /\
          (rng w0 + 1 + 2 * length (completed evs) <= rng w'
           <= rng w0 + 3 + 2 * length (completed evs))%nat /\
          (Z.to_nat epochs = 0%nat \/ (rng w0 + 2 <= rng w')%nat))
     w0.
Proof.
  set (seed := rng w0).
  set (n := Z.to_nat epochs).
  set (started := fun (w : World) (evs : list Event) (parts : list (list Event))
                      (tail : list Event) =>
                    train_progress tdl vdl out epochs dev mt crit w0 w evs /\
                    train_calls tdl vdl mt dev crit seed (grad_enabled w0) evs parts tail /\
                    (seed + 1 + 2 * length (completed evs) <= rng w
                     <= seed + 3 + 2 * length (completed evs))%nat /\
                    (n = 0%nat \/ (seed + 2 <= rng w)%nat)).
  assert (Hns : forall (e : Exn),
            (train_not_started w0 (mkWorld (files w0) (trace w0) (S seed) (grad_enabled w0)
                                     (cuda_available w0) (mps_available w0) (dirs w0)) /\
             rng (mkWorld (files w0) (trace w0) (S seed) (grad_enabled w0)
                    (cuda_available w0) (mps_available w0) (dirs w0)) = S seed) \/
            exists evs parts tail,
              started (mkWorld (files w0) (trace w0) (S seed) (grad_enabled w0)
                         (cuda_available w0) (mps_available w0) (dirs w0)) evs parts tail).
  { intros e. left. by unfold train_not_started, same_switches. }
  unfold train. wp_step. wp_step. wp_step.
  eapply wp_mono; [apply probe_shapes_ok | | intros e w' ->; apply (Hns e)]. cbv beta.
  intros [[T F] St] w1 [-> (b & rest & Hbs & H2 & H1 & H0)]. cbn [fst snd] in *.
  wp_step. apply wp_eqn. intros bound w1 Hmk. fold seed in Hmk.
  pose proof (make_model_spec mt dev margs T F St
                (mkWorld (files w0) (trace w0) (S seed) (grad_enabled w0)
                         (cuda_available w0) (mps_available w0) (dirs w0))) as Hms.
  unfold wp in Hms. rewrite Hmk in Hms.
  destruct bound as [bound|e]; [|subst w1; apply (Hns e)]. destruct Hms as [-> _].
  wp_step. apply wp_local. destruct bound as [m0|]; [|apply (Hns StopIteration)].
  assert (Hbuilt : built_from_probe tdl mt dev margs seed m0).
  { exists b, rest, T, F, St. eexists. split_and!; [done.. | exact Hmk]. }
  wp_step. wp_step; [|apply (Hns StopIteration)].
  wp_step. apply wp_write_file.
  destruct (can_open (log_path out) _) eqn:Hdir; [|apply (Hns StopIteration)].
  assert (Hdirs : forall w, dirs w = dirs w0 -> can_open (log_path out) w = true).
  { intros w Hw. rewrite <- Hdir. by apply can_open_dirs. }
  wp_step.
  set (w1 := set_files _ _).
  pose proof (progress_start tdl vdl out epochs dev mt crit w0 (S seed)) as Hstart.
  fold w1 in Hstart.
  apply wp_mono with
    (Q := fun v w =>
            exists evs parts,
              train_progress tdl vdl out epochs dev mt crit w0 w evs /\
              train_calls tdl vdl mt dev crit seed (grad_enabled w0) evs parts [] /\
              v_val_loss v = r_val_loss <$> last (completed evs) /\
              (length (completed evs) = n \/
               exists rec, last (completed evs) = Some rec /\ r_stop rec = true) /\
              rng w = (seed + 1 + 2 * length (completed evs))%nat /\
              m_ctor (v_model v) = m_ctor m0 /\
              (v_val_loss v <> None ->
               m_training (v_model v) = false /\ m_device (v_model v) = Some dev))
    (E := fun _ w =>
            (train_not_started w0 w /\ rng w = S seed) \/
            exists evs parts tail, started w evs parts tail);
    [apply wp_for_each_break with
       (I := fun l v w =>
               exists evs parts,
                 train_progress tdl vdl out epochs dev mt crit w0 w evs /\
                 train_calls tdl vdl mt dev crit seed (grad_enabled w0) evs parts [] /\
                 v_val_loss v = r_val_loss <$> last (completed evs) /\
                 rng w = (seed + 1 + 2 * length (completed evs))%nat /\
                 m_ctor (v_model v) = m_ctor m0 /\
                 (v_val_loss v <> None ->
                  m_training (v_model v) = false /\ m_device (v_model v) = Some dev) /\
                 Forall (fun r => r_stop r = false) (completed evs) /\
                 l = seq (length (completed evs)) (n - length (completed evs)) /\
                 es_path (v_early_stopping v) = checkpoint_path out /\
                 early_stop (v_early_stopping v) = false)
    | | auto].
  - exists [], []. cbn [completed omap list_omap length last fmap option_fmap option_map
                         v_val_loss v_model v_early_stopping es_path early_stop
                         EarlyStopping_new].
    split_and!; try done.
    + apply train_calls_nil.
    + unfold w1. cbn [rng set_files]. lia.
    + unfold py_range. fold n. f_equal. lia.
  - intros epoch l' v w (evs & parts & Hprog & Hcalls & Hvl & Hr & Hc & Hm & Hstops & Hl &
                         Hpath & Hflag).
    assert (Hk : epoch = length (completed evs) /\
                 (length (completed evs) < n)%nat /\
                 l' = seq (S (length (completed evs))) (n - S (length (completed evs)))).
    { destruct (n - length (completed evs))%nat as [|d] eqn:Hd; [done|].
      simpl in Hl. inversion Hl. split_and!; [done | lia | f_equal; lia]. }
    destruct Hk as (Hepoch & Hlt & Hl'). rewrite <- Hepoch in Hlt at 1.
    assert (Hd : dirs w = dirs w0) by apply Hprog.
    assert (Hg : grad_enabled w = grad_enabled w0) by apply Hprog.
    assert (Htw : trace w = trace w0 ++ evs) by apply Hprog.
    eapply wp_mono;
      [apply wp_and;
       [apply epoch_body_spec;
        [by apply Hdirs | rewrite Hpath, can_open_checkpoint; by apply Hdirs]
       |apply (epoch_body_run tdl vdl out dev mt crit seed epoch);
        [by apply Hdirs | rewrite Hpath, can_open_checkpoint; by apply Hdirs
         | by rewrite Hepoch]]
      | |]; cbv beta.
    + intros [ctl v'] w2
             [Hout (rec & part & Ht2 & Hpart & Hre & Hr2 & Hd2 & Hg2 & Hpath2 & Hvl2 & Hc2 &
                    Htr2 & Hdev2)].
      cbn [fst snd] in *.
      destruct (progress_step _ _ _ _ _ _ _ _ _ _ _ _ _ _ _
                  Hprog Hstops Hepoch Hlt Hpath Hflag Hout)
        as (evs' & r & Hprog' & Hcomp & Hrs & Hvl' & Hpath' & Hctl).
      rewrite Hg in Hpart.
      destruct (train_calls_step _ _ _ _ _ _ _ _ _ _ _ Hcalls Hpart) as (Hcalls' & Hcomp2 & _);
        [lia|].
      assert (evs' = evs ++ part) as ->.
      { destruct Hprog' as (Ht' & _). rewrite Ht2, Htw, <- app_assoc in Ht'.
        by apply app_inv_head in Ht'. }
      assert (rec = r) as ->.
      { rewrite Hcomp2 in Hcomp. by apply app_inj_tail in Hcomp as [_ ?]. }
      destruct (early_stop (v_early_stopping v')) eqn:Hes; subst ctl.
      * exists (evs ++ part), (parts ++ [part]).
        rewrite Hcomp2, last_snoc, length_app. cbn [length].
        split_and!; try done; try congruence; [right; by exists r | lia].
      * exists (evs ++ part), (parts ++ [part]).
        rewrite Hcomp2, last_snoc, length_app. cbn [length].
        split_and!; try done; try congruence.
        -- lia.
        -- apply Forall_app. split; [done|]. by repeat constructor.
        -- rewrite Hl'. f_equal; lia.
    + intros _ w2 [Hext (tail & Ht2 & Hfw & Hpre & Hr2 & Hd2 & Hg2)]. right.
      destruct (progress_extends _ _ _ _ _ _ _ _ _ _ _ Hprog Hext) as (evs' & Hp' & Hcomp').
      assert (evs' = evs ++ tail) as ->.
      { destruct Hp' as (Ht' & _). rewrite Ht2, Htw, <- app_assoc in Ht'.
        by apply app_inv_head in Ht'. }
      rewrite Hepoch in Hpre.
      destruct (train_calls_tail _ _ _ _ _ _ _ _ _ tail Hcalls Hfw Hpre) as [Hcalls' _].
      exists (evs ++ tail), parts, tail. unfold started. rewrite Hcomp'.
      split_and!; try done; lia.
  - intros v w (evs & parts & Hprog & Hcalls & Hvl & Hr & Hc & Hm & Hstops & Hl & Hpath &
                Hflag).
    exists evs, parts. split_and!; try done. left.
    destruct (n - length (completed evs))%nat eqn:Hd; [|done].
    destruct Hprog as (_ & _ & _ & _ & Hlen & _). fold n in Hlen. lia.
  - intros v w (evs & parts & Hprog & Hcalls & Hvl & Hend & Hr & Hc & Hm).
    assert (Hd : dirs w = dirs w0) by apply Hprog.
    assert (Hpin : n = 0%nat \/ (seed + 2 <= rng w)%nat).
    { destruct Hend as [Hn | (rec & Hlast & _)].
      - destruct n; [by left | right; lia].
      - right. destruct (completed evs); [done | simpl in Hr; lia]. }
    assert (Hfail : forall fig,
              (train_not_started w0 (set_files (<[curves_path out := fig]> (files w)) w) /\
               rng (set_files (<[curves_path out := fig]> (files w)) w) = S seed) \/
              exists evs parts tail,
                started (set_files (<[curves_path out := fig]> (files w)) w) evs parts tail).
    { intros fig. right. exists evs, parts, []. unfold started. cbn [rng set_files].
      split_and!; try done; try lia. by apply progress_curves. }
    assert (Hfail' : (train_not_started w0 w /\ rng w = S seed) \/
                     exists evs parts tail, started w evs parts tail).
    { right. exists evs, parts, []. unfold started. split_and!; try done; lia. }
    wp_step. wp_step; [|exact Hfail'].
    wp_step. wp_step; [|exact Hfail'].
    wp_step. apply wp_write_file. rewrite can_open_curves, Hdirs by done.
    pose proof (progress_curves _ _ _ _ _ _ _ _ _ _ a0 Hprog) as Hprog'.
    wp_step. apply wp_local. destruct (v_val_loss v) as [vl|] eqn:Hvv; [|apply Hfail].
    wp_step.
    destruct (last (completed evs)) as [rec|] eqn:Hlast; [|done].
    simpl in Hvl. inversion Hvl; subst.
    destruct Hm as [Hm2 Hm3]; [done|].
    exists evs, parts, rec, m0, s, a0. cbn [fst snd rng files set_files].
    split_and!; try done.
    + destruct Hend as [Hn | (rec' & Hr' & Hs')]; [by left | right; congruence].
    + by rewrite lookup_insert_ne by (apply not_eq_sym, log_curves_paths).
    + by rewrite lookup_insert_eq.
Qed.

(** What a run of [train] does to the files. *)
Lemma train_spec tdl vdl out epochs patience dev mt lr crit margs w0 :
  wp (train tdl vdl out epochs patience dev mt lr crit margs)
     (fun r w' =>
        exists evs rec,
          train_progress tdl vdl out epochs dev mt crit w0 w' evs /\
          last (completed evs) = Some rec /\
          r.1 = r_val_loss rec /\
          (length (completed evs) = Z.to_nat epochs \/ r_stop rec = true))
     (fun _ w' =>
        train_not_started w0 w' \/
        exists evs, train_progress tdl vdl out epochs dev mt crit w0 w' evs)
     w0.
Proof.
  eapply wp_mono; [apply train_full_spec | |]; cbv beta.
  - intros r w' (evs & parts & rec & m0 & text & fig & Hp & _ & Hlast & Hvl & Hend & _).
    by exists evs, rec.
  - intros e w' [[Hns _] | (evs & parts & tail & Hp & _)]; [by left | right; by exists evs].
Qed.

(** The calls of a whole run of [train], epoch by epoch, whether it
    returns or raises. *)
Lemma train_run_spec tdl vdl out epochs patience dev mt lr crit margs w0 :
  wp (train tdl vdl out epochs patience dev mt lr crit margs)
     (fun r w' =>
        exists evs parts m0 text fig,
          trace w' = trace w0 ++ evs /\
          train_calls tdl vdl mt dev crit (rng w0) (grad_enabled w0) evs parts [] /\
          completed evs <> [] /\
          rng w' = (rng w0 + 1 + 2 * length (completed evs))%nat /\
          inputs_of evs = flat_map (epoch_inputs tdl vdl mt dev (rng w0))
                                   (seq 0 (length (completed evs))) /\
          built_from_probe tdl mt dev margs (rng w0) m0 /\
          m_ctor r.2 = m_ctor m0 /\ m_training r.2 = false /\ m_device r.2 = Some dev /\
          files w' !! log_path out = Some text /\
          plot_training_curves text = Ok fig /\
          files w' !! curves_path out = Some fig)
     (fun _ w' =>
        exists evs parts tail,
          trace w' = trace w0 ++ evs /\
          train_calls tdl vdl mt dev crit (rng w0) (grad_enabled w0) evs parts tail /\
          (rng w0 + 1 + 2 * length (completed evs) <= rng w'
           <= rng w0 + 3 + 2 * length (completed evs))%nat /\
          (train_not_started w0 w' \/ Z.to_nat epochs = 0%nat \/ (rng w0 + 2 <= rng w')%nat))
     w0.
Proof.
  eapply wp_mono; [apply train_full_spec | |]; cbv beta.
  - intros r w' (evs & parts & rec & m0 & text & fig & Hp & Hcalls & Hlast & _ & _ & Hr &
                 Hb & Hc & Ht & Hd & Hlog & Hplot & Hfig).
    exists evs, parts, m0, text, fig. split_and!; try done.
    + apply Hp.
    + intros Hnil. by rewrite Hnil in Hlast.
    + by rewrite (train_calls_inputs _ _ _ _ _ _ _ _ _ _ Hcalls), app_nil_r.
  - intros e w' [[Hns Hr] | (evs & parts & tail & Hp & Hcalls & Hr & Hpin)].
    + exists [], [], []. rewrite app_nil_r. split_and!.
      * apply Hns.
      * apply train_calls_nil.
      * simpl. lia.
      * simpl. lia.
      * by left.
    + exists evs, parts, tail. split; [apply Hp|]. split; [done|]. split; [done|]. by right.
Qed.

(** ** The whole of [test] *)

Lemma pass_events_test tdl out mt dev (m : model) n bs :
  m_training m = false -> m_device m = Some dev ->
  (forall b, b ∈ bs -> b ∈ load_batches tdl n) ->
  Forall (test_event tdl out mt dev) (pass_events mt dev m false bs).
Proof.
  intros Htr Hdev Hbs. unfold pass_events. apply Forall_map.
  apply Forall_forall. intros b Hb. simpl. split_and!; try done.
  exists n, b. split; [by apply Hbs | done].
Qed.

Lemma test_spec tdl out dev mt (m : model) w0 :
  wp (test tdl out dev mt m)
     (fun r w' => test_outcome tdl out dev mt m w0 r w')
     (fun _ w' => extends (test_event tdl out mt dev) w0 w')
     w0.
Proof.
  unfold test. wp_step. wp_step. wp_step.
  assert (Hrng : forall n, extends (test_event tdl out mt dev) w0
                   (mkWorld (files w0) (trace w0) n (grad_enabled w0)
                            (cuda_available w0) (mps_available w0) (dirs w0))).
  { intros n. apply extends_rng, extends_refl. }
  eapply wp_mono; [apply probe_shapes_spec | | intros e w' ->; apply Hrng].
  intros _ w1 ->.
  unfold torch_load, load_state_dict.
  assert (Hload : forall n, extends (test_event tdl out mt dev) w0
                   (mkWorld (files w0) (trace w0 ++ [EvTorchLoad (checkpoint_path out)]) n
                            (grad_enabled w0) (cuda_available w0) (mps_available w0) (dirs w0))).
  { intros n. apply (extends_emit _ _ _ (EvTorchLoad (checkpoint_path out)) (Hrng n)).
    done. }
  repeat wp_step; try apply Hload.
  set (m' := model_to dev (set_training false _)).
  eapply wp_mono; [apply eval_loop_spec | |]; simpl.
  2:{ intros _ w' [j ->]. split; simpl; [|done].
      exists (EvTorchLoad (checkpoint_path out)
                :: pass_events mt dev m' false (take j (load_batches tdl (S (rng w0))))).
      split; [by rewrite <- app_assoc|].
      constructor; [done|].
      eapply pass_events_test; try done. intros b Hb. by apply (subseteq_take j). }
  intros [labels logits] w' [-> (outs & Hf & Hl & Hp)]. simpl in Hl, Hp.
  assert (Hfail : extends (test_event tdl out mt dev) w0
            (set_grad (grad_enabled w0)
               (add_events (pass_events mt dev m' false (load_batches tdl (S (rng w0))))
                  (set_grad false
                     (mkWorld (files w0) (trace w0 ++ [EvTorchLoad (checkpoint_path out)])
                              (S (S (rng w0))) (grad_enabled w0) (cuda_available w0)
                              (mps_available w0) (dirs w0)))))).
  { split; simpl; [|done].
    exists (EvTorchLoad (checkpoint_path out)
              :: pass_events mt dev m' false (load_batches tdl (S (rng w0)))).
    split; [by rewrite <- app_assoc|].
    constructor; [done|]. eapply pass_events_test; done. }
  repeat wp_step; try exact Hfail.
  simpl in Hfile.
  unfold test_outcome. do 10 eexists. fold (reloaded dev m p). fold m'.
  unfold same_switches. simpl.
  split_and!; try eassumption; try done.
  by rewrite <- app_assoc.
Qed.




(** ** The whole of [train_test] *)

Lemma select_device_spec w :
  wp select_device
     (fun d w' =>
        d = preferred_device (cuda_available w) (mps_available w) /\
        w' = add_events (query_events (cuda_available w)) w)
     (fun _ _ => False) w.
Proof.
  unfold select_device, cuda_is_available, mps_is_available, wp, bind, emit, ret,
    preferred_device, query_events, add_events.
  destruct w as [fs tr seed g [|] [|]]; simpl; rewrite <- ?app_assoc; done.
Qed.

Lemma train_test_spec train_pair val_data test_data out mt margs batch_size epochs patience
    lr crit w0 :
  let post := fun w' => exists evs, trace w' = trace w0 ++ evs /\
                train_test_calls train_pair val_data test_data out mt batch_size w0 evs in
  wp (train_test train_pair val_data test_data out mt margs batch_size epochs patience lr crit)
     (fun _ w' => post w') (fun _ w' => post w') w0.
Proof.
  intros post. unfold train_test, DataLoader_new.
  fold (train_loader_of train_pair batch_size) (test_loader_of test_data batch_size)
       (val_loader_of val_data batch_size).
  set (tdl := train_loader_of train_pair batch_size).
  set (testdl := test_loader_of test_data batch_size).
  set (vdl := val_loader_of val_data batch_size).
  wp_step. wp_step. wp_step.
  destruct (loader_check tdl) eqn:Hc1.
  { wp_step. eexists. split; [reflexivity|]. left. split; [done | by eexists]. }
  wp_step. wp_step. wp_step. wp_step.
  destruct (loader_check testdl) eqn:Hc2.
  { wp_step. eexists. split; [simpl; by rewrite <- app_assoc|].
    right; left. split; [done | by eexists]. }
  wp_step. wp_step. wp_step. wp_step.
  destruct (loader_check vdl) eqn:Hc3.
  { wp_step. eexists. split; [simpl; by rewrite <- !app_assoc|].
    right; right; left. split; [done | by eexists]. }
  wp_step. wp_step.
  eapply wp_mono; [apply select_device_spec | | done]. simpl.
  intros dev w1 [-> ->].
  set (dev := preferred_device (cuda_available w0) (mps_available w0)).
  set (w1 := add_events _ _).
  assert (Ht1 : trace w1 = trace w0 ++ [EvDataLoader tdl; EvDataLoader testdl; EvDataLoader vdl]
                             ++ query_events (cuda_available w0)).
  { unfold w1. simpl. by rewrite <- !app_assoc. }
  assert (Hpost : forall w' rest,
            trace w' = trace w1 ++ rest ->
            Forall (run_event tdl vdl testdl out mt dev (grad_enabled w0)) rest ->
            post w').
  { intros w' rest Ht Hr. exists (([EvDataLoader tdl; EvDataLoader testdl; EvDataLoader vdl]
                                   ++ query_events (cuda_available w0)) ++ rest).
    split; [by rewrite Ht, Ht1, !app_assoc|].
    right; right; right. exists rest. split; [by rewrite <- app_assoc | done]. }
  assert (Htrain : forall e, train_event tdl vdl mt dev (grad_enabled w0) e ->
                             run_event tdl vdl testdl out mt dev (grad_enabled w0) e)
    by (intros e He; by left).
  assert (Htest : forall e, test_event testdl out mt dev e ->
                            run_event tdl vdl testdl out mt dev (grad_enabled w0) e)
    by (intros e He; by right).
  wp_step. eapply wp_mono; [apply train_spec | |]; simpl.
  - intros [val_loss m] w2 (evs & rec & Hprog & _).
    destruct Hprog as (Ht2 & Hev & _).
    eapply wp_mono; [apply test_spec | |]; simpl.
    + intros [[[loss acc] auprc] auc] w3 Hout.
      destruct Hout as (s & sd & outs & labels & logits & probs & p1 & p2 & pos & rep &
                        _ & _ & Ht3 & _).
      apply (Hpost w3 (evs ++ EvTorchLoad (checkpoint_path out)
                         :: pass_events mt dev (reloaded dev m sd) false
                              (load_batches testdl (S (rng w2))))).
      * by rewrite Ht3, Ht2, <- app_assoc.
      * apply Forall_app. split; [eapply Forall_impl; eauto|].
        constructor; [by right|].
        eapply Forall_impl; [|exact Htest].
        eapply pass_events_test; done.
    + intros _ w3 [[evs3 [Ht3 Hev3]] _].
      apply (Hpost w3 (evs ++ evs3)); [by rewrite Ht3, Ht2, <- app_assoc|].
      apply Forall_app. split; eapply Forall_impl; eauto.
  - intros _ w2 [(Ht2 & _) | (evs & Ht2 & Hev & _)].
    + apply (Hpost w2 []); [by rewrite app_nil_r | constructor].
    + apply (Hpost w2 evs); [done | eapply Forall_impl; eauto].
Qed.

(** ** Text of the training log *)

Lemma string_app_cons x (a b : string) : String x a +:+ b = String x (a +:+ b).
Proof. reflexivity. Qed.

Lemma string_app_assoc (a b c : string) : (a +:+ b) +:+ c = a +:+ (b +:+ c).
Proof.
  induction a as [|x a IH]; [done|]. rewrite !string_app_cons. by f_equal.
Qed.












Lemma wp_post {A} (m : Py A) Q E (P : Res A -> World -> Prop) w :
  wp m Q E w ->
  (forall a w', Q a w' -> P (Ok a) w') ->
  (forall e w', E e w' -> P (Raise e) w') ->
  P (m w).1 (m w).2.
Proof.
  unfold wp. destruct (m w) as [[a|e] w']; simpl; auto.
Qed.

Lemma wp_world {A} (m : Py A) Q E (P : World -> Prop) w :
  wp m Q E w ->
  (forall a w', Q a w' -> P w') ->
  (forall e w', E e w' -> P w') ->
  P (m w).2.
Proof.
  unfold wp. destruct (m w) as [[a|e] w']; simpl; eauto.
Qed.

(** ** Criterion lookup *)

Lemma assoc_unknown crit :
  crit ∉ known_criteria -> assoc crit criterion_table = None.
Proof.
  unfold known_criteria. simpl. rewrite !not_elem_of_cons. intros (H1 & H2 & H3 & H4 & _).
  repeat match goal with
         | |- context [String.eqb crit ?s] => destruct (String.eqb_spec crit s); [done|]
         end.
  done.
Qed.

Lemma omap_criterion_unknown crit rs :
  assoc crit criterion_table = None -> omap (criterion_value crit) rs = [].
Proof.
  intros Hu. induction rs as [|r rs IH]; simpl; [done|].
  by rewrite (unknown_criterion_value _ _ Hu).
Qed.


Lemma submit_criterion_unknown crit auc aupr vl (m : model) es w :
  assoc crit criterion_table = None ->
  submit_criterion crit auc aupr vl m es w = (Ok es, w).
Proof.
  unfold submit_criterion. simpl.
  repeat (destruct (String.eqb crit _); [done|]). done.
Qed.



(** ** Failing before, or instead of, training *)

Lemma probe_shapes_pure (bs : list batch) :
  exists r, forall w, probe_shapes bs w = (r, w).
Proof.
  unfold probe_shapes. destruct bs as [|b bs]; [by exists (Raise StopIteration)|].
  unfold bind, lift, ret.
  destruct (shape_at (b_data b) 2) as [n2|e]; [|by exists (Raise e)].
  destruct (shape_at (b_data b) 1) as [n1|e]; [|by exists (Raise e)].
  destruct (shape_at (b_static b) 1) as [s1|e]; [|by exists (Raise e)].
  by exists (Ok (n2, n1, s1)).
Qed.

Lemma make_model_unknown mt dev margs a b c :
  mt ∉ known_model_types -> make_model mt dev margs a b c = ret None.
Proof.
  unfold known_model_types. rewrite !not_elem_of_cons. intros (H1 & H2 & H3 & H4 & H5 & _).
  unfold make_model.
  repeat match goal with
         | |- context [String.eqb mt ?s] => destruct (String.eqb_spec mt s); [done|]
         end.
  done.
Qed.

(** C3: for a model-type identifier outside [grud], [ipnets], [seft],
    [transformer], [mamba], [train] raises before the first epoch: no model
    call is made, no epoch starts and no file is written (the training log
    is not even created).  When the probe batch could be read, the
    exception is the [UnboundLocalError] for [model], raised by the first
    statement after the constructor dispatch. *)
Theorem unknown_model_type_fails_before_training tdl vdl out epochs patience dev mt lr crit
    margs w0 :
  mt ∉ known_model_types ->
  let run := train tdl vdl out epochs patience dev mt lr crit margs w0 in
  (exists e, run.1 = Raise e /\
             (is_ok (probe_shapes (load_batches tdl (rng w0)) w0).1 = true ->
              e = UnboundLocalError "model")) /\
  trace run.2 = trace w0 /\ files run.2 = files w0.
Proof.
  intros Hmt run. unfold run, train, bind, iter.
  destruct (probe_shapes_pure (load_batches tdl (rng w0))) as [r Hr].
  rewrite !Hr. simpl. destruct r as [[[a b] c]|e]; simpl.
  - rewrite make_model_unknown by done. simpl. split; [|done].
    by exists (UnboundLocalError "model").
  - split; [|done]. exists e. split; [done | discriminate].
Qed.

(** C9: with an early-stop criterion outside [auroc], [auprc],
    [auprc+auroc], [loss], the dispatch at the end of an epoch does nothing
    and raises nothing; a run of [train] then never submits a scalar to the
    controller, never touches the checkpoint file, ends every completed
    epoch with the stop flag clear, and, when it returns, has completed the
    whole epoch budget. *)
Theorem unknown_criterion_is_ignored tdl vdl out epochs patience dev mt lr crit margs w0 :
  crit ∉ known_criteria ->
  (forall auc aupr vl (m : model) es w,
      submit_criterion crit auc aupr vl m es w = (Ok es, w)) /\
  let run := train tdl vdl out epochs patience dev mt lr crit margs w0 in
  exists evs,
    trace run.2 = trace w0 ++ evs /\
    submitted evs = [] /\
    Forall (fun r => r_stop r = false) (completed evs) /\
    files run.2 !! checkpoint_path out = files w0 !! checkpoint_path out /\
    (is_ok run.1 = true -> length (completed evs) = Z.to_nat epochs).
Proof.
  intros Hcrit. apply assoc_unknown in Hcrit.
  split; [intros; by apply submit_criterion_unknown|].
  intros run. unfold run.
  apply (wp_post _ _ _
           (fun r w' => exists evs,
              trace w' = trace w0 ++ evs /\ submitted evs = [] /\
              Forall (fun r => r_stop r = false) (completed evs) /\
              files w' !! checkpoint_path out = files w0 !! checkpoint_path out /\
              (is_ok r = true -> length (completed evs) = Z.to_nat epochs))
           _ (train_spec tdl vdl out epochs patience dev mt lr crit margs w0)).
  - intros r w' (evs & rec & (Ht & _ & Hsub & _ & _ & _ & _ & _ & Hunk & _) & Hlast & _ & Hend).
    destruct (Hunk Hcrit) as [Hck Hst].
    exists evs. split_and!; try done.
    + by rewrite Hsub, omap_criterion_unknown.
    + intros _. destruct Hend as [Hn | Hs]; [done|].
      apply last_Some in Hlast as [l' Hl']. rewrite Hl' in Hst.
      apply Forall_app in Hst as [_ Hst]. inversion Hst; congruence.
  - intros e w' [(Ht & Hf & _) | (evs & Ht & _ & Hsub & _ & _ & _ & _ & _ & Hunk & _)].
    + exists []. rewrite app_nil_r, Hf. split_and!; done.
    + destruct (Hunk Hcrit) as [Hck Hst]. exists evs. split_and!; try done.
      by rewrite Hsub, omap_criterion_unknown.
Qed.

(** C10: with an epoch budget of 0, [train] never returns a
    [(val_loss, model)] pair: the body of the epoch loop is not run (no
    call is made), and the run ends in an exception.  Unless it already
    failed before creating the log, or fails drawing the curves of the
    empty log, that exception is the [UnboundLocalError] for [val_loss]
    raised by the [return] statement. *)
Theorem zero_epochs_never_returns tdl vdl out patience dev mt lr crit margs w0 :
  let run := train tdl vdl out 0 patience dev mt lr crit margs w0 in
  trace run.2 = trace w0 /\
  exists e, run.1 = Raise e /\
            (train_not_started w0 run.2 \/
             plot_training_curves csv_header = Raise e \/
             e = UnboundLocalError "val_loss").
Proof.
  intros run. unfold run.
  apply (wp_post _ (fun _ _ => False)
           (fun e w' => trace w' = trace w0 /\
                        (train_not_started w0 w' \/
                         plot_training_curves csv_header = Raise e \/
                         e = UnboundLocalError "val_loss"))
           (fun r w' => trace w' = trace w0 /\
                        exists e, r = Raise e /\
                                  (train_not_started w0 w' \/
                                   plot_training_curves csv_header = Raise e \/
                                   e = UnboundLocalError "val_loss"))).
  - unfold train. wp_step. wp_step. wp_step.
    eapply wp_mono; [apply probe_shapes_spec | |];
      [|intros e w' ->; split; [done|]; left; by unfold train_not_started, same_switches].
    intros [[a b] c] w1 ->. wp_step.
    eapply wp_mono; [apply make_model_spec | |];
      [|intros e w' ->; split; [done|]; left; by unfold train_not_started, same_switches].
    intros bound w1 [-> _].
    wp_step. wp_step;
      [|split; [done|]; left; by unfold train_not_started, same_switches].
    wp_step. wp_step;
      [|split; [done|]; left; by unfold train_not_started, same_switches].
    wp_step. wp_step;
      [|split; [done|]; left; by unfold train_not_started, same_switches].
    wp_step.
    unfold py_range. simpl. wp_step. wp_step.
    apply wp_read_file. simpl. rewrite lookup_insert_eq.
    wp_step. wp_step; [|split; [done|]; right; by left].
    wp_step. apply wp_write_file.
    replace (can_open (curves_path out) _) with true by (rewrite can_open_curves; open_ok).
    wp_step. simpl. apply wp_raise. split; [done|]. right; by right.
  - intros a w' [].
  - intros e w' [Ht H]. split; [done|]. by exists e.
Qed.

(** ** Validation scores *)

Lemma select_col_two_columns rows d :
  select_col 1 (two_columns rows d) = Ok (mkTensor [length rows] (map snd rows) d).
Proof.
  unfold select_col, two_columns. simpl. do 2 f_equal.
  induction rows as [|[p0 p1] rows IH]; simpl; [done|].
  rewrite drop_0. by rewrite IH.
Qed.

(** C4: a validation pass that returns has accumulated the logits of all
    batches (squeezed, on the host, concatenated in order); the
    probabilities are [softmax] of these logits along dimension 1; AUROC and
    AUPRC are computed on column 1 of the probabilities, which for a
    two-column tensor is the second entry of every row; and the validation
    loss is the criterion applied to the accumulated logits themselves. *)
Theorem validation_scores_from_logits vdl mt dev (m : model) w val_loss auc aupr w' :
  validate vdl mt dev m w = (Ok (val_loss, auc, aupr), w') ->
  (exists outs labels logits probs positive,
     Forall2 (fun b o => forward m (place mt dev b) = Ok o)
             (load_batches vdl (rng w)) outs /\
     cat_all (map b_labels (load_batches vdl (rng w))) = Ok labels /\
     cat_all (map logits_of outs) = Ok logits /\
     softmax logits 1 = Ok probs /\
     select_col 1 probs = Ok positive /\
     roc_auc_score labels positive = Ok auc /\
     average_precision_score labels positive = Ok aupr /\
     cross_entropy (tensor_cpu logits) labels = Ok val_loss) /\
  (forall rows d,
     select_col 1 (two_columns rows d) = Ok (mkTensor [length rows] (map snd rows) d)).
Proof.
  intros Hrun. split; [|apply select_col_two_columns].
  pose proof (validate_spec vdl mt dev m w) as Hspec. cbv zeta in Hspec.
  unfold wp in Hspec. rewrite Hrun in Hspec.
  destruct Hspec as (_ & _ & _ & _ & Hscores). exact Hscores.
Qed.

(** ** Device placement of batches *)

Lemma place_moved mt dev (b : batch) : mt <> "grud" -> place mt dev b = moved dev b.
Proof.
  intros H. unfold place. by destruct (String.eqb_spec mt "grud").
Qed.

Lemma place_unmoved mt dev (b : batch) : mt = "grud" -> place mt dev b = unmoved b.
Proof. intros ->. reflexivity. Qed.







(** ** The test evaluator *)

Lemma headline_lookup loss acc auprc auc :
  headline loss acc auprc auc !! "test_loss" = Some (JNum loss) /\
  headline loss acc auprc auc !! "accuracy" = Some (JNum acc) /\
  headline loss acc auprc auc !! "AUPRC" = Some (JNum auprc) /\
  headline loss acc auprc auc !! "AUROC" = Some (JNum auc).
Proof. unfold headline. split_and!; by simplify_map_eq. Qed.

(** C6: a run of [test] that returns first loaded the checkpoint file and
    put its contents in place of the given model's parameters, then called
    the model exactly once per batch of one pass over the test loader, in
    order, in evaluation mode and with autograd off; the four values it
    returns are the loss on the accumulated logits, the accuracy, AUPRC and
    AUROC, and [test_results.json] holds these four under [test_loss],
    [accuracy], [AUPRC], [AUROC] together with every entry of the
    classification report.  (The report has no entry named [test_loss],
    [AUPRC] or [AUROC], and its [accuracy] entry is the accuracy score.) *)
Theorem test_reloads_checkpoint_and_reports testdl out dev mt (m : model) w0
    loss acc auprc auc w' :
  test testdl out dev mt m w0 = (Ok (loss, acc, auprc, auc), w') ->
  (forall labels pred rep,
      classification_report labels pred = Ok rep ->
      rep !! "test_loss" = None /\ rep !! "AUPRC" = None /\ rep !! "AUROC" = None) ->
  (forall labels probs p1 p2 rep a v,
      torch_argmax probs 1 = Ok p1 -> np_argmax probs 1 = Ok p2 ->
      classification_report labels p1 = Ok rep -> accuracy_score labels p2 = Ok a ->
      rep !! "accuracy" = Some v -> v = JNum a) ->
  exists s sd outs labels logits probs positive predicted predicted' rep doc,
    (* the checkpoint is loaded into the model *)
    files w0 !! checkpoint_path out = Some s /\
    torch_unpickle s = Some sd /\
    m_weights (reloaded dev m sd) = sd /\
    m_training (reloaded dev m sd) = false /\
    (* then one pass, with autograd off *)
    trace w' = trace w0 ++ EvTorchLoad (checkpoint_path out)
                        :: pass_events mt dev (reloaded dev m sd) false
                             (load_batches testdl (S (rng w0))) /\
    Forall2 (fun b o => forward (reloaded dev m sd) (place mt dev b) = Ok o)
            (load_batches testdl (S (rng w0))) outs /\
    cat_all (map b_labels (load_batches testdl (S (rng w0)))) = Ok labels /\
    cat_all (map logits_of outs) = Ok logits /\
    (* the four scalars returned *)
    cross_entropy (tensor_cpu logits) labels = Ok loss /\
    softmax logits 1 = Ok probs /\
    select_col 1 probs = Ok positive /\
    np_argmax probs 1 = Ok predicted' /\
    accuracy_score labels predicted' = Ok acc /\
    average_precision_score labels positive = Ok auprc /\
    roc_auc_score labels positive = Ok auc /\
    (* and the document written *)
    torch_argmax probs 1 = Ok predicted /\
    classification_report labels predicted = Ok rep /\
    files w' = <[results_path out := json_dumps doc]> (files w0) /\
    doc !! "test_loss" = Some (JNum loss) /\
    doc !! "accuracy" = Some (JNum acc) /\
    doc !! "AUPRC" = Some (JNum auprc) /\
    doc !! "AUROC" = Some (JNum auc) /\
    (forall k v, rep !! k = Some v -> doc !! k = Some v).
Proof.
  intros Hrun Hkeys Hacc.
  pose proof (test_spec testdl out dev mt m w0) as Hspec.
  unfold wp in Hspec. rewrite Hrun in Hspec.
  destruct Hspec as (s & sd & outs & labels & logits & probs & predicted & predicted' &
                     positive & rep & Hs & Hsd & Ht & Hf & Hl & Hp & Hloss & Hsm & Ham &
                     Hrep & Hcol & Hauc & Hap & Hnp & Hac & Hfiles & _).
  destruct (Hkeys _ _ _ Hrep) as (K1 & K2 & K3).
  destruct (headline_lookup loss acc auprc auc) as (L1 & L2 & L3 & L4).
  exists s, sd, outs, labels, logits, probs, positive, predicted, predicted', rep,
         (rep ∪ headline loss acc auprc auc).
  split_and!; try done.
  - by rewrite lookup_union_r.
  - destruct (rep !! "accuracy") as [v|] eqn:Hv.
    + rewrite (Hacc _ _ _ _ _ _ _ Ham Hnp Hrep Hac Hv) in Hv.
      by apply lookup_union_Some_l.
    + by rewrite lookup_union_r.
  - by rewrite lookup_union_r.
  - by rewrite lookup_union_r.
  - intros k v Hk. by apply lookup_union_Some_l.
Qed.

(** ** Loaders and device of a whole run *)

Lemma query_events_quiet c : forward_calls (query_events c) = [].
Proof. by destruct c. Qed.

Lemma run_event_calls tdl vdl testdl out mt dev g rest :
  Forall (run_event tdl vdl testdl out mt dev g) rest ->
  Forall (fun e => is_query e = false /\ is_loader_event e = false) rest /\
  Forall (fun call =>
            m_device call.1.1 = Some dev /\
            placed mt dev [tdl; vdl; testdl] call /\
            (m_training call.1.1 = true ->
             exists n b, b ∈ load_batches tdl n /\ call.2 = place mt dev b))
         (forward_calls rest).
Proof.
  induction 1 as [|e rest He _ [IH1 IH2]]; [split; constructor|].
  destruct e; simpl in *;
    try (destruct He as [He | He]; simpl in He; contradiction);
    try (split; [constructor; done | done]).
  split; [by constructor|]. constructor; [|done]. simpl.
  destruct He as [[Hd [(Htr & _ & n & b & Hb & ->) | (Htr & _ & n & b & Hb & ->)]]
                 | (Hd & Htr & _ & n & b & Hb & ->)].
  - split_and!; [done | | by exists n, b].
    exists tdl, n, b. simpl.
    split_and!; try done; [by left | apply place_moved | apply place_unmoved].
  - split_and!; [done | | congruence].
    exists vdl, n, b. simpl.
    split_and!; try done; [right; by left | apply place_moved | apply place_unmoved].
  - split_and!; [done | | congruence].
    exists testdl, n, b. simpl.
    split_and!; try done; [right; right; by left | apply place_moved | apply place_unmoved].
Qed.

(** C7: the first thing [train_test] does is to ask for the training data
    loader, with batch size [batch_size // 2]: 32 for a configured batch
    size of 64.  Every batch the model is later called on in training mode
    was drawn from that loader. *)
Theorem train_loader_gets_half_batch_size train_pair val_data test_data out mt margs
    batch_size epochs patience lr crit w0 :
  let tdl := mkDataLoader train_pair (batch_size / 2) true 16 paired_collate_fn_truncate true in
  let w' := (train_test train_pair val_data test_data out mt margs batch_size epochs patience
               lr crit w0).2 in
  dl_batch_size tdl = batch_size / 2 /\
  dl_batch_size (train_loader_of train_pair 64) = 32 /\
  exists evs,
    trace w' = trace w0 ++ EvDataLoader tdl :: evs /\
    Forall (fun call =>
              m_training call.1.1 = true ->
              exists n b, b ∈ load_batches tdl n /\
                          call.2 = place mt (preferred_device (cuda_available w0)
                                               (mps_available w0)) b)
           (forward_calls evs).
Proof.
  intros tdl w'. split; [done|]. split; [reflexivity|].
  unfold w'.
  pattern (train_test train_pair val_data test_data out mt margs batch_size epochs patience
             lr crit w0).2.
  pose proof (train_test_spec train_pair val_data test_data out mt margs batch_size epochs
                patience lr crit w0) as Hspec.
  cbv zeta in Hspec.
  assert (Hgoal : forall w, (exists evs, trace w = trace w0 ++ evs /\
                     train_test_calls train_pair val_data test_data out mt batch_size w0 evs) ->
            exists evs,
              trace w = trace w0 ++ EvDataLoader tdl :: evs /\
              Forall (fun call =>
                        m_training call.1.1 = true ->
                        exists n b, b ∈ load_batches tdl n /\
                                    call.2 = place mt (preferred_device (cuda_available w0)
                                                         (mps_available w0)) b)
                     (forward_calls evs)).
  { intros w (evs & Ht & Hcalls). unfold train_test_calls in Hcalls.
    fold tdl in Hcalls. unfold train_loader_of in Hcalls. fold tdl in Hcalls.
    destruct Hcalls as [[-> _] | [[-> _] | [[-> _] | (rest & -> & Hrest)]]].
    - exists []. split; [done | constructor].
    - eexists. split; [exact Ht | constructor].
    - eexists. split; [exact Ht | constructor].
    - eexists. split; [exact Ht|]. simpl.
      rewrite forward_calls_app, query_events_quiet. simpl.
      apply run_event_calls in Hrest as [_ Hcalls].
      eapply Forall_impl; [exact Hcalls|]. intros call (_ & _ & H). exact H. }
  eapply wp_world; [exact Hspec | |]; cbv beta; intros; by apply Hgoal.
Qed.

(** C8: [train_test] asks once which device to use, after building the
    three data loaders and before anything else: CUDA if it is available,
    else MPS if that is available, else the CPU.  Every later call, by
    [train] and by [test] alike, is made with the model on that device, and
    with the batch moved to that device unless the model type is [grud];
    no further availability query is made. *)
Theorem device_selected_once_and_held train_pair val_data test_data out mt margs
    batch_size epochs patience lr crit w0 :
  let device := preferred_device (cuda_available w0) (mps_available w0) in
  let w' := (train_test train_pair val_data test_data out mt margs batch_size epochs patience
               lr crit w0).2 in
  (device = if cuda_available w0 then cuda else if mps_available w0 then mps else cpu) /\
  (select_device w0).1 = Ok device /\
  exists pre post,
    trace w' = trace w0 ++ pre ++ post /\
    Forall (fun e => is_loader_event e = true) pre /\
    ((post = [] /\ exists dl, EvDataLoader dl ∈ pre /\ is_Some (loader_check dl)) \/
     exists rest,
       post = query_events (cuda_available w0) ++ rest /\
       Forall (fun e => is_query e = false /\ is_loader_event e = false) rest /\
       Forall (fun call =>
                 m_device call.1.1 = Some device /\
                 placed mt device [train_loader_of train_pair batch_size;
                                   val_loader_of val_data batch_size;
                                   test_loader_of test_data batch_size] call)
              (forward_calls rest)).
Proof.
  intros device w'. split; [done|]. split.
  { pose proof (select_device_spec w0) as Hs. unfold wp in Hs.
    destruct (select_device w0) as [[d|e] w1]; [by destruct Hs as [-> _] | done]. }
  unfold w'.
  pattern (train_test train_pair val_data test_data out mt margs batch_size epochs patience
             lr crit w0).2.
  pose proof (train_test_spec train_pair val_data test_data out mt margs batch_size epochs
                patience lr crit w0) as Hspec.
  cbv zeta in Hspec.
  eapply wp_world; [exact Hspec | |]; cbv beta;
    intros _ w (evs & Ht & Hcalls); unfold train_test_calls in Hcalls;
    destruct Hcalls as [[-> Hc] | [[-> Hc] | [[-> Hc] | (rest & -> & Hrest)]]].
  all: try (eexists _, []; rewrite app_nil_r; split; [exact Ht|];
            split; [repeat constructor|]; left; split; [done|];
            eexists; split; [|exact Hc]; set_solver).
  all: exists [EvDataLoader (train_loader_of train_pair batch_size);
               EvDataLoader (test_loader_of test_data batch_size);
               EvDataLoader (val_loader_of val_data batch_size)],
              (query_events (cuda_available w0) ++ rest);
       split; [exact Ht|]; split; [repeat constructor|]; right;
       exists rest; split; [done|];
       apply run_event_calls in Hrest as [Hq Hcalls]; split; [done|];
       eapply Forall_impl; [exact Hcalls|]; intros call (? & ? & _); done.
Qed.

(** * Further properties of [train], [test] and [train_test] *)

Lemma bind_cong {A B} (m : Py A) (k k' : A -> Py B) w :
  (forall a w', m w = (Ok a, w') -> k a w' = k' a w') ->
  bind m k w = bind m k' w.
Proof.
  intros H. unfold bind. destruct (m w) as [[a|e] w']; [by apply H | done].
Qed.

(** [test] uses the model it is given only for its architecture: weights,
    mode and placement are all replaced before the first model call, so two
    models built by the same constructor call give the same run. *)
Theorem test_ignores_given_weights testdl out dev mt (m m' : model) w :
  m_ctor m = m_ctor m' ->
  test testdl out dev mt m w = test testdl out dev mt m' w.
Proof.
  intros Hctor. unfold test.
  apply bind_cong. intros probe w1 _.
  apply bind_cong. intros dims w2 _.
  apply bind_cong. intros sd w3 _.
  unfold bind, load_state_dict, model_to, set_training. rewrite Hctor.
  destruct (state_dict_fits (m_ctor m') sd); simpl; reflexivity.
Qed.

(** Without a checkpoint file [test] raises before the first model call and
    writes nothing; once the probe batch was read the exception is the
    [FileNotFoundError] of [torch.load]. *)
Theorem test_without_checkpoint_raises testdl out dev mt (m : model) w0 :
  files w0 !! checkpoint_path out = None ->
  let run := test testdl out dev mt m w0 in
  (exists e, run.1 = Raise e /\
             (is_ok (probe_shapes (load_batches testdl (rng w0)) w0).1 = true ->
              e = FileNotFoundError (checkpoint_path out))) /\
  files run.2 = files w0 /\
  exists evs, trace run.2 = trace w0 ++ evs /\ forward_calls evs = [].
Proof.
  intros Hnone run. unfold run, test, torch_load. unfold bind, iter, emit, read_file.
  destruct (probe_shapes_pure (load_batches testdl (rng w0))) as [r Hr].
  rewrite !Hr. simpl. destruct r as [dims|e]; simpl.
  - rewrite Hnone. simpl. split_and!; try done.
    + by exists (FileNotFoundError (checkpoint_path out)).
    + by exists [EvTorchLoad (checkpoint_path out)].
  - split_and!; try done.
    + exists e. split; [done | discriminate].
    + exists []. by rewrite app_nil_r.
Qed.

Lemma test_event_quiet tdl out mt dev evs :
  Forall (test_event tdl out mt dev) evs ->
  submitted evs = [] /\ completed evs = [] /\
  Forall (fun e => is_query e = false /\ is_loader_event e = false) evs.
Proof.
  induction 1 as [|e evs He _ (IH1 & IH2 & IH3)]; [done|].
  destruct e; simpl in He; try contradiction; simpl; split_and!; try done;
    by constructor.
Qed.

(** [test] changes no file but [test_results.json], and that one only when
    it returns: a run that raises leaves the file system as it was.  In
    both cases the autograd switch is back to what it was, nothing was
    submitted to the early-stopping controller and no epoch was run. *)
Theorem test_writes_only_its_report testdl out dev mt (m : model) w0 :
  let run := test testdl out dev mt m w0 in
  (forall p, p <> results_path out -> files run.2 !! p = files w0 !! p) /\
  (is_ok run.1 = false -> files run.2 = files w0) /\
  (is_ok run.1 = true -> is_Some (files run.2 !! results_path out)) /\
  grad_enabled run.2 = grad_enabled w0 /\
  exists evs, trace run.2 = trace w0 ++ evs /\ submitted evs = [] /\ completed evs = [].
Proof.
  intros run. unfold run.
  apply (wp_post _ _ _
           (fun r w' =>
              (forall p, p <> results_path out -> files w' !! p = files w0 !! p) /\
              (is_ok r = false -> files w' = files w0) /\
              (is_ok r = true -> is_Some (files w' !! results_path out)) /\
              grad_enabled w' = grad_enabled w0 /\
              exists evs, trace w' = trace w0 ++ evs /\ submitted evs = [] /\
                          completed evs = [])
           _ (test_spec testdl out dev mt m w0)).
  - intros [[[loss acc] auprc] auc] w'
           (s & sd & outs & labels & logits & probs & p1 & p2 & pos & rep & _ & _ & Ht &
            _ & _ & _ & _ & _ & _ & _ & _ & _ & _ & _ & _ & Hfiles & Hg & _).
    split_and!; try done.
    + intros p Hp. by rewrite Hfiles, lookup_insert_ne.
    + intros _. rewrite Hfiles, lookup_insert_eq. by eexists.
    + eexists. split; [exact Ht|].
      assert (Hq : Forall (test_event testdl out mt dev)
                     (EvTorchLoad (checkpoint_path out)
                        :: pass_events mt dev (reloaded dev m sd) false
                             (load_batches testdl (S (rng w0))))).
      { constructor; [done|]. eapply pass_events_test; done. }
      apply test_event_quiet in Hq as (H1 & H2 & _). done.
  - intros e w' [[evs [Ht Hev]] (Hfiles & Hg & _)].
    split_and!; try done.
    + intros p _. by rewrite Hfiles.
    + exists evs. apply test_event_quiet in Hev as (H1 & H2 & _). done.
Qed.

Lemma probe_shapes_error (bs : list batch) e w :
  probe_error bs = Some e -> probe_shapes bs w = (Raise e, w).
Proof.
  unfold probe_error, probe_shapes. destruct bs as [|b bs]; [by intros [= <-]|].
  unfold bind, lift, shape_at.
  destruct (length (shape (b_data b)) <? 3)%nat eqn:H3; simpl.
  - intros [= <-]. apply Nat.ltb_lt in H3.
    rewrite (lookup_ge_None_2 (shape (b_data b)) 2) by lia. done.
  - apply Nat.ltb_ge in H3.
    destruct (lookup_lt_is_Some_2 (shape (b_data b)) 2) as [n2 ->]; [lia|].
    destruct (lookup_lt_is_Some_2 (shape (b_data b)) 1) as [n1 ->]; [lia|].
    destruct (length (shape (b_static b)) <? 2)%nat eqn:H2; [|done].
    intros [= <-]. apply Nat.ltb_lt in H2.
    rewrite (lookup_ge_None_2 (shape (b_static b)) 1) by lia. done.
Qed.

(** [train] reads the shapes off the first batch of a pass over the
    training loader before anything else.  On an empty loader it raises
    [StopIteration], on a first batch whose data tensor has fewer than
    three dimensions (or static tensor fewer than two) [IndexError]; in
    both cases no model was built or called and no file was touched. *)
Theorem train_fails_on_bad_probe tdl vdl out epochs patience dev mt lr crit margs w0 e :
  probe_error (load_batches tdl (rng w0)) = Some e ->
  let run := train tdl vdl out epochs patience dev mt lr crit margs w0 in
  run.1 = Raise e /\ trace run.2 = trace w0 /\ files run.2 = files w0.
Proof.
  intros He run. unfold run, train, bind, iter.
  rewrite (probe_shapes_error _ e) by done. done.
Qed.

(** [test] reads the same shapes off the first batch of a pass over the
    test loader, before it loads the checkpoint: on an empty loader or a
    first batch of too few dimensions it raises without having loaded
    anything, called the model or written a file. *)
Theorem test_fails_on_bad_probe testdl out dev mt (m : model) w0 e :
  probe_error (load_batches testdl (rng w0)) = Some e ->
  let run := test testdl out dev mt m w0 in
  run.1 = Raise e /\ trace run.2 = trace w0 /\ files run.2 = files w0.
Proof.
  intros He run. unfold run, test, bind, iter.
  rewrite (probe_shapes_error _ e) by done. done.
Qed.

Lemma train_event_inside tdl vdl mt dev g evs :
  Forall (train_event tdl vdl mt dev g) evs ->
  Forall (fun e => outside_train e = false) evs.
Proof.
  intros H. eapply Forall_impl; [exact H|]. intros e. by destruct e.
Qed.

Lemma train_event_by_mode tdl vdl mt dev g evs :
  Forall (train_event tdl vdl mt dev g) evs ->
  Forall (call_by_mode tdl vdl mt dev g) (forward_calls evs).
Proof.
  induction 1 as [|e evs He _ IH]; [constructor|].
  destruct e; simpl in *; try done.
  constructor; [|done]. unfold call_by_mode. simpl.
  destruct He as [Hd [(-> & Hg & Hb) | (-> & Hg & Hb)]]; done.
Qed.

(** The only files [train] ever writes are [training_log.csv],
    [checkpoint.pt] and [train_curves.jpg] under its output path; it never
    builds a loader, asks for a device or loads a checkpoint back (so the
    weights of the model it ends with are those of its last optimisation
    step), and on every exit, by [return] or by an exception, the autograd
    switch is as it was on entry. *)
Theorem train_writes_only_its_three_files tdl vdl out epochs patience dev mt lr crit margs w0 :
  let run := train tdl vdl out epochs patience dev mt lr crit margs w0 in
  (forall p, p <> log_path out -> p <> checkpoint_path out -> p <> curves_path out ->
             files run.2 !! p = files w0 !! p) /\
  grad_enabled run.2 = grad_enabled w0 /\
  exists evs, trace run.2 = trace w0 ++ evs /\ Forall (fun e => outside_train e = false) evs.
Proof.
  intros run. unfold run.
  pattern (train tdl vdl out epochs patience dev mt lr crit margs w0).2.
  assert (Hp : forall w evs, train_progress tdl vdl out epochs dev mt crit w0 w evs ->
            (forall p, p <> log_path out -> p <> checkpoint_path out -> p <> curves_path out ->
                       files w !! p = files w0 !! p) /\
            grad_enabled w = grad_enabled w0 /\
            exists evs, trace w = trace w0 ++ evs /\
                        Forall (fun e => outside_train e = false) evs).
  { intros w evs (Ht & Hev & _ & _ & _ & _ & _ & Hother & _ & Hg & _).
    split_and!; try done. exists evs. split; [done | by eapply train_event_inside]. }
  eapply wp_world; [apply train_spec | |]; cbv beta.
  - intros r w (evs & rec & Hprog & _). by apply (Hp w evs).
  - intros e w [(Ht & Hf & Hg & _) | (evs & Hprog)]; [|by apply (Hp w evs)].
    split_and!; try done; [intros; by rewrite Hf|].
    exists []. split; [by rewrite app_nil_r | constructor].
Qed.

(** Every model call of [train] is made on the device it was given; a
    call in training mode runs with autograd as it was on entry, on a batch
    of the training loader; a call in evaluation mode runs with autograd
    off, on a batch of the validation loader.  So no validation batch is
    ever trained on and no gradient is tracked during validation. *)
Theorem train_calls_by_mode tdl vdl out epochs patience dev mt lr crit margs w0 :
  exists evs,
    trace (train tdl vdl out epochs patience dev mt lr crit margs w0).2 = trace w0 ++ evs /\
    Forall (call_by_mode tdl vdl mt dev (grad_enabled w0)) (forward_calls evs).
Proof.
  pattern (train tdl vdl out epochs patience dev mt lr crit margs w0).2.
  eapply wp_world; [apply train_spec | |]; cbv beta.
  - intros r w (evs & rec & (Ht & Hev & _) & _).
    exists evs. split; [done | by eapply train_event_by_mode].
  - intros e w [(Ht & _) | (evs & Ht & Hev & _)].
    + exists []. split; [by rewrite app_nil_r | constructor].
    + exists evs. split; [done | by eapply train_event_by_mode].
Qed.

(** When [train] returns, at least one epoch was completed, the loss it
    returns is the validation loss of the last completed epoch, none of the
    earlier epochs ended with the stop flag set, and either the whole epoch
    budget was used or the last epoch set the flag: the loop is left early
    exactly by the first epoch that sets it. *)
Theorem train_returns_last_validation_loss tdl vdl out epochs patience dev mt lr crit margs w0
    val_loss (m : model) w' :
  train tdl vdl out epochs patience dev mt lr crit margs w0 = (Ok (val_loss, m), w') ->
  exists evs rec,
    trace w' = trace w0 ++ evs /\
    last (completed evs) = Some rec /\
    val_loss = r_val_loss rec /\
    r_epoch rec = length (completed evs) /\
    Forall (fun r => r_stop r = false) (removelast (completed evs)) /\
    (length (completed evs) = Z.to_nat epochs \/ r_stop rec = true).
Proof.
  intros Hrun.
  pose proof (train_spec tdl vdl out epochs patience dev mt lr crit margs w0) as Hspec.
  unfold wp in Hspec. rewrite Hrun in Hspec.
  destruct Hspec as (evs & rec & (Ht & _ & _ & Hseq & _ & Hrl & _) & Hlast & Hvl & Hend).
  exists evs, rec. split_and!; try done.
  apply last_Some in Hlast as [l' Hl']. rewrite Hl' in Hseq |- *.
  rewrite map_app, length_app, seq_app in Hseq. simpl in Hseq.
  apply app_inj_tail in Hseq as [_ Hseq]. rewrite length_app. simpl. lia.
Qed.

(** ** [train_test] as the composition of its parts *)

Lemma results_log_paths out : results_path out <> log_path out.
Proof. unfold log_path, results_path. intros H. by apply (inj (String.app out)) in H. Qed.

Lemma results_checkpoint_paths out : results_path out <> checkpoint_path out.
Proof.
  unfold checkpoint_path, results_path. intros H. by apply (inj (String.app out)) in H.
Qed.

Lemma results_curves_paths out : results_path out <> curves_path out.
Proof. unfold curves_path, results_path. intros H. by apply (inj (String.app out)) in H. Qed.

Lemma select_device_run w :
  select_device w =
  (Ok (preferred_device (cuda_available w) (mps_available w)),
   add_events (query_events (cuda_available w)) w).
Proof.
  pose proof (select_device_spec w) as H. unfold wp in H.
  destruct (select_device w) as [[d|e] w']; [|done]. by destruct H as [-> ->].
Qed.

(** A failing loader stops the run on the spot. *)
Lemma train_test_loader_failure_run train_pair val_data test_data out mt margs batch_size
    epochs patience lr crit w0 e :
  first_loader_error (train_loader_of train_pair batch_size)
    (test_loader_of test_data batch_size) (val_loader_of val_data batch_size) = Some e ->
  exists evs,
    train_test train_pair val_data test_data out mt margs batch_size epochs patience lr crit w0
    = (Raise e, add_events evs w0) /\
    Forall (fun ev => is_loader_event ev = true) evs.
Proof.
  unfold first_loader_error, train_test, DataLoader_new.
  fold (train_loader_of train_pair batch_size) (test_loader_of test_data batch_size)
       (val_loader_of val_data batch_size).
  unfold bind, emit, raise, ret.
  destruct (loader_check (train_loader_of train_pair batch_size)) as [e1|].
  { intros [= <-]. eexists [_]. split; [reflexivity | by repeat constructor]. }
  destruct (loader_check (test_loader_of test_data batch_size)) as [e2|].
  { intros [= <-]. eexists [_; _]. split.
    - unfold add_events. simpl. rewrite <- app_assoc. reflexivity.
    - by repeat constructor. }
  intros ->. eexists [_; _; _]. split.
  - unfold add_events. simpl. rewrite <- !app_assoc. reflexivity.
  - by repeat constructor.
Qed.

(** Once the loaders are built, [train_test] is [train] followed, if it
    returns, by [test] on the model it returned, both on the preferred
    device. *)
Lemma train_test_unfold train_pair val_data test_data out mt margs batch_size epochs patience
    lr crit w0 :
  first_loader_error (train_loader_of train_pair batch_size)
    (test_loader_of test_data batch_size) (val_loader_of val_data batch_size) = None ->
  train_test train_pair val_data test_data out mt margs batch_size epochs patience lr crit w0 =
  match train (train_loader_of train_pair batch_size) (val_loader_of val_data batch_size) out
          epochs patience (preferred_device (cuda_available w0) (mps_available w0)) mt lr crit
          margs (after_setup train_pair val_data test_data batch_size w0) with
  | (Ok (val_loss, m), w2) =>
      test (test_loader_of test_data batch_size) out
        (preferred_device (cuda_available w0) (mps_available w0)) mt m w2
  | (Raise e, w2) => (Raise e, w2)
  end.
Proof.
  unfold first_loader_error, train_test, DataLoader_new.
  fold (train_loader_of train_pair batch_size) (test_loader_of test_data batch_size)
       (val_loader_of val_data batch_size).
  destruct (loader_check (train_loader_of train_pair batch_size)); [done|].
  destruct (loader_check (test_loader_of test_data batch_size)); [done|].
  intros ->. unfold bind at 1 2 3 4 5 6 7. unfold emit, ret. simpl.
  rewrite select_device_run. simpl.
  replace (add_events _ _) with (after_setup train_pair val_data test_data batch_size w0).
  2:{ unfold after_setup, add_events. simpl. by rewrite <- !app_assoc. }
  unfold bind.
  destruct (train _ _ _ _ _ _ _ _ _ _ _) as [[[vl m]|e] w2]; reflexivity.
Qed.

(** If a [DataLoader] cannot be built, [train_test] raises the exception
    of the first one that fails (training, then test, then validation)
    right away: no device is queried, no model is built or called and no
    file is touched. *)
Theorem train_test_stops_at_failing_loader train_pair val_data test_data out mt margs batch_size
    epochs patience lr crit w0 e :
  first_loader_error (train_loader_of train_pair batch_size)
    (test_loader_of test_data batch_size) (val_loader_of val_data batch_size) = Some e ->
  let run := train_test train_pair val_data test_data out mt margs batch_size epochs patience
               lr crit w0 in
  run.1 = Raise e /\ files run.2 = files w0 /\
  exists evs, trace run.2 = trace w0 ++ evs /\
              Forall (fun ev => is_loader_event ev = true) evs.
Proof.
  intros He run.
  destruct (train_test_loader_failure_run train_pair val_data test_data out mt margs batch_size
              epochs patience lr crit w0 e He) as (evs & Hrun & Hev).
  unfold run. rewrite Hrun. simpl. split_and!; try done. by exists evs.
Qed.

Lemma test_no_checkpoint_run testdl out dev mt (m : model) w :
  files w !! checkpoint_path out = None ->
  exists e w', test testdl out dev mt m w = (Raise e, w') /\ files w' = files w.
Proof.
  intros Hnone. unfold test, torch_load. unfold bind, iter, emit, read_file.
  destruct (probe_shapes_pure (load_batches testdl (rng w))) as [r Hr].
  rewrite !Hr. simpl. destruct r as [dims|e]; simpl.
  - rewrite Hnone. by eexists _, _.
  - by eexists _, _.
Qed.

Lemma loader_events_quiet evs :
  Forall (fun ev => is_loader_event ev = true) evs ->
  completed evs = [] /\ Forall (fun ev => is_load ev = false) evs.
Proof.
  induction 1 as [|e evs He _ [IH1 IH2]]; [done|].
  destruct e; try discriminate He. split; [done | by constructor].
Qed.

Lemma setup_events_quiet (a b c : loader) has_cuda :
  completed ([EvDataLoader a; EvDataLoader b; EvDataLoader c] ++ query_events has_cuda) = [] /\
  Forall (fun ev => is_load ev = false)
         ([EvDataLoader a; EvDataLoader b; EvDataLoader c] ++ query_events has_cuda).
Proof. destruct has_cuda; split; simpl; repeat constructor. Qed.

Lemma train_event_no_load tdl vdl mt dev g evs :
  Forall (train_event tdl vdl mt dev g) evs -> Forall (fun ev => is_load ev = false) evs.
Proof.
  intros H. eapply Forall_impl; [exact H|]. intros e. by destruct e.
Qed.

(** With an early-stop criterion outside the four, training writes no
    checkpoint; so when no checkpoint file was there before, [train_test]
    never returns and never writes [test_results.json]: whatever else
    happens, the evaluation fails at the latest on the missing file. *)
Theorem unknown_criterion_run_never_reports train_pair val_data test_data out mt margs
    batch_size epochs patience lr crit w0 :
  crit ∉ known_criteria ->
  files w0 !! checkpoint_path out = None ->
  let run := train_test train_pair val_data test_data out mt margs batch_size epochs patience
               lr crit w0 in
  is_ok run.1 = false /\
  files run.2 !! results_path out = files w0 !! results_path out.
Proof.
  intros Hcrit Hnone run. unfold run. apply assoc_unknown in Hcrit.
  destruct (first_loader_error (train_loader_of train_pair batch_size)
              (test_loader_of test_data batch_size) (val_loader_of val_data batch_size))
    as [e|] eqn:Hl.
  { destruct (train_test_loader_failure_run train_pair val_data test_data out mt margs
                batch_size epochs patience lr crit w0 e Hl) as (evs & -> & _). done. }
  rewrite train_test_unfold by done.
  set (w1 := after_setup train_pair val_data test_data batch_size w0).
  set (dev := preferred_device (cuda_available w0) (mps_available w0)).
  pose proof (train_spec (train_loader_of train_pair batch_size)
                (val_loader_of val_data batch_size) out epochs patience dev mt lr crit margs w1)
    as Hspec.
  unfold wp in Hspec.
  destruct (train _ _ _ _ _ _ _ _ _ _ w1) as [[[vl m]|e] w2].
  - destruct Hspec as (evs & rec & (_ & _ & _ & _ & _ & _ & _ & Hother & Hunk & _) & _).
    destruct (Hunk Hcrit) as [Hck _]. simpl in Hck. rewrite Hnone in Hck.
    destruct (test_no_checkpoint_run (test_loader_of test_data batch_size) out dev mt m w2 Hck)
      as (e & w3 & -> & Hf).
    simpl. split; [done|]. rewrite Hf.
    rewrite Hother; [done | apply results_log_paths | apply results_checkpoint_paths
                     | apply results_curves_paths].
  - simpl. split; [done|].
    destruct Hspec as [(_ & Hf & _) | (evs & _ & _ & _ & _ & _ & _ & _ & Hother & _)].
    + by rewrite Hf.
    + rewrite Hother; [done | apply results_log_paths | apply results_checkpoint_paths
                       | apply results_curves_paths].
Qed.

(** With an epoch budget of zero or less, [train_test] never gets to the
    evaluation: it raises, no epoch is completed, the checkpoint is never
    loaded and [test_results.json] is not written. *)
Theorem nonpositive_epochs_never_evaluate train_pair val_data test_data out mt margs
    batch_size epochs patience lr crit w0 :
  epochs <= 0 ->
  let run := train_test train_pair val_data test_data out mt margs batch_size epochs patience
               lr crit w0 in
  is_ok run.1 = false /\
  files run.2 !! results_path out = files w0 !! results_path out /\
  exists evs, trace run.2 = trace w0 ++ evs /\
              completed evs = [] /\ Forall (fun ev => is_load ev = false) evs.
Proof.
  intros Hep run. unfold run.
  destruct (first_loader_error (train_loader_of train_pair batch_size)
              (test_loader_of test_data batch_size) (val_loader_of val_data batch_size))
    as [e|] eqn:Hl.
  { destruct (train_test_loader_failure_run train_pair val_data test_data out mt margs
                batch_size epochs patience lr crit w0 e Hl) as (evs & -> & Hev).
    apply loader_events_quiet in Hev as [H1 H2]. simpl. split_and!; try done.
    by exists evs. }
  rewrite train_test_unfold by done.
  set (tdl := train_loader_of train_pair batch_size).
  set (vdl := val_loader_of val_data batch_size).
  set (w1 := after_setup train_pair val_data test_data batch_size w0).
  set (dev := preferred_device (cuda_available w0) (mps_available w0)).
  pose proof (train_spec tdl vdl out epochs patience dev mt lr crit margs w1) as Hspec.
  unfold wp in Hspec.
  destruct (setup_events_quiet tdl (test_loader_of test_data batch_size) vdl
              (cuda_available w0)) as [Hs1 Hs2].
  destruct (train _ _ _ _ _ _ _ _ _ _ w1) as [[[vl m]|e] w2].
  - destruct Hspec as (evs & rec & (_ & _ & _ & _ & Hlen & _) & Hlast & _).
    replace (Z.to_nat epochs) with 0%nat in Hlen by lia.
    destruct (completed evs); [done | simpl in Hlen; lia].
  - simpl. split; [done|].
    destruct Hspec as [(Ht & Hf & _) | (evs & Ht & Hev & _ & _ & Hlen & _ & _ & Hother & _)].
    + split; [by rewrite Hf|]. eexists. split; [by rewrite Ht|]. done.
    + split.
      { rewrite Hother; [done | apply results_log_paths | apply results_checkpoint_paths
                         | apply results_curves_paths]. }
      exists (([EvDataLoader tdl; EvDataLoader (test_loader_of test_data batch_size);
                EvDataLoader vdl] ++ query_events (cuda_available w0)) ++ evs).
      split.
      { rewrite Ht. unfold w1, after_setup, add_events. simpl.
        by rewrite <- app_assoc. }
      replace (Z.to_nat epochs) with 0%nat in Hlen by lia.
      rewrite completed_app, Hs1. split.
      * destruct (completed evs); [done | simpl in Hlen; lia].
      * apply Forall_app. split; [done | by eapply train_event_no_load].
Qed.

(** When [train_test] returns, it ran [train] to its return and then
    [test] on the model [train] returned, in the world [train] left.  At
    least one epoch was completed before the checkpoint was loaded; the
    training log holds one row per completed epoch and was not touched by
    the evaluation.  [test_results.json] holds a document in which the four
    values returned stand under [test_loss], [accuracy], [AUPRC] and
    [AUROC], beside every entry of the classification report of the test
    pass, and nothing else: the report of the labels of that pass against
    the class of highest probability under the reloaded model.  (The report has no
    entry named [test_loss], [AUPRC] or [AUROC], and its [accuracy] entry
    is the accuracy score.) *)
Theorem train_test_returns_its_report train_pair val_data test_data out mt margs batch_size
    epochs patience lr crit w0 loss acc auprc auc w' :
  train_test train_pair val_data test_data out mt margs batch_size epochs patience lr crit w0
  = (Ok (loss, acc, auprc, auc), w') ->
  (forall labels pred rep,
      classification_report labels pred = Ok rep ->
      rep !! "test_loss" = None /\ rep !! "AUPRC" = None /\ rep !! "AUROC" = None) ->
  (forall labels probs p1 p2 rep a v,
      torch_argmax probs 1 = Ok p1 -> np_argmax probs 1 = Ok p2 ->
      classification_report labels p1 = Ok rep -> accuracy_score labels p2 = Ok a ->
      rep !! "accuracy" = Some v -> v = JNum a) ->
  let tdl := train_loader_of train_pair batch_size in
  let vdl := val_loader_of val_data batch_size in
  let testdl := test_loader_of test_data batch_size in
  let dev := preferred_device (cuda_available w0) (mps_available w0) in
  let w1 := after_setup train_pair val_data test_data batch_size w0 in
  exists val_loss (m : model) w2 evs_train evs_test s sd outs labels logits probs predicted
         rep doc,
    (* the two parts of the run *)
    train tdl vdl out epochs patience dev mt lr crit margs w1 = (Ok (val_loss, m), w2) /\
    test testdl out dev mt m w2 = (Ok (loss, acc, auprc, auc), w') /\
    trace w2 = trace w1 ++ evs_train /\
    trace w' = trace w2 ++ EvTorchLoad (checkpoint_path out) :: evs_test /\
    completed evs_train <> [] /\
    (length (completed evs_train) <= Z.to_nat epochs)%nat /\
    completed evs_test = [] /\ submitted evs_test = [] /\
    (* the log is that of the training *)
    files w' !! log_path out = Some (log_text (completed evs_train)) /\
    (* the report is that of the test pass under the reloaded model *)
    files w2 !! checkpoint_path out = Some s /\
    torch_unpickle s = Some sd /\
    inputs_of evs_test = map (place mt dev) (load_batches testdl (S (rng w2))) /\
    Forall2 (fun b o => forward (reloaded dev m sd) (place mt dev b) = Ok o)
            (load_batches testdl (S (rng w2))) outs /\
    cat_all (map b_labels (load_batches testdl (S (rng w2)))) = Ok labels /\
    cat_all (map logits_of outs) = Ok logits /\
    softmax logits 1 = Ok probs /\
    torch_argmax probs 1 = Ok predicted /\
    classification_report labels predicted = Ok rep /\
    (* the document written *)
    files w' !! results_path out = Some (json_dumps doc) /\
    doc !! "test_loss" = Some (JNum loss) /\
    doc !! "accuracy" = Some (JNum acc) /\
    doc !! "AUPRC" = Some (JNum auprc) /\
    doc !! "AUROC" = Some (JNum auc) /\
    (forall k v, rep !! k = Some v -> doc !! k = Some v) /\
    (forall k v, doc !! k = Some v ->
                 rep !! k = Some v \/ k ∈ ["test_loss"; "accuracy"; "AUPRC"; "AUROC"]).
Proof.
  intros Hrun Hkeys Hacc tdl vdl testdl dev w1.
  destruct (first_loader_error (train_loader_of train_pair batch_size)
              (test_loader_of test_data batch_size) (val_loader_of val_data batch_size))
    as [e|] eqn:Hl.
  { destruct (train_test_loader_failure_run train_pair val_data test_data out mt margs
                batch_size epochs patience lr crit w0 e Hl) as (evs & Hr & _).
    rewrite Hr in Hrun. discriminate. }
  rewrite train_test_unfold in Hrun by done.
  fold tdl vdl testdl dev w1 in Hrun.
  pose proof (train_spec tdl vdl out epochs patience dev mt lr crit margs w1) as Hspec.
  unfold wp in Hspec.
  destruct (train tdl vdl out epochs patience dev mt lr crit margs w1) as [[[vl m]|e] w2]
    eqn:Htrain; [|discriminate].
  destruct Hspec as (evs & rec & (Ht & _ & _ & _ & Hlen & _ & Hlog & _) & Hlast & _).
  pose proof (test_spec testdl out dev mt m w2) as Htest.
  unfold wp in Htest. rewrite Hrun in Htest.
  destruct Htest as (s & sd & outs & labels & logits & probs & predicted & predicted' &
                     positive & rep & Hs & Hsd & Ht3 & Hf & Hlab & Hlogits & Hloss & Hsm &
                     Ham & Hrep & Hcol & Hauc & Hap & Hnp & Hac & Hfiles & _).
  assert (Hq : Forall (test_event testdl out mt dev)
                 (pass_events mt dev (reloaded dev m sd) false
                    (load_batches testdl (S (rng w2)))))
    by (eapply pass_events_test; done).
  apply test_event_quiet in Hq as (Hq1 & Hq2 & _).
  destruct (Hkeys _ _ _ Hrep) as (K1 & K2 & K3).
  destruct (headline_lookup loss acc auprc auc) as (L1 & L2 & L3 & L4).
  exists vl, m, w2, evs,
         (pass_events mt dev (reloaded dev m sd) false (load_batches testdl (S (rng w2)))),
         s, sd, outs, labels, logits, probs, predicted, rep,
         (rep ∪ headline loss acc auprc auc).
  split_and!; try done.
  - intros Hnil. by rewrite Hnil in Hlast.
  - rewrite Hfiles, lookup_insert_ne by apply results_log_paths. done.
  - apply inputs_of_pass.
  - by rewrite Hfiles, lookup_insert_eq.
  - by rewrite lookup_union_r.
  - destruct (rep !! "accuracy") as [v|] eqn:Hv.
    + rewrite (Hacc _ _ _ _ _ _ _ Ham Hnp Hrep Hac Hv) in Hv.
      by apply lookup_union_Some_l.
    + by rewrite lookup_union_r.
  - by rewrite lookup_union_r.
  - by rewrite lookup_union_r.
  - intros k v Hk. by apply lookup_union_Some_l.
  - intros k v Hk. apply lookup_union_Some_raw in Hk as [Hk | [_ Hk]]; [by left | right].
    unfold headline in Hk.
    repeat (apply lookup_insert_Some in Hk as [[<- _] | [_ Hk]];
            [rewrite !elem_of_cons; tauto|]).
    by rewrite lookup_empty in Hk.
Qed.

(** ** What a returning run of [train] has done *)

(** The model [train] returns is the one it built at the start, for the
    given model type and from the shapes of the first batch of the training
    loader, after its last epoch: it is in evaluation mode and on the
    device, and its architecture is unchanged. *)
Theorem train_returns_model_in_eval_mode tdl vdl out epochs patience dev mt lr crit margs w0
    val_loss (m : model) w' :
  train tdl vdl out epochs patience dev mt lr crit margs w0 = (Ok (val_loss, m), w') ->
  m_training m = false /\ m_device m = Some dev /\
  exists m0, built_from_probe tdl mt dev margs (rng w0) m0 /\ m_ctor m = m_ctor m0.
Proof.
  intros Hrun.
  pose proof (train_run_spec tdl vdl out epochs patience dev mt lr crit margs w0) as Hspec.
  unfold wp in Hspec. rewrite Hrun in Hspec. cbn [fst snd] in Hspec.
  destruct Hspec as (evs & parts & m0 & text & fig & _ & _ & _ & _ & _ & Hb & Hc & Ht & Hd & _).
  split_and!; try done. by exists m0.
Qed.

(** A run of [train] that returns after [k] completed epochs has drawn
    [1 + 2k] passes from its loaders: one for the probe and, per epoch, one
    of the training loader and one of the validation loader.  The model was
    called on every batch of each of these [2k] passes, in order, and on
    nothing else; in particular the batch read by the probe is not taken
    away from the first epoch. *)
Theorem train_feeds_every_batch tdl vdl out epochs patience dev mt lr crit margs w0
    val_loss (m : model) w' :
  train tdl vdl out epochs patience dev mt lr crit margs w0 = (Ok (val_loss, m), w') ->
  exists evs,
    trace w' = trace w0 ++ evs /\
    rng w' = (rng w0 + 1 + 2 * length (completed evs))%nat /\
    inputs_of evs =
      flat_map (fun j => map (place mt dev) (load_batches tdl (rng w0 + 1 + 2 * j))
                         ++ map (place mt dev) (load_batches vdl (rng w0 + 2 + 2 * j)))
               (seq 0 (length (completed evs))).
Proof.
  intros Hrun.
  pose proof (train_run_spec tdl vdl out epochs patience dev mt lr crit margs w0) as Hspec.
  unfold wp in Hspec. rewrite Hrun in Hspec. cbn [fst snd] in Hspec.
  destruct Hspec as (evs & parts & m0 & text & fig & Ht & _ & _ & Hr & Hi & _).
  exists evs. split_and!; done.
Qed.

(** When [train] returns, [train_curves.jpg] holds the curves drawn from
    the complete training log: the header and the rows of all completed
    epochs, as the file stands at the end of the run. *)
Theorem train_draws_curves_of_whole_log tdl vdl out epochs patience dev mt lr crit margs w0
    val_loss (m : model) w' :
  train tdl vdl out epochs patience dev mt lr crit margs w0 = (Ok (val_loss, m), w') ->
  exists evs fig,
    trace w' = trace w0 ++ evs /\
    files w' !! log_path out = Some (log_text (completed evs)) /\
    plot_training_curves (log_text (completed evs)) = Ok fig /\
    files w' !! curves_path out = Some fig.
Proof.
  intros Hrun.
  pose proof (train_run_spec tdl vdl out epochs patience dev mt lr crit margs w0) as Hspec.
  pose proof (train_spec tdl vdl out epochs patience dev mt lr crit margs w0) as Hspec2.
  unfold wp in Hspec, Hspec2. rewrite Hrun in Hspec, Hspec2. cbn [fst snd] in Hspec.
  destruct Hspec as (evs & parts & m0 & text & fig & Ht & _ & _ & _ & _ & _ & _ & _ & _ &
                     Hlog & Hplot & Hfig).
  destruct Hspec2 as (evs2 & rec & (Ht2 & _ & _ & _ & _ & _ & Hlog2 & _) & _).
  rewrite Hlog in Hlog2. injection Hlog2 as ->.
  exists evs2, fig. split_and!; done.
Qed.

Lemma make_model_pure mt dev margs T F St w r w1 :
  make_model mt dev margs T F St w = (r, w1) ->
  w1 = w /\ forall w', make_model mt dev margs T F St w' = (r, w').
Proof.
  unfold make_model, construct, bind, lift, ret.
  repeat (destruct (String.eqb mt _);
          [destruct (instantiate _); intros [= <- <-]; done|]).
  intros [= <- <-]. done.
Qed.

(** How [train] starts once the model is built (lines 176-192): it creates
    the optimiser and then the training log, in that order.  If
    [torch.optim.Adam] raises (on a negative learning rate, say) the run
    ends with that exception; if the output directory does not exist it
    ends with the [FileNotFoundError] of [open]; in both cases no call was
    made and no file touched.  Otherwise the log is created and, however
    the run ends afterwards, it begins with the header line. *)
Theorem known_model_type_starts_training tdl vdl out epochs patience dev mt lr crit margs w0
    (m0 : model) :
  built_from_probe tdl mt dev margs (rng w0) m0 ->
  let run := train tdl vdl out epochs patience dev mt lr crit margs w0 in
  mt ∈ known_model_types /\
  match adam_init (m_weights m0) lr with
  | Raise e => run.1 = Raise e /\ train_not_started w0 run.2
  | Ok _ =>
      if bool_decide (out ∈ dirs w0)
      then exists rest, files run.2 !! log_path out = Some (csv_header +:+ rest)
      else run.1 = Raise (FileNotFoundError (log_path out)) /\ train_not_started w0 run.2
  end.
Proof.
  intros (b & rest0 & T & F & St & w & Hbs & H2 & H1 & H0 & Hmk) run.
  destruct (make_model_pure _ _ _ _ _ _ _ _ _ Hmk) as [_ Hpure].
  split.
  { pose proof (make_model_spec mt dev margs T F St w) as Hms.
    unfold wp in Hms. rewrite Hmk in Hms. destruct Hms as [_ Hms].
    destruct (decide (mt ∈ known_model_types)) as [Hin|Hnin]; [done|].
    by rewrite (make_model_unknown _ _ _ _ _ _ Hnin) in Hmk. }
  unfold run.
  set (P := fun (r : Res (scalar * model)) (w' : World) =>
              match adam_init (m_weights m0) lr with
              | Raise e => r = Raise e /\ train_not_started w0 w'
              | Ok _ =>
                  if bool_decide (out ∈ dirs w0)
                  then exists rest, files w' !! log_path out = Some (csv_header +:+ rest)
                  else r = Raise (FileNotFoundError (log_path out)) /\ train_not_started w0 w'
              end).
  apply (wp_post _ (fun a w' => P (Ok a) w') (fun e w' => P (Raise e) w') P); [|done|done].
  subst P. cbv beta.
  unfold train. wp_step. wp_step. wp_step.
  rewrite Hbs. unfold probe_shapes, shape_at. rewrite H2, H1, H0.
  wp_step. wp_step. wp_step. wp_step. wp_step. wp_step. wp_step. wp_step.
  apply wp_eqn. intros r w1 Hm. rewrite Hpure in Hm. injection Hm as <- <-.
  wp_step. apply wp_local. wp_step. apply wp_lift.
  destruct (adam_init (m_weights m0) lr) as [opt|e] eqn:Hadam.
  2:{ split; [done|]. by unfold train_not_started, same_switches. }
  wp_step. apply wp_write_file. unfold can_open at 1. rewrite dirname_log. cbn [dirs].
  destruct (bool_decide (out ∈ dirs w0)) eqn:Hdir.
  2:{ split; [done|]. by unfold train_not_started, same_switches. }
  assert (Hdirs : forall w, dirs w = dirs w0 -> can_open (log_path out) w = true).
  { intros w' Hw. unfold can_open. by rewrite dirname_log, Hw. }
  wp_step.
  assert (Hhead : forall (x y : string),
            default "" (Some (csv_header +:+ x)) +:+ y = csv_header +:+ (x +:+ y)).
  { intros x y. simpl. apply string_app_assoc. }
  apply wp_mono with
    (Q := fun _ w => dirs w = dirs w0 /\
                     exists rest, files w !! log_path out = Some (csv_header +:+ rest))
    (E := fun _ w => exists rest, files w !! log_path out = Some (csv_header +:+ rest));
    [apply wp_for_each_break with
       (I := fun (_ : list nat) (v : TrainVars) w =>
               es_path (v_early_stopping v) = checkpoint_path out /\
               dirs w = dirs w0 /\
               exists rest, files w !! log_path out = Some (csv_header +:+ rest))
    | | done].
  - split_and!; [done | done |]. exists "". simpl. rewrite lookup_insert_eq. reflexivity.
  - intros epoch l' v w' (Hpath & Hd & [rest Hlog]).
    eapply wp_mono;
      [apply epoch_body_spec;
       [by apply Hdirs | rewrite Hpath, can_open_checkpoint; by apply Hdirs] | |];
      cbv beta.
    + intros [ctl v'] w2 (fw & r & _ & _ & _ & _ & _ & Hpath' & _ & [Hfiles _] & Hsw).
      cbn [fst snd] in *.
      rewrite Hlog, Hpath in Hfiles.
      assert (Hd2 : dirs w2 = dirs w0) by (destruct Hsw as (_ & _ & _ & ->); done).
      assert (Hnew : exists rest', files w2 !! log_path out = Some (csv_header +:+ rest')).
      { exists (rest +:+ record_row r). rewrite <- Hhead.
        destruct Hfiles as [-> | [s ->]].
        - by rewrite lookup_insert_eq.
        - rewrite lookup_insert_ne by (apply not_eq_sym, log_checkpoint_paths).
          by rewrite lookup_insert_eq. }
      destruct ctl; [split_and!; [congruence | done | done] | done].
    + intros _ w2 [_ (Hf & _)]. exists rest. by rewrite Hf.
  - intros v w' (_ & Hd & H). done.
  - intros v w' [Hd [rest Hlog]].
    wp_step. apply wp_read_file. rewrite Hlog.
    wp_step. wp_step; [|by exists rest].
    assert (Hcur : exists rest', (<[curves_path out := a]> (files w')) !! log_path out
                                 = Some (csv_header +:+ rest')).
    { exists rest. by rewrite lookup_insert_ne by (apply not_eq_sym, log_curves_paths). }
    wp_step. apply wp_write_file. rewrite can_open_curves, Hdirs by done.
    wp_step. apply wp_local.
    destruct (v_val_loss v); [wp_step|]; exact Hcur.
Qed.

End Properties.

(** * The properties on a concrete run *)




Lemma unknown_model_type_fails_before_training_witness :
  ("resnet" ∉ known_model_types) /\
  (let run := train (C := Toy.collaborators) Toy.loader Toy.eval_loader "out" 2 5 cpu "resnet" (1 # 10000)
               "auroc" tt Toy.world0 in
  (exists e, run.1 = Raise e /\
             (is_ok (probe_shapes (C := Toy.collaborators) (@load_batches Toy.collaborators Toy.loader (rng Toy.world0)) Toy.world0).1
                = true ->
              e = UnboundLocalError "model")) /\
  trace run.2 = trace Toy.world0 /\ files run.2 = files Toy.world0).
Proof.
  assert (H : "resnet" ∉ known_model_types)
    by (apply (bool_decide_unpack _); vm_compute; exact I).
  split; [exact H|].
  apply (unknown_model_type_fails_before_training (C := Toy.collaborators)). exact H.
Defined.

Lemma unknown_criterion_is_ignored_witness :
  ("f1" ∉ known_criteria (C := Toy.collaborators)) /\
  (forall auc aupr vl (m : Model unit Z) es w,
      submit_criterion (C := Toy.collaborators) "f1" auc aupr vl m es w = (Ok es, w)) /\
  (let run := train (C := Toy.collaborators) Toy.loader Toy.eval_loader "out" 2 5 cpu "mamba" (1 # 10000)
               "f1" tt Toy.world0 in
  exists evs,
    trace run.2 = trace Toy.world0 ++ evs /\
    submitted evs = [] /\
    Forall (fun r => r_stop r = false) (completed evs) /\
    files run.2 !! checkpoint_path "out" = files Toy.world0 !! checkpoint_path "out" /\
    (is_ok run.1 = true -> length (completed evs) = Z.to_nat 2)).
Proof.
  assert (H : "f1" ∉ (known_criteria (C := Toy.collaborators)))
    by (apply (bool_decide_unpack _); vm_compute; exact I).
  split; [exact H|].
  apply (unknown_criterion_is_ignored (C := Toy.collaborators)). exact H.
Defined.


Lemma validation_scores_from_logits_witness :
  let run := validate (C := Toy.collaborators) Toy.eval_loader "mamba" cpu Toy.a_model
               Toy.world0 in
  run = (Ok (1 # 2, 4 # 5, 7 # 10), run.2) /\
  validation_scores (C := Toy.collaborators) "mamba" cpu Toy.a_model
    (@load_batches Toy.collaborators Toy.eval_loader (rng Toy.world0))
    (1 # 2) (4 # 5) (7 # 10).
Proof.
  intros run.
  assert (H : run = (Ok (1 # 2, 4 # 5, 7 # 10), run.2)) by (vm_compute; reflexivity).
  split; [exact H|].
  exact (proj1 (validation_scores_from_logits (C := Toy.collaborators) _ _ _ _ _ _ _ _ _ H)).
Defined.

Lemma test_reloads_checkpoint_and_reports_witness :
  let run := test (C := Toy.collaborators) Toy.eval_loader "out" cpu "mamba" Toy.a_model
               Toy.world1 in
  run = (Ok (1 # 2, 4 # 5, 7 # 10, 4 # 5), run.2) /\
  exists (s : string) (sd : Z) (doc : gmap string (Json Q)),
    files Toy.world1 !! checkpoint_path "out" = Some s /\
    @torch_unpickle Toy.collaborators s = Some sd /\
    trace run.2 = trace Toy.world1 ++ EvTorchLoad (checkpoint_path "out")
                    :: pass_events (C := Toy.collaborators) "mamba" cpu
                         (reloaded (C := Toy.collaborators) cpu Toy.a_model sd) false
                         (@load_batches Toy.collaborators Toy.eval_loader
                            (S (rng Toy.world1))) /\
    files run.2 = <[results_path "out" := @json_dumps Toy.collaborators doc]>
                    (files Toy.world1) /\
    doc !! "test_loss" = Some (JNum (1 # 2)) /\
    doc !! "accuracy" = Some (JNum (4 # 5)) /\
    doc !! "AUPRC" = Some (JNum (7 # 10)) /\
    doc !! "AUROC" = Some (JNum (4 # 5)).
Proof.
  intros run.
  assert (H : run = (Ok (1 # 2, 4 # 5, 7 # 10, 4 # 5), run.2)) by (vm_compute; reflexivity).
  split; [exact H|].
  destruct (test_reloads_checkpoint_and_reports (C := Toy.collaborators) _ _ _ _ _ _ _ _ _ _ _ H)
    as (s & sd & outs & labels & logits & probs & positive & predicted & predicted' & rep &
        doc & H1 & H2 & _ & _ & H5 & _ & _ & _ & _ & _ & _ & _ & _ & _ & _ & _ & _ &
        H18 & H19 & H20 & H21 & H22 & _).
  - intros labels pred rep [= <-]. vm_compute. auto.
  - intros labels probs p1 p2 rep a v _ _ [= <-] [= <-]. vm_compute. by intros [= <-].
  - exists s, sd, doc. split_and!; assumption.
Defined.

(** ** Further properties on concrete runs *)

Lemma run_of_result `{C : Collaborators} {A} (run : Res A * World) (a : A) :
  run.1 = Ok a -> run = (Ok a, run.2).
Proof. destruct run as [r w]. simpl. by intros ->. Qed.

Lemma test_ignores_given_weights_witness :
  m_ctor Toy.a_model = m_ctor Toy.b_model /\
  test (C := Toy.collaborators) Toy.eval_loader "out" cpu "mamba" Toy.a_model Toy.world1 =
  test (C := Toy.collaborators) Toy.eval_loader "out" cpu "mamba" Toy.b_model Toy.world1.
Proof.
  split; [reflexivity|].
  apply (test_ignores_given_weights (C := Toy.collaborators)). reflexivity.
Defined.

Lemma test_without_checkpoint_raises_witness :
  files Toy.world0 !! checkpoint_path "out" = None /\
  (let run := test (C := Toy.collaborators) Toy.eval_loader "out" cpu "mamba" Toy.a_model
                Toy.world0 in
   (exists e, run.1 = Raise e /\
              (is_ok (probe_shapes (C := Toy.collaborators)
                        (@load_batches Toy.collaborators Toy.eval_loader (rng Toy.world0))
                        Toy.world0).1 = true ->
               e = FileNotFoundError (checkpoint_path "out"))) /\
   files run.2 = files Toy.world0 /\
   exists evs, trace run.2 = trace Toy.world0 ++ evs /\ forward_calls evs = []).
Proof.
  assert (H : files Toy.world0 !! checkpoint_path "out" = None) by reflexivity.
  split; [exact H|].
  apply (test_without_checkpoint_raises (C := Toy.collaborators)). exact H.
Defined.

Lemma train_fails_on_bad_probe_witness :
  probe_error (C := Toy.collaborators)
    (@load_batches Toy.collaborators Toy.empty_loader (rng Toy.world0)) = Some StopIteration /\
  (let run := train (C := Toy.collaborators) Toy.empty_loader Toy.eval_loader "out" 2 5 cpu
                "mamba" (1 # 10000) "auroc" tt Toy.world0 in
   run.1 = Raise StopIteration /\ trace run.2 = trace Toy.world0 /\
   files run.2 = files Toy.world0).
Proof.
  assert (H : probe_error (C := Toy.collaborators)
                (@load_batches Toy.collaborators Toy.empty_loader (rng Toy.world0))
              = Some StopIteration) by reflexivity.
  split; [exact H|].
  apply (train_fails_on_bad_probe (C := Toy.collaborators)). exact H.
Defined.

Lemma test_fails_on_bad_probe_witness :
  probe_error (C := Toy.collaborators)
    (@load_batches Toy.collaborators Toy.flat_loader (rng Toy.world1))
  = Some (IndexError "tuple index out of range") /\
  (let run := test (C := Toy.collaborators) Toy.flat_loader "out" cpu "mamba" Toy.a_model
                Toy.world1 in
   run.1 = Raise (IndexError "tuple index out of range") /\
   trace run.2 = trace Toy.world1 /\ files run.2 = files Toy.world1).
Proof.
  assert (H : probe_error (C := Toy.collaborators)
                (@load_batches Toy.collaborators Toy.flat_loader (rng Toy.world1))
              = Some (IndexError "tuple index out of range")) by reflexivity.
  split; [exact H|].
  apply (test_fails_on_bad_probe (C := Toy.collaborators)). exact H.
Defined.

Lemma train_returns_last_validation_loss_witness :
  let run := train (C := Toy.collaborators) Toy.loader Toy.eval_loader "out" 5 2 cpu "mamba"
               (1 # 10000) "loss" tt Toy.world0 in
  exists vl m,
    run = (Ok (vl, m), run.2) /\
    exists evs rec,
      trace run.2 = trace Toy.world0 ++ evs /\
      last (completed evs) = Some rec /\
      vl = r_val_loss rec /\
      r_epoch rec = length (completed evs) /\
      Forall (fun r => r_stop r = false) (removelast (completed evs)) /\
      (length (completed evs) = Z.to_nat 5 \/ r_stop rec = true).
Proof.
  intros run.
  assert (H : run = (Ok (1 # 2, mkModel (CustomMambaModel 1 2 1 1 tt) 6 false (Some cpu)),
                     run.2))
    by (apply run_of_result; vm_compute; reflexivity).
  eexists _, _. split; [exact H|].
  exact (train_returns_last_validation_loss (C := Toy.collaborators) _ _ _ _ _ _ _ _ _ _ _ _ _ _
           H).
Defined.

Lemma train_test_stops_at_failing_loader_witness :
  first_loader_error (C := Toy.collaborators)
    (train_loader_of (C := Toy.collaborators) Toy.dataset 1)
    (test_loader_of (C := Toy.collaborators) Toy.dataset 1)
    (val_loader_of (C := Toy.collaborators) Toy.dataset 1)
  = Some (ValueError "batch_size should be a positive integer value") /\
  (let run := train_test (C := Toy.collaborators) Toy.dataset Toy.dataset Toy.dataset "out"
                "mamba" tt 1 2 5 (1 # 10000) "auroc" Toy.world0 in
   run.1 = Raise (ValueError "batch_size should be a positive integer value") /\
   files run.2 = files Toy.world0 /\
   exists evs, trace run.2 = trace Toy.world0 ++ evs /\
               Forall (fun ev => is_loader_event ev = true) evs).
Proof.
  assert (H : first_loader_error (C := Toy.collaborators)
                (train_loader_of (C := Toy.collaborators) Toy.dataset 1)
                (test_loader_of (C := Toy.collaborators) Toy.dataset 1)
                (val_loader_of (C := Toy.collaborators) Toy.dataset 1)
              = Some (ValueError "batch_size should be a positive integer value"))
    by reflexivity.
  split; [exact H|].
  apply (train_test_stops_at_failing_loader (C := Toy.collaborators)). exact H.
Defined.

Lemma unknown_criterion_run_never_reports_witness :
  ("f1" ∉ known_criteria (C := Toy.collaborators)) /\
  files Toy.world0 !! checkpoint_path "out" = None /\
  (let run := train_test (C := Toy.collaborators) Toy.dataset Toy.dataset Toy.dataset "out"
                "mamba" tt 64 2 5 (1 # 10000) "f1" Toy.world0 in
   is_ok run.1 = false /\
   files run.2 !! results_path "out" = files Toy.world0 !! results_path "out").
Proof.
  assert (H : "f1" ∉ (known_criteria (C := Toy.collaborators)))
    by (apply (bool_decide_unpack _); vm_compute; exact I).
  assert (H' : files Toy.world0 !! checkpoint_path "out" = None) by reflexivity.
  split_and!; [exact H | exact H' |].
  apply (unknown_criterion_run_never_reports (C := Toy.collaborators)); [exact H | exact H'].
Defined.

Lemma nonpositive_epochs_never_evaluate_witness :
  -3 <= 0 /\
  (let run := train_test (C := Toy.collaborators) Toy.dataset Toy.dataset Toy.dataset "out"
                "mamba" tt 64 (-3) 5 (1 # 10000) "auroc" Toy.world1 in
   is_ok run.1 = false /\
   files run.2 !! results_path "out" = files Toy.world1 !! results_path "out" /\
   exists evs, trace run.2 = trace Toy.world1 ++ evs /\
               completed evs = [] /\ Forall (fun ev => is_load ev = false) evs).
Proof.
  split; [lia|].
  apply (nonpositive_epochs_never_evaluate (C := Toy.collaborators)). lia.
Defined.

Lemma train_test_returns_its_report_witness :
  let run := train_test (C := Toy.collaborators) Toy.dataset Toy.dataset Toy.dataset "out"
               "mamba" tt 64 2 5 (1 # 10000) "auroc" Toy.world0 in
  run = (Ok (1 # 2, 4 # 5, 7 # 10, 4 # 5), run.2) /\
  exists evs_train (labels predicted : Tensor Z) (rep doc : gmap string (Json Q)),
    completed evs_train <> [] /\
    files run.2 !! log_path "out" = Some (log_text (C := Toy.collaborators)
                                            (completed evs_train)) /\
    @classification_report Toy.collaborators labels predicted = Ok rep /\
    files run.2 !! results_path "out" = Some (@json_dumps Toy.collaborators doc) /\
    doc !! "test_loss" = Some (JNum (1 # 2)) /\
    doc !! "accuracy" = Some (JNum (4 # 5)) /\
    doc !! "AUPRC" = Some (JNum (7 # 10)) /\
    doc !! "AUROC" = Some (JNum (4 # 5)) /\
    (forall k v, rep !! k = Some v -> doc !! k = Some v).
Proof.
  intros run.
  assert (H : run = (Ok (1 # 2, 4 # 5, 7 # 10, 4 # 5), run.2))
    by (apply run_of_result; vm_compute; reflexivity).
  split; [exact H|].
  destruct (train_test_returns_its_report (C := Toy.collaborators) _ _ _ _ _ _ _ _ _ _ _ _ _ _
              _ _ _ H)
    as (vl & m & w2 & evs_train & evs_test & s & sd & outs & labels & logits & probs &
        predicted & rep & doc & _ & _ & _ & _ & Hne & _ & _ & _ & Hlog & _ & _ & _ & _ & _ &
        _ & _ & _ & Hrep & Hres & D1 & D2 & D3 & D4 & Hall & _).
  - intros labels pred rep [= <-]. vm_compute. auto.
  - intros labels probs p1 p2 rep a v _ _ [= <-] [= <-]. vm_compute. by intros [= <-].
  - exists evs_train, labels, predicted, rep, doc. split_and!; assumption.
Defined.

Lemma train_returns_model_in_eval_mode_witness :
  let run := train (C := Toy.collaborators) Toy.loader Toy.eval_loader "out" 2 5 cpu "mamba"
               (1 # 10000) "auroc" tt Toy.world0 in
  exists vl m,
    run = (Ok (vl, m), run.2) /\
    m_training m = false /\ m_device m = Some cpu /\
    exists m0, built_from_probe (C := Toy.collaborators) Toy.loader "mamba" cpu tt
                 (rng Toy.world0) m0 /\
               m_ctor m = m_ctor m0.
Proof.
  intros run.
  assert (H : run = (Ok (1 # 2, mkModel (CustomMambaModel 1 2 1 1 tt) 4 false (Some cpu)),
                     run.2))
    by (apply run_of_result; vm_compute; reflexivity).
  eexists _, _. split; [exact H|].
  exact (train_returns_model_in_eval_mode (C := Toy.collaborators) _ _ _ _ _ _ _ _ _ _ _ _ _ _
           H).
Defined.

Lemma train_feeds_every_batch_witness :
  let run := train (C := Toy.collaborators) Toy.loader Toy.eval_loader "out" 2 5 mps "seft"
               (1 # 10000) "auprc" tt Toy.world0 in
  exists vl m,
    run = (Ok (vl, m), run.2) /\
    exists evs,
      trace run.2 = trace Toy.world0 ++ evs /\
      rng run.2 = (rng Toy.world0 + 1 + 2 * length (completed evs))%nat /\
      inputs_of evs =
        flat_map (fun j => map (place "seft" mps)
                             (@load_batches Toy.collaborators Toy.loader
                                (rng Toy.world0 + 1 + 2 * j))
                           ++ map (place "seft" mps)
                                (@load_batches Toy.collaborators Toy.eval_loader
                                   (rng Toy.world0 + 2 + 2 * j)))
                 (seq 0 (length (completed evs))).
Proof.
  intros run.
  assert (H : run = (Ok (1 # 2, mkModel (DeepSetAttentionModel 1 2 tt) 4 false (Some mps)),
                     run.2))
    by (apply run_of_result; vm_compute; reflexivity).
  eexists _, _. split; [exact H|].
  exact (train_feeds_every_batch (C := Toy.collaborators) _ _ _ _ _ _ _ _ _ _ _ _ _ _ H).
Defined.

Lemma train_draws_curves_of_whole_log_witness :
  let run := train (C := Toy.collaborators) Toy.loader Toy.eval_loader "out" 1 5 cpu "mamba"
               (1 # 10000) "auprc+auroc" tt Toy.world0 in
  exists vl m,
    run = (Ok (vl, m), run.2) /\
    exists evs fig,
      trace run.2 = trace Toy.world0 ++ evs /\
      files run.2 !! log_path "out" = Some (log_text (completed evs)) /\
      @plot_training_curves Toy.collaborators (log_text (completed evs)) = Ok fig /\
      files run.2 !! curves_path "out" = Some fig.
Proof.
  intros run.
  assert (H : run = (Ok (1 # 2, mkModel (CustomMambaModel 1 2 1 1 tt) 2 false (Some cpu)),
                     run.2))
    by (apply run_of_result; vm_compute; reflexivity).
  eexists _, _. split; [exact H|].
  exact (train_draws_curves_of_whole_log (C := Toy.collaborators) _ _ _ _ _ _ _ _ _ _ _ _ _ _
           H).
Defined.

Lemma known_model_type_starts_training_witness :
  let m0 : Model unit Z := mkModel (InterpolationPredictionModel 2 1 tt) 0 true None in
  let run := fun out lr =>
    train (C := Toy.collaborators) Toy.loader Toy.eval_loader out 2 5 cpu "ipnets" lr "auroc"
      tt Toy.world0 in
  built_from_probe (C := Toy.collaborators) Toy.loader "ipnets" cpu tt (rng Toy.world0) m0 /\
  (* the directory exists and the learning rate is fine: the log is created *)
  (exists rest, files (run "out" (1 # 10000)).2 !! log_path "out"
                = Some (csv_header +:+ rest)) /\
  (* a negative learning rate *)
  ((run "out" ((-1) # 10)).1 = Raise (ValueError "Invalid learning rate") /\
   train_not_started Toy.world0 (run "out" ((-1) # 10)).2) /\
  (* an output directory that does not exist *)
  ((run "nowhere" (1 # 10000)).1 = Raise (FileNotFoundError (log_path "nowhere")) /\
   train_not_started Toy.world0 (run "nowhere" (1 # 10000)).2).
Proof.
  intros m0 run.
  assert (Hb : built_from_probe (C := Toy.collaborators) Toy.loader "ipnets" cpu tt
                 (rng Toy.world0) m0).
  { exists Toy.batch1, [Toy.batch2], 1%nat, 1%nat, 1%nat, Toy.world0.
    split_and!; reflexivity. }
  split; [exact Hb|].
  split_and!.
  - exact (proj2 (known_model_type_starts_training (C := Toy.collaborators) Toy.loader
                    Toy.eval_loader "out" 2 5 cpu "ipnets" (1 # 10000) "auroc" tt Toy.world0
                    m0 Hb)).
  - exact (proj1 (proj2 (known_model_type_starts_training (C := Toy.collaborators) Toy.loader
                           Toy.eval_loader "out" 2 5 cpu "ipnets" ((-1) # 10) "auroc" tt
                           Toy.world0 m0 Hb))).
  - exact (proj2 (proj2 (known_model_type_starts_training (C := Toy.collaborators) Toy.loader
                           Toy.eval_loader "out" 2 5 cpu "ipnets" ((-1) # 10) "auroc" tt
                           Toy.world0 m0 Hb))).
  - exact (proj1 (proj2 (known_model_type_starts_training (C := Toy.collaborators) Toy.loader
                           Toy.eval_loader "nowhere" 2 5 cpu "ipnets" (1 # 10000) "auroc" tt
                           Toy.world0 m0 Hb))).
  - exact (proj2 (proj2 (known_model_type_starts_training (C := Toy.collaborators) Toy.loader
                           Toy.eval_loader "nowhere" 2 5 cpu "ipnets" (1 # 10000) "auroc" tt
                           Toy.world0 m0 Hb))).
Defined.

(** ** Runs of the three functions on the small collaborators *)

Example toy_training_log :
  files (train_test (C := Toy.collaborators) Toy.dataset Toy.dataset Toy.dataset "out"
           "mamba" tt 64 2 5 (1 # 10000) "auroc" Toy.world0).2 !! "out/training_log.csv" =
  Some "epoch,train_loss,val_loss,val_roc_auc_score
1,1/2,1/2,4/5
2,1/2,1/2,4/5
".
Proof. vm_compute. reflexivity. Qed.

Example toy_loss_criterion_stops :
  map (fun r => (r_epoch r, r_stop r))
      (completed (trace (train (C := Toy.collaborators) Toy.loader Toy.eval_loader "out" 5 2
                           cpu "mamba" (1 # 10000) "loss" tt Toy.world0).2)) =
  [(1%nat, false); (2%nat, false); (3%nat, true)].
Proof. vm_compute. reflexivity. Qed.

Example toy_unknown_model_type :
  (train (C := Toy.collaborators) Toy.loader Toy.eval_loader "out" 5 2 cpu "resnet"
     (1 # 10000) "loss" tt Toy.world0).1 = Raise (UnboundLocalError "model").
Proof. vm_compute. reflexivity. Qed.

Example toy_zero_epochs :
  (train (C := Toy.collaborators) Toy.loader Toy.eval_loader "out" 0 2 cpu "mamba"
     (1 # 10000) "loss" tt Toy.world0).1 = Raise (UnboundLocalError "val_loss").
Proof. vm_compute. reflexivity. Qed.

Example toy_test_without_checkpoint :
  (test (C := Toy.collaborators) Toy.eval_loader "out" cpu "mamba" Toy.a_model Toy.world0).1 =
  Raise (FileNotFoundError "out/checkpoint.pt").
Proof. vm_compute. reflexivity. Qed.

Example toy_devices_of_calls :
  let w := boot (C := Toy.collaborators) ∅ ["out"] 0 false true in
  map (fun call => (m_device call.1.1, device (in_x call.2)))
      (forward_calls (trace (train_test (C := Toy.collaborators) [Toy.batch2] [Toy.batch2]
                               [Toy.batch2] "out" "seft" tt 64 1 5 (1 # 10000) "auroc" w).2)) =
  [(Some mps, mps); (Some mps, mps); (Some mps, mps)] /\
  map (fun call => (m_device call.1.1, device (in_x call.2)))
      (forward_calls (trace (train_test (C := Toy.collaborators) [Toy.batch2] [Toy.batch2]
                               [Toy.batch2] "out" "grud" tt 64 1 5 (1 # 10000) "auroc" w).2)) =
  [(Some mps, cpu); (Some mps, cpu); (Some mps, cpu)].
Proof. vm_compute. split; reflexivity. Qed.
